(** * Kernel development tools: a shallow embedding and its properties

    The Python sources embedded here are [kdt_utils.py], [kernel_builder.py],
    [get_ip.py] and [git_format_patch.py].

    Conventions of the embedding.
    - A Python [str] is a Rocq [string]; one [ascii] stands for one character
      of the decoded text.  The text this code handles (command output of
      [fdisk], INI keys, [/etc/hosts], patch lines) is ASCII, where UTF-8
      bytes and code points coincide.
    - A call that may leave through [sys.exit] or an uncaught exception
      returns an [outcome].
    - A [dict] of strings (the process environment, a section of the
      board registry) is a [gmap string string]; a dict whose order is
      observable (the boards found, the hosts found, the sections and
      options that [configparser] writes) is an association list.
    - [subprocess.run] either finds no executable or runs the command to
      its end; other failures to launch (a file that may not be executed,
      an empty command) are outside the model, and the statements about a
      launch name the outcome they are about.
    - [configparser] is modelled as CPython 3.11 has it. *)

From Stdlib Require Import ZArith NArith Ascii String List Bool Lia.
From Stdlib Require Import DecimalString DecimalN DecimalPos.
From stdpp Require Import gmap strings list.

Local Open Scope Z_scope.

(** ** Control flow: return, [sys.exit], uncaught exception *)

Inductive exn : Type :=
| ValueError
| KeyError (key : string)
| IndexError
| NoSectionError (section : string)
| DuplicateSectionError (section : string)
| DuplicateOptionError (section option : string).

Inductive outcome (A : Type) : Type :=
| Returns (a : A)
| Exits (msg : string)
| Raises (e : exn).

Arguments Returns {A} a.
Arguments Exits {A} msg.
Arguments Raises {A} e.

#[global] Instance outcome_ret : MRet outcome := fun A a => Returns a.

#[global] Instance outcome_bind : MBind outcome := fun A B k m =>
  match m with
  | Returns a => k a
  | Exits msg => Exits msg
  | Raises e => Raises e
  end.

Definition terminates_program {A : Type} (m : outcome A) : Prop :=
  exists msg, m = Exits msg.

(** ** The Python string built-ins the sources use *)

Module Py.

Definition LF : ascii := "010"%char.
Definition CR : ascii := "013"%char.
Definition SP : ascii := " "%char.
Definition nl : string := String LF EmptyString.

(** [bool(s)] on a string. *)
Definition truthy (s : string) : bool :=
  match s with
  | EmptyString => false
  | String _ _ => true
  end.

(** [str.isspace] on the ASCII range. *)
Definition is_space (a : ascii) : bool :=
  let n := nat_of_ascii a in
  ((9 <=? n)%nat && (n <=? 13)%nat) || ((28 <=? n)%nat && (n <=? 32)%nat).

(** [s.startswith(p)] *)
Fixpoint startswith (p s : string) : bool :=
  match p, s with
  | EmptyString, _ => true
  | String a p', String b s' => Ascii.eqb a b && startswith p' s'
  | String _ _, EmptyString => false
  end.

(** [p in s] *)
Fixpoint contains (p s : string) : bool :=
  startswith p s ||
  match s with
  | EmptyString => false
  | String _ s' => contains p s'
  end.

(** [s.index(p)]; [None] stands for the [ValueError] of a missing substring. *)
Fixpoint find (p s : string) : option nat :=
  if startswith p s then Some 0%nat
  else match s with
       | EmptyString => None
       | String _ s' => option_map S (find p s')
       end.

Definition index (p s : string) : outcome Z :=
  match find p s with
  | Some i => Returns (Z.of_nat i)
  | None => Raises ValueError
  end.

Fixpoint take (n : nat) (s : string) : string :=
  match n, s with
  | S k, String a s' => String a (take k s')
  | _, _ => EmptyString
  end.

Fixpoint drop (n : nat) (s : string) : string :=
  match n, s with
  | S k, String _ s' => drop k s'
  | _, _ => s
  end.

(** A slice bound as Python normalises it: a negative bound counts from the
    end, and every bound is clamped to [0 .. len]. *)
Definition clamp (len : nat) (i : Z) : nat :=
  let n := Z.of_nat len in
  Z.to_nat (Z.min n (Z.max 0 (if i <? 0 then n + i else i))).

(** [s[lo:hi]]; a missing bound is [None]. *)
Definition slice (lo hi : option Z) (s : string) : string :=
  let len := String.length s in
  let l := match lo with Some i => clamp len i | None => 0%nat end in
  let h := match hi with Some i => clamp len i | None => len end in
  take (h - l) (drop l s).

(** [s.split(c)] for a one-character separator. *)
Fixpoint split_chr (c : ascii) (s : string) : list string :=
  match s with
  | EmptyString => [EmptyString]
  | String a s' =>
      if Ascii.eqb a c then EmptyString :: split_chr c s'
      else match split_chr c s' with
           | w :: ws => String a w :: ws
           | [] => [String a EmptyString]
           end
  end.

(** [s.split()]: split on runs of whitespace, no empty words. *)
Fixpoint split_ws (s : string) : list string :=
  match s with
  | EmptyString => []
  | String a s' =>
      if is_space a then split_ws s'
      else match s' with
           | EmptyString => [String a EmptyString]
           | String b _ =>
               if is_space b then String a EmptyString :: split_ws s'
               else match split_ws s' with
                    | w :: ws => String a w :: ws
                    | [] => [String a EmptyString]
                    end
           end
  end.

(** [sep.join(l)] *)
Definition join (sep : string) (l : list string) : string := String.concat sep l.

(** [s.strip()] *)
Fixpoint lstrip (s : string) : string :=
  match s with
  | EmptyString => EmptyString
  | String a s' => if is_space a then lstrip s' else s
  end.

Fixpoint rstrip (s : string) : string :=
  match s with
  | EmptyString => EmptyString
  | String a s' =>
      match rstrip s' with
      | EmptyString => if is_space a then EmptyString else String a EmptyString
      | r => String a r
      end
  end.

Definition strip (s : string) : string := rstrip (lstrip s).

(** [int(s)] on a base-ten literal: surrounding whitespace, an optional sign
    and ASCII digits.  Everything else is the [ValueError] of [int]; digit
    grouping with underscores and non-ASCII digits are not covered. *)
Definition digits (s : string) : option Z :=
  match s with
  | EmptyString => None
  | String _ _ =>
      match NilEmpty.uint_of_string s with
      | Some d => Some (Z.of_N (N.of_uint d))
      | None => None
      end
  end.

Definition int (s : string) : outcome Z :=
  let body :=
    match strip s with
    | String "-" r => option_map Z.opp (digits r)
    | String "+" r => digits r
    | r => digits r
    end in
  match body with
  | Some z => Returns z
  | None => Raises ValueError
  end.

(** [str(n)] for a natural number. *)
Definition dec (n : N) : string := NilEmpty.string_of_uint (N.to_uint n).

(** [s.replace(old, new)]: occurrences of [old] are replaced from left to
    right without overlap.  [skip] counts the characters of a match still to
    be passed over. *)
Fixpoint replace_from (old new : string) (skip : nat) (s : string) : string :=
  match s with
  | EmptyString => EmptyString
  | String a s' =>
      match skip with
      | S k => replace_from old new k s'
      | O =>
          if startswith old s
          then new +:+ replace_from old new (String.length old - 1) s'
          else String a (replace_from old new 0 s')
      end
  end.

Fixpoint intersperse_all (new s : string) : string :=
  match s with
  | EmptyString => new
  | String a s' => new +:+ String a (intersperse_all new s')
  end.

Definition replace (old new s : string) : string :=
  match old with
  | EmptyString => intersperse_all new s
  | String _ _ => replace_from old new 0 s
  end.

(** Universal newlines of a file opened in text mode for reading: a carriage
    return, alone or followed by a line feed, reads as one line feed. *)
Fixpoint universal_newlines (after_cr : bool) (s : string) : string :=
  match s with
  | EmptyString => EmptyString
  | String a s' =>
      if Ascii.eqb a CR then String LF (universal_newlines true s')
      else if Ascii.eqb a LF && after_cr then universal_newlines false s'
      else String a (universal_newlines false s')
  end.

(** [f.readlines()] on text: the lines, each with its line feed. *)
Fixpoint lines_keepends (s : string) : list string :=
  match s with
  | EmptyString => []
  | String a s' =>
      if Ascii.eqb a LF then nl :: lines_keepends s'
      else match lines_keepends s' with
           | l :: ls => String a l :: ls
           | [] => [String a EmptyString]
           end
  end.

Definition readlines (file : string) : list string :=
  lines_keepends (universal_newlines false file).

(** The concatenation a loop of [write] calls or of [+=] produces. *)
Definition concat (l : list string) : string := String.concat EmptyString l.

Definition TAB : ascii := "009"%char.

(** [s.lower()] on the ASCII range. *)
Definition lower_chr (a : ascii) : ascii :=
  let n := nat_of_ascii a in
  if (65 <=? n)%nat && (n <=? 90)%nat then ascii_of_nat (n + 32) else a.

Fixpoint lower (s : string) : string :=
  match s with
  | EmptyString => EmptyString
  | String a s' => String (lower_chr a) (lower s')
  end.

(** [s.rindex(p)]: the last place where [p] is found. *)
Fixpoint rfind (p s : string) : option nat :=
  match s with
  | EmptyString => if startswith p s then Some 0%nat else None
  | String _ s' =>
      match rfind p s' with
      | Some i => Some (S i)
      | None => if startswith p s then Some 0%nat else None
      end
  end.

Definition rindex (p s : string) : outcome Z :=
  match rfind p s with
  | Some i => Returns (Z.of_nat i)
  | None => Raises ValueError
  end.

End Py.

(** ** Programs that talk to the operating system

    [W] is the state of the world outside the process (mounted file
    systems, files).  A program returns its outcome together with the world
    it leaves behind, so that what was done before a [sys.exit] stays
    visible. *)

Definition prog (W A : Type) : Type := W -> outcome A * W.

#[global] Instance prog_ret (W : Type) : MRet (prog W) :=
  fun A a w => (Returns a, w).

#[global] Instance prog_bind (W : Type) : MBind (prog W) := fun A B k m w =>
  match m w with
  | (Returns a, w') => k a w'
  | (Exits msg, w') => (Exits msg, w')
  | (Raises e, w') => (Raises e, w')
  end.

Definition lift {W A : Type} (o : outcome A) : prog W A := fun w => (o, w).

Definition sys_exit {W A : Type} (msg : string) : prog W A := lift (Exits msg).

(** ** kdt_utils.py *)

Module kdt.

Definition dq : string := String "034"%char EmptyString.

(** [get_config(section, name, mandatory)] *)
Definition get_config (section : gmap string string) (name : string)
    (mandatory : bool) : outcome string :=
  match section !! name with
  | Some v => Returns v
  | None =>
      if mandatory
      then Exits ("Error! Missing " +:+ dq +:+ name +:+ dq +:+
                  " in board configuration section")
      else Returns EmptyString
  end.

(** *** class BashCommands *)

Record BashCommands : Type := {
  debug : bool;
  make_command : list string
}.

Definition ssh_params : list string :=
  ["-o LogLevel=ERROR"; "-o UserKnownHostsFile=/dev/null";
   "-o StrictHostKeyChecking=no"].
Definition rsync_params : list string :=
  ["rsync"; "-rcptD"; "--exclude=.*"; "--mkpath"; "--no-links"].
Definition ssh_command : list string := "ssh" :: ssh_params.
Definition scp_command : list string := "scp" :: ssh_params.
Definition ssh_for_rsync : string := "-e " +:+ Py.join " " ssh_command.
Definition ssh_for_rsync_with_qmark : string :=
  "-e " +:+ dq +:+ Py.join " " ssh_command +:+ dq.

(** [self.commands] *)
Definition commands (item : string) : option (list string) :=
  if String.eqb item "ssh" then Some ssh_command
  else if String.eqb item "scp" then Some scp_command
  else if String.eqb item "net_rsync" then Some (rsync_params ++ [ssh_for_rsync])
  else if String.eqb item "disk_rsync" then Some rsync_params
  else if String.eqb item "mount" then Some ["mount"]
  else if String.eqb item "umount" then Some ["umount"]
  else None.

(** [command[command.index(old)] = new], guarded by [old in command]: the
    first occurrence is overwritten in the caller's list. *)
Fixpoint overwrite_first (old new : string) (command : list string) : list string :=
  match command with
  | [] => []
  | x :: rest =>
      if String.eqb x old then new :: rest
      else x :: overwrite_first old new rest
  end.

(** [print_command]: whether to execute, and the command list as the call
    leaves it.  The text printed in debug mode is not modelled. *)
Definition print_command (self : BashCommands) (command : list string)
    (debug_type : bool * bool) : bool * list string :=
  let '(_print, _exec) := debug_type in
  let command :=
    if debug self && _print
    then overwrite_first ssh_for_rsync ssh_for_rsync_with_qmark command
    else command in
  (if debug self then _exec else true, command).

(** What [subprocess.run] does: it returns a completed process or raises. *)
Inductive run_result : Type :=
| FileNotFoundError
| CalledProcessError (returncode : Z) (output stderr : string)
| CompletedProcess (returncode : Z) (stdout stderr : string).

Section Runner.

Context {W : Type}.

(** The process launcher of the operating system: [None] when the
    executable does not exist, else exit status and captured output.  These
    are the two outcomes [subprocess.run] has here. *)
Variable spawn : list string -> W -> option (Z * string * string) * W.

(** [path.isfile] *)
Variable isfile : string -> W -> bool.

Definition run (command : list string) (check : bool) (w : W) : run_result * W :=
  match spawn command w with
  | (None, w') => (FileNotFoundError, w')
  | (Some (rc, out, err), w') =>
      if check && negb (rc =? 0)
      then (CalledProcessError rc out err, w')
      else (CompletedProcess rc out err, w')
  end.

(** [kdt_run(self, command, debug_type, sudo, check=...)] *)
Definition kdt_run (self : BashCommands) (command : list string)
    (debug_type : bool * bool) (sudo check : bool) : prog W bool := fun w =>
  let command := if sudo then "sudo" :: command else command in
  let '(go, command) := print_command self command debug_type in
  if negb go then (Returns true, w)
  else match run command check w with
       | (FileNotFoundError, w') => (Returns false, w')
       | (CalledProcessError _ _ _, w') => (Returns false, w')
       | (CompletedProcess rc _ _, w') => (Returns (rc =? 0), w')
       end.

(** [kdt_run_str(self, command, debug_type, sudo, check=...)] *)
Definition kdt_run_str (self : BashCommands) (command : list string)
    (debug_type : bool * bool) (sudo check : bool)
  : prog W (bool * string * string) := fun w =>
  let command := if sudo then "sudo" :: command else command in
  let '(go, command) := print_command self command debug_type in
  if negb go then (Returns (true, EmptyString, EmptyString), w)
  else match run command check w with
       | (FileNotFoundError, w') => (Exits ("FAIL: " +:+ Py.join " " command), w')
       | (CalledProcessError _ _ err, w') => (Exits err, w')
       | (CompletedProcess rc out err, w') =>
           (Returns (rc =? 0, Py.slice None (Some (-1)) out,
                     Py.slice None (Some (-1)) err), w')
       end.

(** [__run_current_command_check__(self, arguments, sudo)] with
    [self.current_command] as [__getattr__] has just set it. *)
Definition run_current_command_check (self : BashCommands)
    (current_command arguments : list string) (sudo : bool) : prog W bool := fun w =>
  let sudo_cmd := if sudo then ["sudo"] else [] in
  let command := sudo_cmd ++ current_command ++ arguments in
  let '(go, command) := print_command self command (true, false) in
  if negb go then (Returns true, w)
  else match run command true w with
       | (FileNotFoundError, w') => (Exits ("FAIL: " +:+ Py.join " " command), w')
       | (CalledProcessError _ out _, w') => (Exits out, w')
       | (CompletedProcess _ _ _, w') => (Returns true, w')
       end.

(** [make_pass(self, args)].  The method has three ways out: the tuple of
    the dry run, [sys.exit], and the end of its body, where Python returns
    [None]. *)
Definition make_pass (self : BashCommands) (args : list string)
  : prog W (option (bool * string * string)) := fun w =>
  let '(go, _) := print_command self (make_command self ++ args) (true, false) in
  if negb go then (Returns (Some (true, EmptyString, EmptyString)), w)
  else if (length (make_command self) =? 0)%nat
  then (Exits "FAIL: Make command not set", w)
  else match run (make_command self ++ args) false w with
       | (FileNotFoundError, w') =>
           (Exits ("FAIL: " +:+ Py.join " " (make_command self ++ args)), w')
       | (_, w') => (Returns None, w')
       end.

(** [make(self, args)] *)
Definition make (self : BashCommands) (args : list string) : prog W unit :=
  if (length (make_command self) =? 0)%nat
  then sys_exit "FAIL: Make command not set"
  else
    _ ← kdt_run self (make_command self ++ args) (true, false) false true;
    mret tt.

(** [make_str(self, args, debug_type, check=...)] *)
Definition make_str (self : BashCommands) (args : list string)
    (debug_type : bool * bool) (check : bool) : prog W (bool * string * string) :=
  if (length (make_command self) =? 0)%nat
  then sys_exit "FAIL: Make command not set"
  else kdt_run_str self (make_command self ++ args) debug_type false check.

(** What [disk_mount], [disk_umount] and [parse_fdisk] ask of their [bash]
    argument. *)
Record Bash : Type := {
  bash_kdt_run_str : list string -> bool -> prog W (bool * string * string);
  bash_mount : list string -> bool -> prog W bool;
  bash_umount : list string -> bool -> prog W bool
}.

(** The attribute lookups [bash.kdt_run_str], [bash.mount], [bash.umount] on
    a [BashCommands] object.  The last two go through [__getattr__], which
    finds both names in [self.commands]. *)
Definition bash_of (self : BashCommands) : Bash := {|
  bash_kdt_run_str := fun command check =>
    kdt_run_str self command (false, true) false check;
  bash_mount := fun arguments sudo =>
    run_current_command_check self (default [] (commands "mount")) arguments sudo;
  bash_umount := fun arguments sudo =>
    run_current_command_check self (default [] (commands "umount")) arguments sudo
|}.

(** *** parse_fdisk

    The loop variables are dynamically typed: [unit] starts as the integer
    [0] and becomes the text cut out of the [Units:] line. *)

Inductive pyval : Type :=
| PInt (z : Z)
| PStr (s : string).

(** [int(v)] *)
Definition int_of (v : pyval) : outcome Z :=
  match v with
  | PInt z => Returns z
  | PStr s => Py.int s
  end.

(** [0 == v] *)
Definition eq_zero (v : pyval) : bool :=
  match v with
  | PInt z => z =? 0
  | PStr _ => false
  end.

Record fdisk_vars : Type := {
  v_unit : pyval;
  v_name1 : string; v_start1 : Z; v_sectors1 : Z;
  v_name2 : string; v_start2 : Z; v_sectors2 : Z
}.

Definition fdisk_vars0 : fdisk_vars := {|
  v_unit := PInt 0;
  v_name1 := EmptyString; v_start1 := 0; v_sectors1 := 0;
  v_name2 := EmptyString; v_start2 := 0; v_sectors2 := 0
|}.

(** [a, b, c = ' '.join(line.split()).split(' ')] *)
Definition unpack_row (line : string) : outcome (string * string * string) :=
  match Py.split_chr Py.SP (Py.join " " (Py.split_ws line)) with
  | [a; b; c] => Returns (a, b, c)
  | _ => Raises ValueError
  end.

(** One pass through the body of [for line in fdisk.split('\n')]. *)
Definition fdisk_line (img : string) (v : fdisk_vars) (line : string)
  : outcome fdisk_vars :=
  v ← (if Py.contains "Units:" line
       then i ← Py.index "= " line;
            j ← Py.index "bytes" line;
            mret {| v_unit := PStr (Py.slice (Some (i + 2)) (Some (j - 1)) line);
                    v_name1 := v_name1 v; v_start1 := v_start1 v;
                    v_sectors1 := v_sectors1 v;
                    v_name2 := v_name2 v; v_start2 := v_start2 v;
                    v_sectors2 := v_sectors2 v |}
       else mret v);
  v ← (if Py.contains (img +:+ "1") line
       then '(name, start, sectors) ← unpack_row line;
            s ← Py.int start; u ← int_of (v_unit v);
            c ← Py.int sectors; u' ← int_of (v_unit v);
            mret {| v_unit := v_unit v;
                    v_name1 := name; v_start1 := s * u; v_sectors1 := c * u';
                    v_name2 := v_name2 v; v_start2 := v_start2 v;
                    v_sectors2 := v_sectors2 v |}
       else mret v);
  if Py.contains (img +:+ "2") line
  then '(name, start, sectors) ← unpack_row line;
       s ← Py.int start; u ← int_of (v_unit v);
       c ← Py.int sectors; u' ← int_of (v_unit v);
       mret {| v_unit := v_unit v;
               v_name1 := v_name1 v; v_start1 := v_start1 v;
               v_sectors1 := v_sectors1 v;
               v_name2 := name; v_start2 := s * u; v_sectors2 := c * u' |}
  else mret v.

Fixpoint fdisk_lines (img : string) (v : fdisk_vars) (lines : list string)
  : outcome fdisk_vars :=
  match lines with
  | [] => Returns v
  | line :: rest => v' ← fdisk_line img v line; fdisk_lines img v' rest
  end.

Definition partitions : Type := string * Z * Z * string * Z * Z.

Definition parse_fdisk (img : string) (bash : Bash) : prog W partitions :=
  '(valid, fdisk, err) ←
     bash_kdt_run_str bash ["fdisk"; "-o"; "Device,Start,Sectors"; "-l"; img] true;
  if negb valid
  then mret (EmptyString, 0, 0, EmptyString, 0, 0)
  else
    v ← lift (fdisk_lines img fdisk_vars0 (Py.split_chr Py.LF fdisk));
    if eq_zero (v_unit v) || (v_start1 v =? 0) || (v_sectors1 v =? 0)
    then sys_exit ("Error! Fail to parse fdisk output from image " +:+ img)
    else mret (v_name1 v, v_start1 v, v_sectors1 v,
               v_name2 v, v_start2 v, v_sectors2 v).

(** *** disk_mount and disk_umount *)

(** [str(z)] inside an f-string. *)
Definition str_Z (z : Z) : string :=
  if z <? 0 then "-" +:+ Py.dec (Z.to_N (- z)) else Py.dec (Z.to_N z).

Definition loop_args (start sectors : Z) : list string :=
  ["-o"; "loop,offset=" +:+ str_Z start +:+ ",sizelimit=" +:+ str_Z sectors].

(** The tail of [disk_mount], once sources and arguments are chosen. *)
Definition mount_both (bash : Bash) (mount_point : string)
    (root_args boot_args : list string) (root_src : string)
    (boot_src : option string) : prog W (bool * bool) :=
  root_ret ← bash_mount bash (root_args ++ [root_src; mount_point]) true;
  match boot_src with
  | Some boot =>
      boot_ret ← bash_mount bash (boot_args ++ [boot; mount_point +:+ "/boot"]) true;
      if negb boot_ret
      then _ ← bash_umount bash [root_src] true; mret (false, boot_ret)
      else mret (root_ret, boot_ret)
  | None => mret (root_ret, false)
  end.

Definition disk_mount (disk mount_point : string) (bash : Bash)
  : prog W (bool * bool) :=
  '(name1, start1, sectors1, name2, start2, sectors2) ← parse_fdisk disk bash;
  if Py.contains "/dev/" disk
  then if start2 >? 0
       then mount_both bash mount_point [] [] name2 (Some name1)
       else mount_both bash mount_point [] [] name1 None
  else
    is_file ← (fun w => (Returns (isfile disk w), w));
    if is_file : bool
    then if start2 >? 0
         then mount_both bash mount_point (loop_args start2 sectors2)
                (loop_args start1 sectors1) disk (Some disk)
         else mount_both bash mount_point (loop_args start1 sectors1) [] disk None
    else mret (false, false).

Definition disk_umount (mount_point : string) (boot : bool) (bash : Bash)
  : prog W unit :=
  _ ← (if boot
       then bash_umount bash [mount_point +:+ "/boot"] true
       else mret true);
  _ ← bash_umount bash [mount_point] true;
  mret tt.

End Runner.

(** *** The [~/.kdt] configuration file

    The file is text.  A [configparser.ConfigParser] keeps the options of
    the [DEFAULT] section and a dict of sections, each a dict from option
    name to value; the dicts keep insertion order, and [write] follows it.
    The parser is the one the sources construct:
    [configparser.ConfigParser()], which is strict, interpolates with
    [BasicInterpolation], lower-cases option names and writes [ = ] between
    name and value. *)

(** [key in d], [d.get(key)] and [d[key] = value] on a dict in insertion
    order. *)
Definition odict_has {V : Type} (key : string) (d : list (string * V)) : bool :=
  existsb (fun kv => String.eqb (fst kv) key) d.

Fixpoint odict_get {V : Type} (key : string) (d : list (string * V)) : option V :=
  match d with
  | [] => None
  | (k, v) :: rest => if String.eqb k key then Some v else odict_get key rest
  end.

Fixpoint odict_set {V : Type} (key : string) (value : V) (d : list (string * V))
  : list (string * V) :=
  match d with
  | [] => [(key, value)]
  | (k, v) :: rest =>
      if String.eqb k key then (k, value) :: rest
      else (k, v) :: odict_set key value rest
  end.

(** The [section] argument of [kdt_update_section]: a dict of strings. *)
Abbreviation ConfigSection := (list (string * string)).

Record ConfigParser : Type := {
  _defaults : ConfigSection;
  _sections : list (string * ConfigSection)
}.

(** [configparser.ConfigParser()] *)
Definition ConfigParser_new : ConfigParser := {| _defaults := []; _sections := [] |}.

Definition default_section : string := "DEFAULT".

(** [optionxform(optionstr)] *)
Definition optionxform (optionstr : string) : string := Py.lower optionstr.

(** The length of a match of [[^)]+\)s] at the start of [s]; [seen] tells
    that the run of characters other than [)] has begun. *)
Fixpoint key_run (seen : bool) (s : string) : option nat :=
  match s with
  | EmptyString => None
  | String a s' =>
      if Ascii.eqb a ")"
      then if seen && Py.startswith "s" s' then Some 2%nat else None
      else option_map S (key_run true s')
  end.

(** The length of a match of [_KEYCRE], the pattern [%\(([^)]+)\)s], at the
    start of [s]. *)
Definition key_match (s : string) : option nat :=
  match s with
  | String "%" (String "(" r) => option_map (Nat.add 2) (key_run false r)
  | _ => None
  end.

(** [_KEYCRE.sub('', s)]: the matches are removed from left to right;
    [skip] counts the characters of a match still to be passed over. *)
Fixpoint sub_keys (skip : nat) (s : string) : string :=
  match s with
  | EmptyString => EmptyString
  | String a s' =>
      match skip with
      | S k => sub_keys k s'
      | O =>
          match key_match s with
          | Some n => sub_keys (n - 1) s'
          | None => String a (sub_keys 0 s')
          end
      end
  end.

(** [BasicInterpolation.before_set]: a [%] that is neither doubled nor the
    start of [%(name)s] is refused. *)
Definition before_set (value : string) : outcome string :=
  let tmp_value := Py.replace "%%" EmptyString value in
  let tmp_value := sub_keys 0 tmp_value in
  if Py.contains "%" tmp_value then Raises ValueError else Returns value.

(** [add_section(section)] *)
Definition ConfigParser_add_section (section : string) (self : ConfigParser)
  : outcome ConfigParser :=
  if String.eqb section default_section then Raises ValueError
  else if odict_has section (_sections self)
  then Raises (DuplicateSectionError section)
  else Returns {| _defaults := _defaults self;
                  _sections := odict_set section [] (_sections self) |}.

(** [set(section, option, value)] *)
Definition ConfigParser_set (section option value : string) (self : ConfigParser)
  : outcome ConfigParser :=
  value ← (if Py.truthy value then before_set value else Returns value);
  if negb (Py.truthy section) || String.eqb section default_section
  then Returns {| _defaults := odict_set (optionxform option) value (_defaults self);
                  _sections := _sections self |}
  else match odict_get section (_sections self) with
       | Some sectdict =>
           Returns {| _defaults := _defaults self;
                      _sections :=
                        odict_set section
                          (odict_set (optionxform option) value sectdict)
                          (_sections self) |}
       | None => Raises (NoSectionError section)
       end.

(** The inner loop of [read_dict], over the items of one section.
    [elements_added] holds the option names already seen for it. *)
Fixpoint read_dict_keys (section : string) (keys : ConfigSection)
    (elements_added : list string) (self : ConfigParser) : outcome ConfigParser :=
  match keys with
  | [] => Returns self
  | (key, value) :: rest =>
      let key := optionxform key in
      if existsb (String.eqb key) elements_added
      then Raises (DuplicateOptionError section key)
      else
        self ← ConfigParser_set section key value self;
        read_dict_keys section rest (key :: elements_added) self
  end.

(** [read_dict({section: keys})].  The errors of [add_section] are caught:
    no section has been added before this one. *)
Definition ConfigParser_read_dict (section : string) (keys : ConfigSection)
    (self : ConfigParser) : outcome ConfigParser :=
  let self :=
    match ConfigParser_add_section section self with
    | Returns added => added
    | _ => self
    end in
  read_dict_keys section keys [] self.

(** [self[key] = value] for a [value] that is not a section of [self]: an
    existing section of that name is cleared where it stands, then filled
    from [value]. *)
Definition ConfigParser_setitem (key : string) (value : ConfigSection)
    (self : ConfigParser) : outcome ConfigParser :=
  let self :=
    if String.eqb key default_section
    then {| _defaults := []; _sections := _sections self |}
    else if odict_has key (_sections self)
    then {| _defaults := _defaults self;
            _sections := odict_set key [] (_sections self) |}
    else self in
  ConfigParser_read_dict key value self.

(** [_write_section(fp, section_name, section_items, " = ")] *)
Definition write_section (section_name : string) (section_items : ConfigSection)
  : string :=
  "[" +:+ section_name +:+ "]" +:+ Py.nl +:+
  Py.concat
    (map (fun item =>
            fst item +:+ " = " +:+
            Py.replace Py.nl (Py.nl +:+ String Py.TAB EmptyString) (snd item) +:+ Py.nl)
         section_items) +:+
  Py.nl.

(** [write(fp)]: the text written. *)
Definition ConfigParser_write (self : ConfigParser) : string :=
  (match _defaults self with
   | [] => EmptyString
   | _ :: _ => write_section default_section (_defaults self)
   end) +:+
  Py.concat (map (fun s => write_section (fst s) (snd s)) (_sections self)).

Section ConfigFile.

(** [configparser]'s reader: what a new parser holds after [read] of a
    file with this text, or the error that [read] raises. *)
Variable ConfigParser_read : string -> outcome ConfigParser.

(** [kdt_update_section(section_name, section)] on the file [~/.kdt], which
    is absent or holds a text.  The file is opened for writing only after
    the section has been set, so an error leaves it as it was. *)
Definition kdt_update_section (section_name : string) (section : ConfigSection)
  : prog (option string) unit := fun file =>
  let kdt_config := ConfigParser_new in
  let updated :=
    kdt_config ← match file with
                 | Some text => ConfigParser_read text
                 | None => Returns kdt_config
                 end;
    ConfigParser_setitem section_name section kdt_config in
  match updated with
  | Returns kdt_config => (Returns tt, Some (ConfigParser_write kdt_config))
  | Exits msg => (Exits msg, file)
  | Raises e => (Raises e, file)
  end.

End ConfigFile.

End kdt.

(** ** kernel_builder.py *)

Module kernel_builder.

(** A dict from board name to its list of architectures, in insertion
    order. *)
Abbreviation boards_arch := (list (string * list string)).

Fixpoint dict_get {A : Type} (key : string) (d : list (string * A)) : outcome A :=
  match d with
  | [] => Raises (KeyError key)
  | (k, v) :: rest => if String.eqb k key then Returns v else dict_get key rest
  end.

Definition dict_has {A : Type} (key : string) (d : list (string * A)) : bool :=
  existsb (fun kv => String.eqb (fst kv) key) d.

(** [boards_arch[board].append(arch)] or [boards_arch[board] = [arch]] *)
Fixpoint add_board_arch (board arch : string) (d : boards_arch) : boards_arch :=
  match d with
  | [] => [(board, [arch])]
  | (b, archs) :: rest =>
      if String.eqb b board then (b, archs ++ [arch]) :: rest
      else (b, archs) :: add_board_arch board arch rest
  end.

(** [available_configured_boards], on [boards_config.sections()] *)
Fixpoint available_boards_from (sections : list string) (acc : boards_arch)
  : outcome boards_arch :=
  match sections with
  | [] => Returns acc
  | board_section :: rest =>
      i ← Py.index "_" board_section;
      let board := Py.slice None (Some i) board_section in
      j ← Py.index "_" board_section;
      let arch := Py.slice (Some (j + 1)) None board_section in
      available_boards_from rest (add_board_arch board arch acc)
  end.

Definition available_configured_boards (sections : list string)
  : outcome boards_arch :=
  available_boards_from sections [].

(** [x in l] on a list of strings *)
Definition str_in (x : string) (l : list string) : bool :=
  existsb (String.eqb x) l.

(** [self.<name>], that is [self.build_params[name]] *)
Definition getattr (build_params : gmap string string) (name : string)
  : outcome string :=
  match build_params !! name with
  | Some v => Returns v
  | None => Raises (KeyError name)
  end.

(** [BoardConfig.set_arch]: [build_params] as the call leaves it. *)
Definition set_arch (build_params : gmap string string)
    (available_boards_arch : boards_arch) (bash_env : gmap string string)
  : outcome (gmap string string) :=
  match bash_env !! "arch" with
  | Some exported_arch =>
      board_name ← getattr build_params "board_name";
      archs ← dict_get board_name available_boards_arch;
      if negb (str_in exported_arch archs)
      then Exits ("Error! Arch " +:+ kdt.dq +:+ exported_arch +:+ kdt.dq +:+
                  " not configured for " +:+ board_name)
      else Returns (<["arch" := exported_arch]> build_params)
  | None =>
      board_name ← getattr build_params "board_name";
      archs ← dict_get board_name available_boards_arch;
      match archs with
      | [only] => Returns (<["arch" := only]> build_params)
      | _ =>
          if str_in "x86_64" archs || str_in "x86" archs
          then Returns (<["arch" := "x86_64"]> build_params)
          else Returns (<["arch" := "arm64"]> build_params)
      end
  end.

Section Files.

(** [path.exists] *)
Variable path_exists : string -> bool.

(** The body both halves of [select_kernel_config] share once the three
    settings are read and at least one is set.  The halves differ in one
    line: the board section's [config_file] has [$kdt_boards] replaced
    ([fix_path]); the environment's is taken as it is. *)
Definition use_config (fix_path : string -> string)
    (config_target config_file config_gz : string)
    (build_params : gmap string string) : outcome (gmap string string) :=
  if negb (xorb (xorb (Py.truthy config_target) (Py.truthy config_file))
                (Py.truthy config_gz))
  then Exits "Error! More than one kernel config is set"
  else
    let build_params :=
      if Py.truthy config_target
      then <["config_target" := config_target]>
             (<["config_to_use" := "config_target"]> build_params)
      else build_params in
    build_params ←
      (if Py.truthy config_file
       then let build_params := <["config_to_use" := "config_file"]> build_params in
            let config_file := fix_path config_file in
            if negb (path_exists config_file)
            then Exits ("Error! File " +:+ config_file +:+ " doesn't exist.")
            else Returns (<["config_file" := config_file]> build_params)
       else Returns build_params);
    Returns (if Py.truthy config_gz
             then <["config_to_use" := "config_gz"]> build_params
             else build_params).

(** [BoardConfig.select_kernel_config] *)
Definition select_kernel_config (build_params bash_env board_section : gmap string string)
    (kdt_boards : string) : outcome (gmap string string) :=
  config_target ← kdt.get_config bash_env "config_target" false;
  config_file ← kdt.get_config bash_env "config_file" false;
  config_gz ← kdt.get_config bash_env "config_gz" false;
  if Py.truthy config_target || Py.truthy config_file || Py.truthy config_gz
  then use_config (fun f => f) config_target config_file config_gz build_params
  else
    config_target ← kdt.get_config board_section "config_target" false;
    config_file ← kdt.get_config board_section "config_file" false;
    config_gz ← kdt.get_config board_section "config_gz" false;
    if Py.truthy config_target || Py.truthy config_file || Py.truthy config_gz
    then use_config (Py.replace "$kdt_boards" kdt_boards)
           config_target config_file config_gz build_params
    else Exits "Error! No config options are set.".

(** [BoardConfig.board_arch] *)
Definition board_arch (build_params : gmap string string) : outcome string :=
  board_name ← getattr build_params "board_name";
  arch ← getattr build_params "arch";
  mret (board_name +:+ "_" +:+ arch).

(** The local function [get_board_config] of [BoardConfig.__init__] *)
Definition get_board_config (board_sect bash_env : gmap string string)
    (kdt_boards : string) (name : string) (mandatory : bool)
    (build_params : gmap string string) : outcome (gmap string string) :=
  b_cfg ← kdt.get_config board_sect name mandatory;
  home ← match bash_env !! "HOME" with
         | Some h => Returns h
         | None => Raises (KeyError "HOME")
         end;
  let b_cfg := Py.replace "$kdt_boards" kdt_boards (Py.replace "~" home b_cfg) in
  mret (<[name := b_cfg]> build_params).

Record BoardConfig : Type := {
  build_params : gmap string string;
  build_target : list string;
  board_sect : gmap string string
}.

(** [BoardConfig.__init__].  [boards_config] is the parsed registry file:
    its sections in file order, each with the options a lookup in it
    finds. *)
Definition BoardConfig_init (boards_config : list (string * gmap string string))
    (bash_env : gmap string string) (kdt_boards : string) : outcome BoardConfig :=
  available_boards_arch ← available_configured_boards (map fst boards_config);
  let build_params : gmap string string := ∅ in
  board_name ←
    match bash_env !! "board" with
    | None =>
        let board_options := Py.join " or " (map fst available_boards_arch) in
        match board_options with
        | EmptyString => Raises IndexError
        | String c _ =>
            Exits ("Error! Board not selected. Please select: " +:+ board_options
                   +:+ Py.nl +:+ "Example: export board=" +:+ String c EmptyString)
        end
    | Some b => Returns b
    end;
  if negb (dict_has board_name available_boards_arch)
  then Exits ("Error! Board " +:+ board_name +:+ " not configured")
  else
    let build_params := <["board_name" := board_name]> build_params in
    build_params ← set_arch build_params available_boards_arch bash_env;
    section_name ← board_arch build_params;
    board_sect ← dict_get section_name boards_config;
    build_params ← select_kernel_config build_params bash_env board_sect kdt_boards;
    let get := get_board_config board_sect bash_env kdt_boards in
    build_params ← get "kernel_target" true build_params;
    build_params ← get "kernel_file" true build_params;
    build_params ← get "pkg_folder" false build_params;
    build_params ← get "ramfs_file" false build_params;
    ramfs_file ← getattr build_params "ramfs_file";
    build_params ← (if Py.truthy ramfs_file
                    then get "update_ramfs" true build_params
                    else Returns build_params);
    build_params ← get "dtb_path" false build_params;
    build_params ← get "on" false build_params;
    build_params ← get "off" false build_params;
    build_params ← get "overlay_path" false build_params;
    build_params ← get "vendor" false build_params;
    build_params ← get "cc" false build_params;
    build_params ← get "cc_path" false build_params;
    kernel_target ← getattr build_params "kernel_target";
    let build_target := [kernel_target; "modules"] in
    dtb_path ← getattr build_params "dtb_path";
    vendor ← (if Py.truthy dtb_path then Returns EmptyString
              else getattr build_params "vendor");
    overlay_path ← (if Py.truthy dtb_path || Py.truthy vendor then Returns EmptyString
                    else getattr build_params "overlay_path");
    let build_target :=
      if Py.truthy dtb_path || Py.truthy vendor || Py.truthy overlay_path
      then build_target ++ ["dtbs"]
      else build_target in
    mret {| build_params := build_params;
            build_target := build_target;
            board_sect := board_sect |}.

End Files.

(** *** class KernelBuilder *)

(** The attributes the methods below read: the command runner, three
    entries of [self.env], and the resolved board. *)
Record KernelBuilder : Type := {
  bash : kdt.BashCommands;
  env_eclipse_links : bool;
  env_kernel_build_path : string;
  env_eclipse_include : string;
  board_config : BoardConfig
}.

Section Builder.

Context {W : Type}.

Variable spawn : list string -> W -> option (Z * string * string) * W.

(** [path.exists] *)
Variable path_exists : string -> W -> bool.

(** [KernelBuilder.__eclipse_links] *)
Definition eclipse_links (self : KernelBuilder) (create : bool) : prog W unit :=
  if negb (env_eclipse_links self) then mret tt
  else
    let run_ command := kdt.kdt_run spawn (bash self) command (false, true) false false in
    let slink := ["ln"; "-sf"] in
    let mkdir := ["mkdir"; "-p"] in
    let build_include := env_kernel_build_path self +:+ "/include" in
    arch ← lift (getattr (build_params (board_config self)) "arch");
    let arch_include :=
      if String.eqb arch "x86_64" then "arch/x86/include"
      else "arch/" +:+ arch +:+ "/include" in
    let build_arch_include := env_kernel_build_path self +:+ "/" +:+ arch_include in
    if create
    then
      there ← (fun w => (Returns (path_exists (build_include +:+ "/generated/uapi") w), w));
      _ ← (if negb there then kdt.make spawn (bash self) ["modules_prepare"]
           else mret tt);
      let dest := env_eclipse_include self +:+ "/include" in
      _ ← run_ (mkdir ++ [dest]);
      _ ← run_ (slink ++ [build_include; dest +:+ "/generated"]);
      let dest := env_eclipse_include self +:+ "/" +:+ arch_include in
      _ ← run_ (mkdir ++ [dest]);
      _ ← run_ (slink ++ [build_arch_include +:+ "/generated"; dest +:+ "/generated"]);
      mret tt
    else
      let remove := ["rm"; "-rf"] in
      _ ← run_ (remove ++ [env_eclipse_include self +:+ "/include"]);
      _ ← run_ (remove ++ [env_eclipse_include self +:+ "/" +:+ arch_include]);
      mret tt.

(** [KernelBuilder.make_command].  [sys.exit(-1)] has a status and no
    message; the status is kept as text. *)
Definition make_command (self : KernelBuilder) (command : list string) : prog W unit :=
  if (length command =? 0)%nat then mret tt
  else
    _ ← eclipse_links self false;
    passed ← kdt.make_pass spawn (bash self) command;
    if negb (bool_decide (is_Some passed)) then sys_exit "-1"
    else eclipse_links self true.

End Builder.

End kernel_builder.

(** ** get_ip.py *)

Module get_ip.

Definition marker : string := "#gip added".

(** [read_etc_hosts], on the content of [/etc/hosts] *)
Definition read_etc_hosts (etc_hosts_file : string) : string :=
  fold_left
    (fun temp_etc_hosts host_line =>
       if negb (Py.contains marker host_line)
       then temp_etc_hosts +:+ host_line
       else temp_etc_hosts)
    (Py.readlines etc_hosts_file) EmptyString.

(** [get_ips]: the bytes that the final [sudo cp] puts in [/etc/hosts].
    [host_ip] is what [match_host_ip().items()] yields: hostnames with their
    addresses, in the order of the dict. *)
Definition get_ips (host_ip : list (string * string)) (etc_hosts_file : string)
  : string :=
  let etc_hosts := read_etc_hosts etc_hosts_file in
  let etc_hosts :=
    if negb (String.eqb (Py.slice (Some (-2)) None etc_hosts) (Py.nl +:+ Py.nl))
    then etc_hosts +:+ Py.nl
    else etc_hosts in
  fold_left
    (fun etc_hosts '(hostname, host_ip_addr) =>
       etc_hosts +:+ (host_ip_addr +:+ " " +:+ hostname +:+ " #gip added" +:+ Py.nl))
    host_ip etc_hosts.

(** [dict[key] = value] on a dict kept in insertion order *)
Fixpoint dict_set (key value : string) (d : list (string * string))
  : list (string * string) :=
  match d with
  | [] => [(key, value)]
  | (k, v) :: rest =>
      if String.eqb k key then (k, value) :: rest
      else (k, v) :: dict_set key value rest
  end.

(** The module's [bash = BashCommands()] *)
Definition bash : kdt.BashCommands :=
  {| kdt.debug := false; kdt.make_command := [] |}.

(** The body of the [if get_next_line] branch of [get_ip_ranges]: the range
    to scan, from the address line of an interface. *)
Definition ip_range_of (iface_ln : string) : outcome string :=
  i ← Py.index "inet " iface_ln;
  j ← Py.index " brd" iface_ln;
  let ip_range :=
    Py.slice (Some (i + Z.of_nat (String.length "inet "))) (Some j) iface_ln in
  '(addr, mask) ← match Py.split_chr "/" ip_range with
                  | [addr; mask] => Returns (addr, mask)
                  | _ => Raises ValueError
                  end;
  k ← Py.rindex "." addr;
  let addr := Py.slice None (Some k) addr +:+ ".0" in
  mret (addr +:+ "/" +:+ mask).

(** The loop of [get_ip_ranges] over the lines of [ip addr show] *)
Fixpoint ip_ranges_from (lines : list string) (get_next_line : bool)
    (ip_ranges : list string) : outcome (list string) :=
  match lines with
  | [] => Returns ip_ranges
  | iface_ln :: rest =>
      '(ip_ranges, get_next_line) ←
        (if get_next_line
         then ip_range ← ip_range_of iface_ln;
              mret (ip_ranges ++ [ip_range], false)
         else mret (ip_ranges, get_next_line));
      let get_next_line :=
        if Py.contains "state UP" iface_ln then true else get_next_line in
      ip_ranges_from rest get_next_line ip_ranges
  end.

(** The inner loop of [list_net_devices] over the lines of one scan *)
Fixpoint scan_lines (net_ips : list string) (net_devs : gmap string string)
  : outcome (gmap string string) :=
  match net_ips with
  | [] => Returns net_devs
  | net_ip :: rest =>
      match Py.split_chr Py.TAB net_ip with
      | [ip_addr; mac] => scan_lines rest (<[mac := ip_addr]> net_devs)
      | _ => Raises ValueError
      end
  end.

(** The loop of [match_host_ip]: [host_mac_list] is the [get_ip] section
    as its iteration yields it, hostnames with their MAC addresses in the
    order of the file. *)
Fixpoint hosts_found (host_mac_list : list (string * string))
    (net_devices : gmap string string) (host_ip : list (string * string))
  : list (string * string) :=
  match host_mac_list with
  | [] => host_ip
  | (dev_name, host_mac) :: rest =>
      let host_ip :=
        match net_devices !! host_mac with
        | Some ip_addr => dict_set dev_name ip_addr host_ip
        | None => host_ip
        end in
      hosts_found rest net_devices host_ip
  end.

Section Scanner.

Context {W : Type}.

Variable spawn : list string -> W -> option (Z * string * string) * W.

(** [get_ip_ranges] *)
Definition get_ip_ranges : prog W (list string) :=
  let command := ["ip"; "-f"; "inet"; "addr"; "show"; "scope"; "global"] in
  '(_, interfaces, _) ← kdt.kdt_run_str spawn bash command (false, true) false true;
  lift (ip_ranges_from (Py.split_chr Py.LF interfaces) false []).

(** The outer loop of [list_net_devices] *)
Fixpoint scan_ranges (ip_ranges : list string) (net_devs : gmap string string)
  : prog W (gmap string string) :=
  match ip_ranges with
  | [] => mret net_devs
  | ip_range :: rest =>
      '(_, net_ips, _) ←
        kdt.kdt_run_str spawn bash ["sudo"; "arp-scan"; "-qxr"; "4"; ip_range]
          (false, true) false true;
      net_devs ← lift (scan_lines (Py.split_chr Py.LF net_ips) net_devs);
      scan_ranges rest net_devs
  end.

(** [list_net_devices] *)
Definition list_net_devices : prog W (gmap string string) :=
  ip_ranges ← get_ip_ranges;
  scan_ranges ip_ranges ∅.

(** [match_host_ip]; [host_mac_list] is what [kdt_config_section("get_ip")]
    returned. *)
Definition match_host_ip (host_mac_list : option (list (string * string)))
  : prog W (list (string * string)) :=
  match host_mac_list with
  | None => sys_exit "Error! Host / MAC list empty."
  | Some host_mac_list =>
      net_devices ← list_net_devices;
      mret (hosts_found host_mac_list net_devices [])
  end.

End Scanner.

End get_ip.

(** ** git_format_patch.py *)

Module git_format_patch.

Definition change_id : string := "Change-Id:".

(** [line[:len(change_id)] != change_id] *)
Definition kept (line : string) : bool :=
  negb (String.eqb
          (Py.slice None (Some (Z.of_nat (String.length change_id))) line)
          change_id).

(** [remove_change_id], on the patch file: [None] is a path that does not
    exist; the result is the file as the call leaves it. *)
Definition remove_change_id (patch_file : option string) : option string :=
  match patch_file with
  | None => None
  | Some content =>
      let patch_lines := Py.readlines content in
      Some (fold_left
              (fun written line => if kept line then written +:+ line else written)
              patch_lines EmptyString)
  end.

End git_format_patch.

(** ** Predicates on text *)

(** Every character of [s] satisfies [P]. *)
Fixpoint all_chars (P : ascii -> bool) (s : string) : bool :=
  match s with
  | EmptyString => true
  | String a s' => P a && all_chars P s'
  end.

Definition not_chr (c a : ascii) : bool := negb (Ascii.eqb a c).

Definition is_digit (a : ascii) : bool :=
  let n := nat_of_ascii a in (48 <=? n)%nat && (n <=? 57)%nat.

(** A line with its line feed: the line feed is the last character and the
    only one. *)
Fixpoint terminated (s : string) : bool :=
  match s with
  | EmptyString => false
  | String a s' =>
      if Ascii.eqb a Py.LF then negb (Py.truthy s') else terminated s'
  end.

(** The last line of a text that does not end in a line feed. *)
Definition unterminated (s : string) : bool :=
  Py.truthy s && all_chars (not_chr Py.LF) s.

(** A list of lines as [readlines] yields it: every line has its line feed,
    except that the last one may lack it. *)
Fixpoint well_split (lines : list string) : bool :=
  match lines with
  | [] => true
  | l :: rest =>
      match rest with
      | [] => terminated l || unterminated l
      | _ :: _ => terminated l && well_split rest
      end
  end.

(** ** The shape of an [fdisk -o Device,Start,Sectors -l] listing *)

Module Fdisk.

Fixpoint spaces (k : nat) : string :=
  match k with
  | O => EmptyString
  | S k' => String Py.SP (spaces k')
  end.

(** The line that gives the unit size in bytes. *)
Definition units_head : string := "Units: sectors of 1 * ".

Definition units_line (u : N) : string :=
  units_head +:+ Py.dec u +:+ " = " +:+ Py.dec u +:+ " bytes".

(** A partition row: device name, start sector and sector count in columns
    separated by one or more blanks. *)
Definition row (name : string) (gap1 : nat) (start : N) (gap2 : nat) (sectors : N)
  : string :=
  name +:+ spaces (S gap1) +:+ Py.dec start +:+ spaces (S gap2) +:+ Py.dec sectors.

(** A device name: not empty and without blanks. *)
Definition word (s : string) : bool :=
  Py.truthy s && all_chars (fun a => negb (Py.is_space a)) s.

(** A line of the listing that the parser passes over: a single line that
    is neither the units line nor names a partition of [img]. *)
Definition other_line (img line : string) : bool :=
  all_chars (fun a => negb (Ascii.eqb a Py.LF)) line &&
  negb (Py.contains "Units:" line) &&
  negb (Py.contains (img +:+ "1") line) &&
  negb (Py.contains (img +:+ "2") line).

(** [line] mentions partition [this] of [img] and nothing else the parser
    looks for. *)
Definition names_only (img this other line : string) : bool :=
  Py.contains (img +:+ this) line &&
  negb (Py.contains (img +:+ other) line) &&
  negb (Py.contains "Units:" line).

(** What makes the lines a listing of the disk [img]: the lines around the
    units line and the rows are [other_line]s, the units line names no
    partition, and each row has a device name in its first column and
    mentions its own partition only. *)
Definition well_formed (img : string) (before : list string) (u : N)
    (between : list string) (name1 row1 name2 row2 : string)
    (after : list string) : bool :=
  forallb (other_line img) (before ++ between ++ after) &&
  negb (Py.contains (img +:+ "1") (units_line u)) &&
  negb (Py.contains (img +:+ "2") (units_line u)) &&
  word name1 && word name2 &&
  names_only img "1" "2" row1 && names_only img "2" "1" row2.

(** The listing: header lines, the units line, more header lines, the rows
    of the two partitions, trailing lines. *)
Definition listing (before : list string) (u : N) (between : list string)
    (row1 row2 : string) (after : list string) : string :=
  Py.join Py.nl (before ++ [units_line u] ++ between ++ [row1; row2] ++ after).

End Fdisk.

(** ** A small operating system to run the programs on

    Enough of a launcher to evaluate the programs above: [fdisk] prints a
    fixed text, [sudo mount] and [sudo umount] keep a table of mounts, and
    [mount] fails on the targets listed in [refused].  Every other
    executable is missing. *)

Module Sim.

Record world : Type := {
  mounts : list (string * string);
  trace : list (list string)
}.

Definition boot : world := {| mounts := []; trace := [] |}.

Definition ok : option (Z * string * string) := Some (0, EmptyString, EmptyString).

Definition spawn (fdisk_text : string) (refused : list string)
    (command : list string) (w : world) : option (Z * string * string) * world :=
  let logged := trace w ++ [command] in
  match command with
  | exe :: _ =>
      if String.eqb exe "fdisk"
      then (Some (0, fdisk_text, EmptyString), {| mounts := mounts w; trace := logged |})
      else match command with
           | _ :: tool :: args =>
               if String.eqb exe "sudo" && String.eqb tool "mount"
               then match rev args with
                    | target :: source :: _ =>
                        if existsb (String.eqb target) refused
                        then (Some (32, "mount: " +:+ target +:+ ": mount failed" +:+ Py.nl,
                                    EmptyString),
                              {| mounts := mounts w; trace := logged |})
                        else (ok, {| mounts := (source, target) :: mounts w;
                                     trace := logged |})
                    | _ => (Some (1, EmptyString, EmptyString),
                            {| mounts := mounts w; trace := logged |})
                    end
               else if String.eqb exe "sudo" && String.eqb tool "umount"
               then (ok, {| mounts :=
                              filter (fun m => negb (existsb (fun a =>
                                        String.eqb a (fst m) || String.eqb a (snd m)) args))
                                     (mounts w);
                            trace := logged |})
               else (None, {| mounts := mounts w; trace := logged |})
           | _ => (None, {| mounts := mounts w; trace := logged |})
           end
  | [] => (None, w)
  end.

(** [path.isfile]: the regular files of the simulated machine. *)
Definition isfile (files : list string) (p : string) (w : world) : bool :=
  existsb (String.eqb p) files.

Definition sda_before : list string :=
  ["Disk /dev/sda: 29.72 GiB, 31914983424 bytes, 62333952 sectors";
   "Disk model: Storage Device"].

Definition sda_between : list string :=
  ["Sector size (logical/physical): 512 bytes / 512 bytes";
   "I/O size (minimum/optimal): 512 bytes / 512 bytes";
   "Disklabel type: dos";
   "Disk identifier: 0x5452574f";
   EmptyString;
   "Device     Start  Sectors"].

(** What [fdisk -o Device,Start,Sectors -l /dev/sda] prints for a disk with
    a boot and a root partition, without the final line feed. *)
Definition sda_listing : string :=
  Fdisk.listing sda_before 512 sda_between
    (Fdisk.row "/dev/sda1" 2 8192 2 524288)
    (Fdisk.row "/dev/sda2" 0 532480 0 61801472)
    [].

(** The machine after [fdisk] has run. *)
Definition after_fdisk : world :=
  {| mounts := [];
     trace := [["fdisk"; "-o"; "Device,Start,Sectors"; "-l"; "/dev/sda"]] |}.

Definition production : kdt.BashCommands :=
  {| kdt.debug := false; kdt.make_command := [] |}.

(** A [BashCommands(debug_enable=True)]. *)
Definition debugging : kdt.BashCommands :=
  {| kdt.debug := true; kdt.make_command := [] |}.

(** The listing of a disk image with two partitions. *)
Definition img_before : list string :=
  ["Disk disk.img: 2 GiB, 2147483648 bytes, 4194304 sectors"].

Definition img_between : list string :=
  ["Sector size (logical/physical): 512 bytes / 512 bytes";
   EmptyString;
   "Device     Start  Sectors"].

Definition img_listing : string :=
  Fdisk.listing img_before 512 img_between
    (Fdisk.row "disk.img1" 2 8192 2 524288)
    (Fdisk.row "disk.img2" 0 532480 0 3661824)
    [].

(** The listing of an SD card whose partitions the kernel names with a
    [p] before the number. *)
Definition mmc_before : list string :=
  ["Disk /dev/mmcblk0: 29.72 GiB, 31914983424 bytes, 62333952 sectors"].

Definition mmc_after : list string :=
  ["Sector size (logical/physical): 512 bytes / 512 bytes";
   EmptyString;
   "Device         Start  Sectors";
   "/dev/mmcblk0p1  8192   524288";
   "/dev/mmcblk0p2 532480 61801472"].

Definition mmc_listing : string :=
  Py.join Py.nl (mmc_before ++ [Fdisk.units_line 512] ++ mmc_after).

(** The listing of a disk with a single partition. *)
Definition sdb_before : list string :=
  ["Disk /dev/sdb: 14.84 GiB, 15931539456 bytes, 31116288 sectors"].

Definition sdb_between : list string :=
  [EmptyString; "Device     Start  Sectors"].

Definition sdb_listing : string :=
  Py.join Py.nl
    (sdb_before ++ [Fdisk.units_line 512] ++ sdb_between
     ++ [Fdisk.row "/dev/sdb1" 2 2048 2 31114240] ++ []).

(** The listing of an NVMe disk with two partitions; the kernel names
    them with a [p] before the number, too. *)
Definition nvme_before : list string :=
  ["Disk /dev/nvme0n1: 476.94 GiB, 512110190592 bytes, 1000215216 sectors";
   "Disk model: SSD 512GB"].

Definition nvme_between : list string :=
  ["Sector size (logical/physical): 512 bytes / 512 bytes";
   "Disklabel type: gpt";
   EmptyString;
   "Device           Start    Sectors"].

Definition nvme_listing : string :=
  Fdisk.listing nvme_before 512 nvme_between
    (Fdisk.row "/dev/nvme0n1p1" 4 2048 4 1048576)
    (Fdisk.row "/dev/nvme0n1p2" 1 1050624 1 999162511)
    [].

(** The machine after [fdisk] has run on [disk]. *)
Definition fdisk_ran (disk : string) : world :=
  {| mounts := [];
     trace := [["fdisk"; "-o"; "Device,Start,Sectors"; "-l"; disk]] |}.

End Sim.

(** ** A registry and an environment to evaluate on *)

Module Sample.

(** Two sections of a [boards_config] file: a board that names a device-tree
    vendor directory but no device-tree path, and one with a path. *)
Definition boards_config : list (string * gmap string string) :=
  [("rpi_arm64",
    <["kernel_target" := "Image"]>
      (<["kernel_file" := "kernel8.img"]>
         (<["config_target" := "bcm2711_defconfig"]>
            (<["vendor" := "broadcom"]> {[ "cc" := "aarch64-linux-gnu-" ]}))));
   ("rpi_arm",
    <["kernel_target" := "zImage"]>
      (<["kernel_file" := "kernel7.img"]>
         (<["config_target" := "bcm2709_defconfig"]> {[ "dtb_path" := "~/dtbs" ]})))].

Definition bash_env : gmap string string :=
  <["board" := "rpi"]> {[ "HOME" := "/home/u" ]}.

Definition kdt_boards : string := "/home/u/kdt/boards".

Definition path_exists (p : string) : bool := true.

(** A device table as [match_host_ip] returns it, and a hosts file whose
    last line has no line feed. *)
Definition host_ip : list (string * string) := [("rpi", "192.168.0.7")].

Definition etc_hosts : string := "127.0.0.1 localhost".

End Sample.

(** ** Vocabulary of the statements *)

(** [r] is [s] without its final character; nothing is left of nothing. *)
Definition final_char_removed (s r : string) : Prop :=
  match s with
  | EmptyString => r = EmptyString
  | String _ _ => exists c, s = r +:+ String c EmptyString
  end.

(** The line [get_ips] adds for one device. *)
Definition host_line (hostname host_ip_addr : string) : string :=
  host_ip_addr +:+ " " +:+ hostname +:+ " #gip added" +:+ Py.nl.

(** A hostname or an address: text without line feed or carriage return. *)
Definition one_line (s : string) : bool :=
  all_chars (not_chr Py.LF) s && all_chars (not_chr Py.CR) s.

Definition plain_table (host_ip : list (string * string)) : bool :=
  forallb (fun entry => one_line (fst entry) && one_line (snd entry)) host_ip.

(** [s[-2:] == "\n\n"]: the text ends in an empty line. *)
Definition ends_with_empty_line (s : string) : bool :=
  String.eqb (Py.slice (Some (-2)) None s) (Py.nl +:+ Py.nl).

(** The text with the line feed that [get_ips] puts before its entries. *)
Definition separated (etc_hosts : string) : string :=
  if ends_with_empty_line etc_hosts then etc_hosts else etc_hosts +:+ Py.nl.

(** The lines [get_ips] adds for a device table. *)
Definition host_lines (host_ip : list (string * string)) : list string :=
  map (fun entry => host_line (fst entry) (snd entry)) host_ip.

(** A line that [read_etc_hosts] keeps. *)
Definition unmarked (line : string) : bool :=
  negb (Py.contains get_ip.marker line).

(** The number of lines of [lines] that satisfy [P]. *)
Definition count_lines (P : string -> bool) (lines : list string) : nat :=
  length (List.filter P lines).

(** [board] is configured for [arch] in the dict of
    [available_configured_boards]. *)
Definition board_entry (boards : kernel_builder.boards_arch) (board arch : string)
  : Prop :=
  exists archs, kernel_builder.dict_get board boards = Returns archs /\ In arch archs.

(** The value [get_config(d, name, False)] reads. *)
Definition setting (d : gmap string string) (name : string) : string :=
  default EmptyString (d !! name).

Definition is_set (d : gmap string string) (name : string) : bool :=
  Py.truthy (setting d name).

(** One of the three kernel configuration sources is set in [d]. *)
Definition any_set (d : gmap string string) : bool :=
  is_set d "config_target" || is_set d "config_file" || is_set d "config_gz".

(** The options [BoardConfig.__init__] copies from the board's section,
    apart from [update_ramfs]. *)
Definition copied_options : list string :=
  ["kernel_target"; "kernel_file"; "pkg_folder"; "ramfs_file"; "dtb_path";
   "on"; "off"; "overlay_path"; "vendor"; "cc"; "cc_path"].

(** [~] and [$kdt_boards] replaced, as [get_board_config] does. *)
Definition expanded (home kdt_boards value : string) : string :=
  Py.replace "$kdt_boards" kdt_boards (Py.replace "~" home value).

(** A line that [read_etc_hosts] drops. *)
Definition marked (line : string) : bool := negb (unmarked line).

(** A line that [remove_change_id] keeps. *)
Definition no_change_id (line : string) : bool :=
  negb (Py.startswith git_format_patch.change_id line).

(** The items of a section as the parser stores them: the option names in
    lower case. *)
Definition stored_items (section : kdt.ConfigSection) : kdt.ConfigSection :=
  map (fun item => (kdt.optionxform (fst item), snd item)) section.

(** A value is accepted by [before_set]: every [%] in it is doubled or
    starts a [%(name)s]. *)
Definition accepted_value (value : string) : bool :=
  negb (Py.contains "%" (kdt.sub_keys 0 (Py.replace "%%" EmptyString value))).

(** What [kdt_update_section] has in its parser before it sets the
    section: the file as the reader read it, and nothing without a file. *)
Definition parsed (read : string -> outcome kdt.ConfigParser) (file : option string)
  : outcome kdt.ConfigParser :=
  match file with
  | Some text => read text
  | None => Returns kdt.ConfigParser_new
  end.

(** ** A [~/.kdt] file to evaluate on *)

Module Rc.

(** The file after [kdt_install] has stored the build folder. *)
Definition kdt_file : string :=
  "[kernel_builder]" +:+ Py.nl +:+
  "kdt_build = /home/u/.kdt_kernel_builds" +:+ Py.nl +:+ Py.nl.

(** What a new parser holds after reading that file. *)
Definition kdt_parsed : kdt.ConfigParser :=
  {| kdt._defaults := [];
     kdt._sections :=
       [("kernel_builder", [("kdt_build", "/home/u/.kdt_kernel_builds")])] |}.

(** A reader that knows this one file, which is enough to evaluate on;
    it refuses every other text. *)
Definition read (text : string) : outcome kdt.ConfigParser :=
  if String.eqb text kdt_file then Returns kdt_parsed
  else Raises ValueError.

End Rc.

(** The hostnames of [host_mac_list] whose MAC address was seen in the
    scan, each with the address seen. *)
Definition joined (host_mac_list : list (string * string))
    (net_devices : gmap string string) : list (string * string) :=
  flat_map (fun entry =>
              match net_devices !! snd entry with
              | Some ip_addr => [(fst entry, ip_addr)]
              | None => []
              end)
           host_mac_list.

(** ** A launcher for the network tools and for [make]

    [ip] and [arp-scan] print fixed texts, [make] ends with a fixed status,
    [rm], [mkdir] and [ln] succeed, and every other executable is missing.
    The world is the list of the commands launched. *)

Module Net.

Definition spawn (ip_text scan_text : string) (make_status : Z)
    (command : list string) (w : list (list string))
  : option (Z * string * string) * list (list string) :=
  let w := w ++ [command] in
  match command with
  | exe :: rest =>
      if String.eqb exe "ip" then (Some (0, ip_text, EmptyString), w)
      else if String.eqb exe "sudo" && String.eqb (hd EmptyString rest) "arp-scan"
      then (Some (0, scan_text, EmptyString), w)
      else if String.eqb exe "make" then (Some (make_status, EmptyString, EmptyString), w)
      else if String.eqb exe "rm" || String.eqb exe "mkdir" || String.eqb exe "ln"
      then (Some (0, EmptyString, EmptyString), w)
      else (None, w)
  | [] => (None, w)
  end.

(** What [ip -f inet addr show scope global] prints for one interface. *)
Definition one_interface : string :=
  "2: eth0: <BROADCAST,MULTICAST,UP,LOWER_UP> mtu 1500 qdisc fq state UP group default"
  +:+ Py.nl +:+
  "    inet 192.168.1.17/24 brd 192.168.1.255 scope global dynamic eth0"
  +:+ Py.nl +:+
  "       valid_lft 86000sec preferred_lft 86000sec" +:+ Py.nl.

(** What [arp-scan -qx] prints for two devices. *)
Definition two_devices : string :=
  "192.168.1.7" +:+ String Py.TAB "b8:27:eb:00:00:01" +:+ Py.nl +:+
  "192.168.1.9" +:+ String Py.TAB "94:c6:91:00:00:02" +:+ Py.nl.

(** A builder in production mode with the links for Eclipse enabled. *)
Definition builder : kernel_builder.KernelBuilder :=
  {| kernel_builder.bash :=
       {| kdt.debug := false;
          kdt.make_command := ["make"; "-j8"; "ARCH=arm64"; "O=/build/rpi/kernel"] |};
     kernel_builder.env_eclipse_links := true;
     kernel_builder.env_kernel_build_path := "/build/rpi/kernel";
     kernel_builder.env_eclipse_include := "/build/eclipse_include";
     kernel_builder.board_config :=
       {| kernel_builder.build_params := {[ "arch" := "arm64" ]};
          kernel_builder.build_target := ["Image"; "modules"];
          kernel_builder.board_sect := ∅ |} |}.

End Net.

(** A character of a dotted address: a digit or a dot. *)
Definition address_char (a : ascii) : bool := is_digit a || Ascii.eqb a ".".

(** The address line that [ip addr show] prints under an interface:
    [inet], address and prefix length, [brd] and what follows. *)
Definition address_line (indent net host mask rest : string) : string :=
  indent +:+ "inet " +:+ net +:+ "." +:+ host +:+ "/" +:+ mask +:+ " brd" +:+ rest.

(** * Properties *)

(** ** Strings *)

Section StringFacts.

Lemma str_app_nil_l (s : string) : EmptyString +:+ s = s.
Proof. reflexivity. Qed.

Lemma str_app_cons (a : ascii) (s t : string) : String a s +:+ t = String a (s +:+ t).
Proof. reflexivity. Qed.

Lemma str_app_nil_r (s : string) : s +:+ EmptyString = s.
Proof. induction s as [|a s IH]; [reflexivity|]. rewrite str_app_cons, IH. reflexivity. Qed.

Lemma str_app_assoc (s t u : string) : (s +:+ t) +:+ u = s +:+ (t +:+ u).
Proof.
  induction s as [|a s IH]; [reflexivity|].
  rewrite !str_app_cons, IH. reflexivity.
Qed.

Lemma str_length_app (s t : string) :
  String.length (s +:+ t) = (String.length s + String.length t)%nat.
Proof.
  induction s as [|a s IH]; [reflexivity|].
  rewrite str_app_cons. simpl. rewrite IH. reflexivity.
Qed.

Lemma str_take_app_length (s t : string) : Py.take (String.length s) (s +:+ t) = s.
Proof.
  induction s as [|a s IH]; [destruct t; reflexivity|].
  rewrite str_app_cons. simpl. rewrite IH. reflexivity.
Qed.

Lemma str_drop_app_length (s t : string) : Py.drop (String.length s) (s +:+ t) = t.
Proof.
  induction s as [|a s IH]; [destruct t; reflexivity|].
  rewrite str_app_cons. simpl. exact IH.
Qed.

Lemma str_take_all (s : string) : Py.take (String.length s) s = s.
Proof. rewrite <- (str_app_nil_r s) at 2. rewrite str_take_app_length. reflexivity. Qed.

Lemma str_drop_0 (s : string) : Py.drop 0 s = s.
Proof. destruct s; reflexivity. Qed.

(** Every non-empty string has a last character. *)
Lemma str_last_char (a : ascii) (s : string) :
  exists r c, String a s = r +:+ String c EmptyString.
Proof.
  revert a. induction s as [|b s IH]; intros a.
  - exists EmptyString, a. reflexivity.
  - destruct (IH b) as (r & c & E). exists (String a r), c.
    rewrite str_app_cons, <- E. reflexivity.
Qed.

(** [s[:-1]] drops the last character. *)
Lemma slice_but_last (r : string) (c : ascii) :
  Py.slice None (Some (-1)) (r +:+ String c EmptyString) = r.
Proof.
  unfold Py.slice, Py.clamp. rewrite str_length_app. simpl String.length.
  change (-1 <? 0) with true. cbv iota.
  replace (Z.to_nat _) with (String.length r) by lia.
  rewrite Nat.sub_0_r, str_drop_0. apply str_take_app_length.
Qed.

Lemma slice_but_last_empty : Py.slice None (Some (-1)) EmptyString = EmptyString.
Proof. reflexivity. Qed.

Lemma slice_but_last_spec (s : string) :
  final_char_removed s (Py.slice None (Some (-1)) s).
Proof.
  destruct s as [|a s]; [reflexivity|].
  destruct (str_last_char a s) as (r & c & E). simpl. exists c.
  rewrite E at 2. rewrite slice_but_last. exact E.
Qed.

End StringFacts.

(** ** The command runner *)

Section RunnerFacts.

Context {W : Type}.
Variable spawn : list string -> W -> option (Z * string * string) * W.

(** C2, in the form the code satisfies.
    When the executable of a launched command is missing,
    [kdt_run_str] terminates the program with the diagnostic
    [FAIL: <command>], while [kdt_run] returns [False] to its caller. *)
Theorem missing_executable_str_exits_run_returns_false
    (self : kdt.BashCommands) (command cmd : list string)
    (debug_type : bool * bool) (sudo check : bool) (w w' : W) :
  kdt.print_command self (if sudo then "sudo" :: command else command) debug_type
    = (true, cmd) ->
  spawn cmd w = (None, w') ->
  kdt.kdt_run_str spawn self command debug_type sudo check w
    = (Exits ("FAIL: " +:+ Py.join " " cmd), w') /\
  kdt.kdt_run spawn self command debug_type sudo check w = (Returns false, w').
Proof.
  intros Hp Hs. unfold kdt.kdt_run_str, kdt.kdt_run, kdt.run.
  rewrite Hp, Hs. split; reflexivity.
Qed.

(** C10.  For a command that was executed and completed, [kdt_run_str]
    returns standard output and standard error each without its final
    character, whatever that character is, and returns the empty string for
    empty output. *)
Theorem kdt_run_str_removes_final_character
    (self : kdt.BashCommands) (command cmd : list string)
    (debug_type : bool * bool) (sudo check : bool) (w w' : W)
    (rc : Z) (out err : string) :
  kdt.print_command self (if sudo then "sudo" :: command else command) debug_type
    = (true, cmd) ->
  kdt.run spawn cmd check w = (kdt.CompletedProcess rc out err, w') ->
  exists o e,
    kdt.kdt_run_str spawn self command debug_type sudo check w
      = (Returns (rc =? 0, o, e), w') /\
    final_char_removed out o /\ final_char_removed err e.
Proof.
  intros Hp Hr. unfold kdt.kdt_run_str. rewrite Hp. simpl negb. cbv iota.
  rewrite Hr. eexists _, _. split; [reflexivity|].
  split; apply slice_but_last_spec.
Qed.

(** A [BashCommands] method reached through [__getattr__] either returns
    [True] or does not return. *)
Lemma run_current_command_check_true
    (self : kdt.BashCommands) (current arguments : list string) (sudo : bool)
    (w : W) (b : bool) :
  fst (kdt.run_current_command_check spawn self current arguments sudo w) = Returns b ->
  b = true.
Proof.
  unfold kdt.run_current_command_check.
  destruct (kdt.print_command _ _ _) as [go cmd].
  destruct go; simpl; [|congruence].
  destruct (kdt.run spawn cmd true w) as [[| | ] ?]; simpl; congruence.
Qed.

(** With the real [BashCommands], a failing mount of the boot partition
    ends the program inside [bash.mount]: the world is left as the failed
    mount left it, and no [umount] is launched. *)
Lemma mount_both_boot_failure_exits
    (self : kdt.BashCommands) (mount_point root_src boot_src : string)
    (root_args boot_args : list string) (w w1 w2 : W)
    (o1 e1 o2 e2 : string) (rc : Z) :
  kdt.debug self = false ->
  spawn ("sudo" :: "mount" :: root_args ++ [root_src; mount_point]) w
    = (Some (0, o1, e1), w1) ->
  spawn ("sudo" :: "mount" :: boot_args ++ [boot_src; mount_point +:+ "/boot"]) w1
    = (Some (rc, o2, e2), w2) ->
  rc <> 0 ->
  kdt.mount_both (kdt.bash_of spawn self) mount_point root_args boot_args
    root_src (Some boot_src) w = (Exits o2, w2).
Proof.
  intros Hd H1 H2 Hrc.
  unfold kdt.mount_both, kdt.bash_of, kdt.bash_mount, mbind, prog_bind.
  unfold kdt.run_current_command_check, kdt.print_command, kdt.run.
  rewrite Hd. simpl. rewrite H1. simpl. rewrite H2.
  destruct (Z.eqb_spec rc 0) as [->|_]; [contradiction|]. reflexivity.
Qed.

End RunnerFacts.

Section AnyBash.

Context {W : Type}.

(** What [disk_mount] is written for: a [bash] whose [mount] reports
    failure by returning [False].  There the root source is unmounted and
    [(False, False)] is returned. *)
Lemma mount_both_unmounts_on_reported_failure
    (bash : @kdt.Bash W) (mount_point root_src boot_src : string)
    (root_args boot_args : list string) (w w1 w2 w3 : W) (root_ret u : bool) :
  kdt.bash_mount bash (root_args ++ [root_src; mount_point]) true w
    = (Returns root_ret, w1) ->
  kdt.bash_mount bash (boot_args ++ [boot_src; mount_point +:+ "/boot"]) true w1
    = (Returns false, w2) ->
  kdt.bash_umount bash [root_src] true w2 = (Returns u, w3) ->
  kdt.mount_both bash mount_point root_args boot_args root_src (Some boot_src) w
    = (Returns (false, false), w3).
Proof.
  intros H1 H2 H3. unfold kdt.mount_both, mbind, prog_bind.
  rewrite H1, H2. simpl. rewrite H3. reflexivity.
Qed.

End AnyBash.

(** The hypotheses of the theorem above hold for [ccache --version] on a
    machine without [ccache]. *)
Lemma missing_executable_witness :
  kdt.print_command Sim.production ["ccache"; "--version"] (false, true)
    = (true, ["ccache"; "--version"]) /\
  Sim.spawn EmptyString [] ["ccache"; "--version"] Sim.boot
    = (None, {| Sim.mounts := []; Sim.trace := [["ccache"; "--version"]] |}) /\
  kdt.kdt_run_str (Sim.spawn EmptyString []) Sim.production
      ["ccache"; "--version"] (false, true) false false Sim.boot
    = (Exits ("FAIL: " +:+ Py.join " " ["ccache"; "--version"]),
       {| Sim.mounts := []; Sim.trace := [["ccache"; "--version"]] |}) /\
  kdt.kdt_run (Sim.spawn EmptyString []) Sim.production
      ["ccache"; "--version"] (false, true) false false Sim.boot
    = (Returns false, {| Sim.mounts := []; Sim.trace := [["ccache"; "--version"]] |}).
Proof.
  split; [reflexivity|]. split; [reflexivity|].
  apply (missing_executable_str_exits_run_returns_false
           (Sim.spawn EmptyString []) Sim.production
           ["ccache"; "--version"] ["ccache"; "--version"] (false, true) false false
           Sim.boot); reflexivity.
Defined.

(** C2 as the specification states it fails for [kdt_run]: the launcher reports the executable
    missing, and the call returns instead of ending the program. *)
Lemma kdt_run_missing_executable_returns :
  fst (Sim.spawn EmptyString [] ["ccache"; "--version"] Sim.boot) = None /\
  ~ terminates_program
      (fst (kdt.kdt_run (Sim.spawn EmptyString []) Sim.production
              ["ccache"; "--version"] (false, true) false false Sim.boot)).
Proof.
  split; [reflexivity|]. intros [msg H]. vm_compute in H. discriminate H.
Qed.

(** [printf hello] prints five characters and no line feed; [kdt_run_str]
    hands back four of them. *)
Lemma kdt_run_str_removes_final_character_witness :
  kdt.print_command Sim.production ["fdisk"; "-l"] (false, true)
    = (true, ["fdisk"; "-l"]) /\
  kdt.run (Sim.spawn "hello" []) ["fdisk"; "-l"] true Sim.boot
    = (kdt.CompletedProcess 0 "hello" EmptyString,
       {| Sim.mounts := []; Sim.trace := [["fdisk"; "-l"]] |}) /\
  exists o e,
    kdt.kdt_run_str (Sim.spawn "hello" []) Sim.production ["fdisk"; "-l"]
      (false, true) false true Sim.boot
      = (Returns (0 =? 0, o, e),
         {| Sim.mounts := []; Sim.trace := [["fdisk"; "-l"]] |}) /\
    final_char_removed "hello" o /\ final_char_removed EmptyString e.
Proof.
  split; [reflexivity|]. split; [reflexivity|].
  apply (kdt_run_str_removes_final_character
           (Sim.spawn "hello" []) Sim.production ["fdisk"; "-l"] ["fdisk"; "-l"]
           (false, true) false true Sim.boot); reflexivity.
Defined.

(** C8, the code at the failing input.  On a two-partition disk whose boot
    partition cannot be mounted, [disk_mount] does not return
    [(False, False)]: the program ends inside [bash.mount], the root
    partition is still mounted and no [umount] was launched. *)
Theorem disk_mount_boot_failure_leaves_root_mounted :
  exists msg w,
    kdt.disk_mount (Sim.isfile []) "/dev/sda" "/tmp/mnt"
      (kdt.bash_of (Sim.spawn (Sim.sda_listing +:+ Py.nl) ["/tmp/mnt/boot"])
                   Sim.production) Sim.boot
      = (Exits msg, w) /\
    Sim.mounts w = [("/dev/sda2", "/tmp/mnt")] /\
    Sim.trace w =
      [["fdisk"; "-o"; "Device,Start,Sectors"; "-l"; "/dev/sda"];
       ["sudo"; "mount"; "/dev/sda2"; "/tmp/mnt"];
       ["sudo"; "mount"; "/dev/sda1"; "/tmp/mnt/boot"]].
Proof.
  eexists _, _. split; [vm_compute; reflexivity|]. split; reflexivity.
Qed.

(** ** The board registry *)

Section BoardFacts.

Import kernel_builder.

#[local] Arguments str_in : simpl never.

Lemma bind_Returns {A B : Type} (m : outcome A) (k : A -> outcome B) (b : B) :
  m ≫= k = Returns b -> exists a, m = Returns a /\ k a = Returns b.
Proof. destruct m as [a| |]; simpl; [eauto | discriminate | discriminate]. Qed.

Lemma str_in_cons (x y : string) (l : list string) :
  str_in x (y :: l) = String.eqb x y || str_in x l.
Proof. reflexivity. Qed.

Lemma str_in_singleton (x : string) : str_in x [x] = true.
Proof. rewrite str_in_cons, String.eqb_refl. reflexivity. Qed.

Lemma str_in_singleton_inv (x y : string) : str_in x [y] = true -> y = x.
Proof.
  rewrite str_in_cons. change (str_in x []) with false. rewrite orb_false_r.
  intros H. apply String.eqb_eq in H. congruence.
Qed.

(** What [set_arch] computes without [arch] in the environment: the
    board's only architecture when it has exactly one; with more than one
    the constant [x86_64] if [x86_64] or [x86] is configured and the
    constant [arm64] otherwise.  The choice is one of the board's
    architectures when the board has a single one, when [x86_64] is
    configured, or when [x86] is not configured and [arm64] is; in the
    other cases it is not looked up. *)
Lemma set_arch_default_choice
    (build_params : gmap string string) (available : list (string * list string))
    (bash_env : gmap string string) (board_name : string) (archs : list string) :
  bash_env !! "arch" = None ->
  build_params !! "board_name" = Some board_name ->
  dict_get board_name available = Returns archs ->
  exists arch,
    set_arch build_params available bash_env
      = Returns (<["arch" := arch]> build_params) /\
    (forall only, archs = [only] -> arch = only) /\
    (length archs <> 1%nat ->
       arch = if str_in "x86_64" archs || str_in "x86" archs
              then "x86_64" else "arm64") /\
    (length archs = 1%nat \/ str_in "x86_64" archs = true \/
     (str_in "x86" archs = false /\ str_in "arm64" archs = true) ->
     str_in arch archs = true).
Proof.
  intros Henv Hname Harchs. unfold set_arch, getattr.
  rewrite Henv, Hname. simpl. rewrite Harchs. simpl.
  destruct archs as [|a [|b rest]].
  - eexists. split; [reflexivity|]. split; [discriminate|].
    split; [reflexivity|]. intros [H|[H|[_ H]]]; discriminate.
  - eexists. split; [reflexivity|]. split; [congruence|].
    split; [simpl; congruence|]. intros _. apply str_in_singleton.
  - set (archs := a :: b :: rest).
    destruct (str_in "x86_64" archs) eqn:E64; simpl.
    + eexists. split; [reflexivity|]. split; [discriminate|].
      split; [reflexivity|]. intros _. exact E64.
    + destruct (str_in "x86" archs) eqn:E86; simpl.
      * eexists. split; [reflexivity|]. split; [discriminate|].
        split; [reflexivity|]. intros [H|[H|[H _]]]; discriminate.
      * eexists. split; [reflexivity|]. split; [discriminate|].
        split; [reflexivity|]. intros [H|[H|[_ H]]]; [discriminate..|exact H].
Qed.

Lemma set_arch_default_choice_witness :
  (∅ : gmap string string) !! "arch" = None /\
  ({[ "board_name" := "rpi" ]} : gmap string string) !! "board_name" = Some "rpi" /\
  dict_get "rpi" [("rpi", ["arm"; "arm64"])] = Returns ["arm"; "arm64"] /\
  exists arch,
    set_arch {[ "board_name" := "rpi" ]} [("rpi", ["arm"; "arm64"])] ∅
      = Returns (<["arch" := arch]> {[ "board_name" := "rpi" ]}) /\
    arch = "arm64" /\
    str_in arch ["arm"; "arm64"] = true.
Proof.
  split; [reflexivity|]. split; [reflexivity|]. split; [reflexivity|].
  pose proof (set_arch_default_choice {[ "board_name" := "rpi" ]}
                [("rpi", ["arm"; "arm64"])] ∅ "rpi" ["arm"; "arm64"]) as H.
  destruct H as (arch & E & _ & Hmany & Hin); [reflexivity..|].
  exists arch. split; [exact E|]. split.
  - apply Hmany. discriminate.
  - apply Hin. right. right. split; reflexivity.
Defined.

(** C3.  The defect: with the sections [pc_x86] and [pc_arm] and no [arch]
    in the environment, [set_arch] gives the board [x86_64], which is not
    one of its architectures.  The branch for an exported [arch] checks
    the membership and exits with a message (an exported [x86_64] is
    refused here); the default branch assigns the constant unchecked, and
    [BoardConfig.__init__] then looks up the section [pc_x86_64] and ends
    in an uncaught [KeyError]. *)
Theorem set_arch_selects_unconfigured_arch :
  available_configured_boards ["pc_x86"; "pc_arm"] = Returns [("pc", ["x86"; "arm"])] /\
  set_arch {[ "board_name" := "pc" ]} [("pc", ["x86"; "arm"])] ∅
    = Returns (<["arch" := "x86_64"]> {[ "board_name" := "pc" ]}) /\
  str_in "x86_64" ["x86"; "arm"] = false /\
  set_arch {[ "board_name" := "pc" ]} [("pc", ["x86"; "arm"])] {[ "arch" := "x86_64" ]}
    = Exits ("Error! Arch " +:+ kdt.dq +:+ "x86_64" +:+ kdt.dq +:+ " not configured for pc") /\
  BoardConfig_init Sample.path_exists [("pc_x86", ∅); ("pc_arm", ∅)] {[ "board" := "pc" ]}
    Sample.kdt_boards
    = Raises (KeyError "pc_x86_64").
Proof. repeat split; vm_compute; reflexivity. Qed.

Section Files.

Variable path_exists : string -> bool.

(** When exactly two sources are set, the check does end the program. *)
Lemma use_config_two_sources_exit
    (fix_path : string -> string) (t f g : string) (bp : gmap string string) :
  (Py.truthy t && Py.truthy f && negb (Py.truthy g)
   || Py.truthy t && negb (Py.truthy f) && Py.truthy g
   || negb (Py.truthy t) && Py.truthy f && Py.truthy g) = true ->
  use_config path_exists fix_path t f g bp
    = Exits "Error! More than one kernel config is set".
Proof.
  unfold use_config.
  destruct (Py.truthy t), (Py.truthy f), (Py.truthy g); simpl;
    intros H; try discriminate H; reflexivity.
Qed.

(** When all three sources are set, the exclusive-or chain is true and the
    check lets them through: the call returns with [config_gz] selected
    (or ends on a missing [config_file], with that message). *)
Lemma use_config_three_sources_return
    (fix_path : string -> string) (t f g : string) (bp : gmap string string) :
  Py.truthy t = true -> Py.truthy f = true -> Py.truthy g = true ->
  path_exists (fix_path f) = true ->
  exists bp',
    use_config path_exists fix_path t f g bp = Returns bp' /\
    bp' !! "config_to_use" = Some "config_gz".
Proof.
  intros Ht Hf Hg He. unfold use_config. rewrite Ht, Hf, Hg, He. simpl.
  eexists. split; [reflexivity|]. apply lookup_insert_eq.
Qed.

End Files.

(** C1, the code at the failing input.  With [config_target],
    [config_file] and [config_gz] all exported, and the file present,
    [select_kernel_config] returns normally with [config_to_use] selected. *)
Theorem select_kernel_config_accepts_three_sources :
  exists bp,
    select_kernel_config (fun _ => true) ∅
      (<["config_target" := "defconfig"]>
         (<["config_file" := "/tmp/config"]> {[ "config_gz" := "yes" ]}))
      ∅ "/boards" = Returns bp /\
    bp !! "config_to_use" = Some "config_gz".
Proof. eexists. split; [vm_compute; reflexivity|]. reflexivity. Qed.

(** The same from the board's section of the registry. *)
Lemma select_kernel_config_accepts_three_sources_of_board :
  exists bp,
    select_kernel_config (fun _ => true) ∅ ∅
      (<["config_target" := "defconfig"]>
         (<["config_file" := "$kdt_boards/rpi.config"]> {[ "config_gz" := "yes" ]}))
      "/boards" = Returns bp /\
    bp !! "config_to_use" = Some "config_gz".
Proof. eexists. split; [vm_compute; reflexivity|]. reflexivity. Qed.

Lemma getattr_Returns (bp : gmap string string) (name v : string) :
  getattr bp name = Returns v -> bp !! name = Some v.
Proof. unfold getattr. destruct (bp !! name); congruence. Qed.

Lemma get_board_config_Returns (board_sect bash_env : gmap string string)
    (kdt_boards name : string) (mandatory : bool) (bp bp' : gmap string string) :
  get_board_config board_sect bash_env kdt_boards name mandatory bp = Returns bp' ->
  exists v, bp' = <[name := v]> bp.
Proof.
  unfold get_board_config. intros H.
  apply bind_Returns in H. destruct H as (b & _ & H).
  apply bind_Returns in H. destruct H as (h & _ & H).
  eexists. symmetry. injection H as H. exact H.
Qed.

(** Take apart a sequence of calls that is known to return. *)
Ltac peel H :=
  repeat (cbv beta zeta in H;
          match type of H with
          | (_ ≫= _) = Returns _ =>
              apply bind_Returns in H; destruct H as (? & ? & H)
          | (if ?c then Exits _ else _) = Returns _ =>
              destruct c eqn:?; [discriminate H|]
          end).

(** C4, in the form the code satisfies.
    A resolved board has the build targets
    [[kernel_target, "modules", "dtbs"]] when its device-tree path, its
    vendor or its overlay path is non-empty, and
    [[kernel_target, "modules"]] when all three are empty.  In particular a
    non-empty device-tree path always gives the three targets. *)
Theorem build_target_of_resolved_board
    (path_exists : string -> bool) (boards_config : list (string * gmap string string))
    (bash_env : gmap string string) (kdt_boards : string) (bc : BoardConfig) :
  BoardConfig_init path_exists boards_config bash_env kdt_boards = Returns bc ->
  exists kernel_target dtb_path vendor overlay_path,
    build_params bc !! "kernel_target" = Some kernel_target /\
    build_params bc !! "dtb_path" = Some dtb_path /\
    build_params bc !! "vendor" = Some vendor /\
    build_params bc !! "overlay_path" = Some overlay_path /\
    build_target bc =
      if Py.truthy dtb_path || Py.truthy vendor || Py.truthy overlay_path
      then [kernel_target; "modules"; "dtbs"]
      else [kernel_target; "modules"].
Proof.
  intros H. unfold BoardConfig_init in H. peel H.
  injection H as <-. cbn [build_params build_target].
  lazymatch goal with
  | Hcp : get_board_config _ _ _ "cc_path" _ _ = Returns ?final,
    Hcc : get_board_config _ _ _ "cc" _ _ = Returns _,
    Hv : get_board_config _ _ _ "vendor" _ _ = Returns _,
    Ho : get_board_config _ _ _ "overlay_path" _ _ = Returns _,
    Hkt : getattr ?final "kernel_target" = Returns ?kt,
    Hdtb : getattr ?final "dtb_path" = Returns ?dtb,
    Hvend : (if Py.truthy ?dtb then _ else getattr ?final "vendor") = Returns ?vend,
    Hover : (if _ then _ else getattr ?final "overlay_path") = Returns ?over |- _ =>
      apply get_board_config_Returns in Hcp as (vcp & ->);
      apply get_board_config_Returns in Hcc as (vcc & ->);
      apply get_board_config_Returns in Hv as (vendor & ->);
      apply get_board_config_Returns in Ho as (overlay & ->);
      apply getattr_Returns in Hkt, Hdtb;
      exists kt, dtb, vendor, overlay;
      split; [exact Hkt|]; split; [exact Hdtb|];
      split; [rewrite !lookup_insert_ne by discriminate; apply lookup_insert_eq|];
      split; [rewrite !lookup_insert_ne by discriminate; apply lookup_insert_eq|];
      destruct (Py.truthy dtb) eqn:Ed; simpl; [reflexivity|];
      apply getattr_Returns in Hvend;
      rewrite !lookup_insert_ne, lookup_insert_eq in Hvend by discriminate;
      injection Hvend as <-;
      destruct (Py.truthy vendor) eqn:Ev; simpl; [reflexivity|];
      simpl in Hover; apply getattr_Returns in Hover;
      rewrite !lookup_insert_ne, lookup_insert_eq in Hover by discriminate;
      injection Hover as <-;
      destruct (Py.truthy overlay); reflexivity
  end.
Qed.

(** The sample board with a device-tree path resolves, and builds the three
    targets. *)
Lemma build_target_of_resolved_board_witness :
  exists bc,
    BoardConfig_init Sample.path_exists Sample.boards_config
      (<["arch" := "arm"]> Sample.bash_env) Sample.kdt_boards = Returns bc /\
    build_params bc !! "dtb_path" = Some "/home/u/dtbs" /\
    exists kernel_target dtb_path vendor overlay_path,
      build_params bc !! "kernel_target" = Some kernel_target /\
      build_params bc !! "dtb_path" = Some dtb_path /\
      build_params bc !! "vendor" = Some vendor /\
      build_params bc !! "overlay_path" = Some overlay_path /\
      build_target bc =
        if Py.truthy dtb_path || Py.truthy vendor || Py.truthy overlay_path
        then [kernel_target; "modules"; "dtbs"]
        else [kernel_target; "modules"].
Proof.
  destruct (BoardConfig_init Sample.path_exists Sample.boards_config
              (<["arch" := "arm"]> Sample.bash_env) Sample.kdt_boards)
    as [bc| |] eqn:E; [|vm_compute in E; discriminate E..].
  exists bc. split; [reflexivity|]. split.
  - vm_compute in E. injection E as <-. reflexivity.
  - exact (build_target_of_resolved_board _ _ _ _ bc E).
Defined.

(** C4 as the specification states it fails in its second half: the sample board without a
    device-tree path, but with a vendor directory, builds [dtbs] too. *)
Lemma board_without_dtb_path_builds_dtbs :
  exists bc,
    BoardConfig_init Sample.path_exists Sample.boards_config Sample.bash_env
      Sample.kdt_boards = Returns bc /\
    build_params bc !! "dtb_path" = Some EmptyString /\
    build_target bc = ["Image"; "modules"; "dtbs"] /\
    build_target bc <> ["Image"; "modules"].
Proof.
  eexists. split; [vm_compute; reflexivity|].
  split; [reflexivity|]. split; [reflexivity|]. discriminate.
Qed.

End BoardFacts.

(** ** Lines of text *)

Section LineFacts.

Lemma str_concat_cons (x : string) (l : list string) :
  Py.concat (x :: l) = x +:+ Py.concat l.
Proof.
  destruct l as [|y l]; simpl.
  - symmetry. apply str_app_nil_r.
  - reflexivity.
Qed.

Lemma str_concat_app (l1 l2 : list string) :
  Py.concat (l1 ++ l2) = Py.concat l1 +:+ Py.concat l2.
Proof.
  induction l1 as [|x l1 IH]; [reflexivity|].
  rewrite <- app_comm_cons, !str_concat_cons, IH, str_app_assoc. reflexivity.
Qed.

(** A loop that appends the lines it keeps writes the kept lines in order. *)
Lemma fold_left_keep (P : string -> bool) (lines : list string) (acc : string) :
  fold_left (fun written line => if P line then written +:+ line else written)
    lines acc = acc +:+ Py.concat (List.filter P lines).
Proof.
  revert acc. induction lines as [|l lines IH]; intros acc; simpl.
  - symmetry. apply str_app_nil_r.
  - rewrite IH. destruct (P l); [|reflexivity].
    rewrite str_concat_cons, str_app_assoc. reflexivity.
Qed.

Lemma lines_keepends_cons (a : ascii) (s : string) :
  Py.lines_keepends (String a s) =
    if Ascii.eqb a Py.LF then Py.nl :: Py.lines_keepends s
    else match Py.lines_keepends s with
         | l :: ls => String a l :: ls
         | [] => [String a EmptyString]
         end.
Proof. reflexivity. Qed.

(** Reading lines loses nothing. *)
Lemma concat_lines_keepends (s : string) : Py.concat (Py.lines_keepends s) = s.
Proof.
  induction s as [|a s IH]; [reflexivity|].
  rewrite lines_keepends_cons. destruct (Ascii.eqb_spec a Py.LF) as [->|Hne].
  - rewrite str_concat_cons, IH. reflexivity.
  - destruct (Py.lines_keepends s) as [|l ls].
    + simpl in IH. subst s. reflexivity.
    + rewrite str_concat_cons in *. rewrite str_app_cons, IH. reflexivity.
Qed.

Lemma terminated_cons (a : ascii) (s : string) :
  terminated (String a s) =
    if Ascii.eqb a Py.LF then negb (Py.truthy s) else terminated s.
Proof. reflexivity. Qed.

Lemma lines_keepends_well_split (s : string) : well_split (Py.lines_keepends s) = true.
Proof.
  induction s as [|a s IH]; [reflexivity|].
  rewrite lines_keepends_cons. destruct (Ascii.eqb_spec a Py.LF) as [->|Hne].
  - destruct (Py.lines_keepends s) as [|l ls]; [reflexivity|].
    change (terminated Py.nl && well_split (l :: ls) = true). rewrite IH. reflexivity.
  - apply Ascii.eqb_neq in Hne.
    destruct (Py.lines_keepends s) as [|l ls].
    + simpl. unfold unterminated, not_chr. simpl. rewrite Hne. reflexivity.
    + destruct ls as [|l2 ls].
      * simpl in IH |- *. unfold unterminated, not_chr in *. simpl.
        rewrite Hne. simpl. destruct (terminated l); [reflexivity|].
        simpl in *. apply andb_prop in IH as [_ IH]. exact IH.
      * change (terminated (String a l) && well_split (l2 :: ls) = true).
        change (terminated l && well_split (l2 :: ls) = true) in IH.
        rewrite terminated_cons, Hne. exact IH.
Qed.

(** A line with its line feed, followed by more text, is read as that line
    and then the lines of the text. *)
Lemma lines_keepends_terminated (l rest : string) :
  terminated l = true ->
  Py.lines_keepends (l +:+ rest) = l :: Py.lines_keepends rest.
Proof.
  induction l as [|a l IH]; [discriminate|].
  rewrite terminated_cons, str_app_cons, lines_keepends_cons.
  destruct (Ascii.eqb_spec a Py.LF) as [->|Hne].
  - destruct l; [|discriminate]. reflexivity.
  - intros H. rewrite (IH H). reflexivity.
Qed.

Lemma lines_keepends_unterminated (l : string) :
  unterminated l = true -> Py.lines_keepends l = [l].
Proof.
  unfold unterminated. destruct l as [|a l]; [discriminate|]. simpl Py.truthy.
  rewrite andb_true_l. revert a.
  induction l as [|b l IH]; intros a H; simpl in H; unfold not_chr in H.
  - rewrite andb_true_r in H. apply negb_true_iff in H.
    rewrite lines_keepends_cons, H. reflexivity.
  - apply andb_prop in H as [Ha H]. apply negb_true_iff in Ha.
    rewrite lines_keepends_cons, Ha, (IH b H). reflexivity.
Qed.

Lemma lines_keepends_concat (lines : list string) :
  well_split lines = true -> Py.lines_keepends (Py.concat lines) = lines.
Proof.
  induction lines as [|l rest IH]; [reflexivity|].
  destruct rest as [|l2 rest].
  - simpl well_split. intros H. apply orb_prop in H as [H|H].
    + change (Py.concat [l]) with l. rewrite <- (str_app_nil_r l) at 1.
      rewrite (lines_keepends_terminated _ _ H). reflexivity.
    + apply lines_keepends_unterminated. exact H.
  - intros H. change (terminated l && well_split (l2 :: rest) = true) in H.
    apply andb_prop in H as [Hl Hr].
    rewrite str_concat_cons, (lines_keepends_terminated _ _ Hl), (IH Hr). reflexivity.
Qed.

Lemma well_split_tail (l : string) (rest : list string) :
  well_split (l :: rest) = true -> well_split rest = true.
Proof.
  destruct rest as [|l2 rest]; [reflexivity|].
  intros H. change (terminated l && well_split (l2 :: rest) = true) in H.
  apply andb_prop in H as [_ H]. exact H.
Qed.

Lemma well_split_filter (P : string -> bool) (lines : list string) :
  well_split lines = true -> well_split (List.filter P lines) = true.
Proof.
  induction lines as [|l rest IH]; [reflexivity|].
  intros H. pose proof (IH (well_split_tail _ _ H)) as IH'.
  simpl. destruct (P l); [|exact IH'].
  destruct rest as [|l2 rest]; [exact H|].
  change (terminated l && well_split (l2 :: rest) = true) in H.
  apply andb_prop in H as [Hl _].
  destruct (List.filter P (l2 :: rest)) as [|k ks] eqn:E.
  - simpl. rewrite Hl. reflexivity.
  - change (terminated l && well_split (k :: ks) = true). rewrite Hl. exact IH'.
Qed.


Lemma all_chars_app (P : ascii -> bool) (s t : string) :
  all_chars P (s +:+ t) = all_chars P s && all_chars P t.
Proof.
  induction s as [|a s IH]; [reflexivity|].
  rewrite str_app_cons. simpl. rewrite IH, andb_assoc. reflexivity.
Qed.

Lemma all_chars_concat (P : ascii -> bool) (lines : list string) :
  all_chars P (Py.concat lines) = forallb (all_chars P) lines.
Proof.
  induction lines as [|l rest IH]; [reflexivity|].
  rewrite str_concat_cons, all_chars_app, IH. reflexivity.
Qed.

Lemma forallb_filter_other {A : Type} (Q P : A -> bool) (l : list A) :
  forallb Q l = true -> forallb Q (List.filter P l) = true.
Proof.
  induction l as [|x l IH]; [reflexivity|]. simpl.
  intros H. apply andb_prop in H as [Hx Hl].
  destruct (P x); simpl; [rewrite Hx|]; auto.
Qed.

(** Text read with universal newlines holds no carriage return. *)
Lemma universal_newlines_no_cr (after_cr : bool) (s : string) :
  all_chars (not_chr Py.CR) (Py.universal_newlines after_cr s) = true.
Proof.
  revert after_cr. induction s as [|a s IH]; intros after_cr; [reflexivity|].
  simpl. destruct (Ascii.eqb_spec a Py.CR) as [->|Hne].
  - simpl. apply IH.
  - destruct (Ascii.eqb a Py.LF && after_cr); [apply IH|].
    simpl. unfold not_chr at 1. apply Ascii.eqb_neq in Hne. rewrite Hne. apply IH.
Qed.

(** Text without carriage returns is read as it is. *)
Lemma universal_newlines_id (s : string) :
  all_chars (not_chr Py.CR) s = true -> Py.universal_newlines false s = s.
Proof.
  induction s as [|a s IH]; [reflexivity|]. simpl.
  intros H. apply andb_prop in H as [Ha Hs]. unfold not_chr in Ha.
  apply negb_true_iff in Ha. rewrite Ha, andb_false_r, (IH Hs). reflexivity.
Qed.

Lemma readlines_no_cr (file : string) :
  forallb (all_chars (not_chr Py.CR)) (Py.readlines file) = true.
Proof.
  unfold Py.readlines. rewrite <- all_chars_concat, concat_lines_keepends.
  apply universal_newlines_no_cr.
Qed.

(** Writing some of the lines read from a file and reading the result back
    gives those lines. *)
Lemma readlines_concat_filter (P : string -> bool) (file : string) :
  Py.readlines (Py.concat (List.filter P (Py.readlines file)))
    = List.filter P (Py.readlines file).
Proof.
  unfold Py.readlines at 1. rewrite universal_newlines_id.
  - apply lines_keepends_concat, well_split_filter, lines_keepends_well_split.
  - rewrite all_chars_concat. apply forallb_filter_other, readlines_no_cr.
Qed.

Lemma take_length_eqb (p s : string) :
  String.eqb (Py.take (String.length p) s) p = Py.startswith p s.
Proof.
  revert s. induction p as [|a p IH]; intros s.
  - destruct s; reflexivity.
  - destruct s as [|b s]; [reflexivity|]. simpl.
    rewrite IH, (Ascii.eqb_sym b a). reflexivity.
Qed.

Lemma take_min_length (n : nat) (s : string) :
  Py.take (Nat.min (String.length s) n) s = Py.take n s.
Proof.
  revert n. induction s as [|a s IH]; intros n.
  - destruct n; reflexivity.
  - destruct n as [|n]; [reflexivity|]. simpl. rewrite IH. reflexivity.
Qed.

(** [s[:n]] is the first [n] characters. *)
Lemma slice_prefix (n : nat) (s : string) :
  Py.slice None (Some (Z.of_nat n)) s = Py.take n s.
Proof.
  unfold Py.slice, Py.clamp.
  destruct (Z.ltb_spec (Z.of_nat n) 0) as [H|_]; [lia|].
  replace (Z.to_nat _) with (Nat.min (String.length s) n) by lia.
  rewrite Nat.sub_0_r, str_drop_0. apply take_min_length.
Qed.

Lemma kept_spec (line : string) :
  git_format_patch.kept line
    = negb (Py.startswith git_format_patch.change_id line).
Proof.
  unfold git_format_patch.kept. rewrite slice_prefix, take_length_eqb. reflexivity.
Qed.

Lemma filter_length_split {A : Type} (P : A -> bool) (l : list A) :
  length l = (length (List.filter (fun x => negb (P x)) l)
              + length (List.filter P l))%nat.
Proof.
  induction l as [|x l IH]; [reflexivity|]. simpl.
  destruct (P x); simpl; lia.
Qed.

(** Read back in text mode, the file that [remove_change_id] wrote has
    the lines that were read from the file it found, in their order,
    without those that begin with [Change-Id:]; the number of lines removed
    is the number of [Change-Id:] lines.  The lines are the ones text mode
    shows, where a carriage return reads as a line feed. *)
Lemma remove_change_id_removes_exactly_change_id_lines (content : string) :
  exists written,
    git_format_patch.remove_change_id (Some content) = Some written /\
    Py.readlines written
      = List.filter (fun line => negb (Py.startswith git_format_patch.change_id line))
          (Py.readlines content) /\
    length (Py.readlines content)
      = (length (Py.readlines written)
         + count_lines (Py.startswith git_format_patch.change_id)
             (Py.readlines content))%nat.
Proof.
  unfold git_format_patch.remove_change_id. eexists. split; [reflexivity|].
  rewrite fold_left_keep, str_app_nil_l.
  assert (E : List.filter git_format_patch.kept (Py.readlines content)
              = List.filter (fun line => negb (Py.startswith git_format_patch.change_id line))
                  (Py.readlines content)).
  { apply filter_ext. intros l. apply kept_spec. }
  rewrite E, readlines_concat_filter. split; [reflexivity|].
  apply filter_length_split.
Qed.
(** C5, the code at the failing input.  On a hosts file whose last line has
    no line feed, the first run ends that line and appends the entries; the
    second run inserts an empty line before them.  The two files differ. *)
Theorem get_ips_second_run_differs :
  get_ip.get_ips Sample.host_ip Sample.etc_hosts
    = "127.0.0.1 localhost" +:+ Py.nl +:+
      "192.168.0.7 rpi #gip added" +:+ Py.nl /\
  get_ip.get_ips Sample.host_ip (get_ip.get_ips Sample.host_ip Sample.etc_hosts)
    = "127.0.0.1 localhost" +:+ Py.nl +:+ Py.nl +:+
      "192.168.0.7 rpi #gip added" +:+ Py.nl /\
  get_ip.get_ips Sample.host_ip (get_ip.get_ips Sample.host_ip Sample.etc_hosts)
    <> get_ip.get_ips Sample.host_ip Sample.etc_hosts.
Proof.
  split; [reflexivity|]. split; [reflexivity|]. vm_compute. discriminate.
Qed.

(** The same happens on a hosts file that holds nothing but entries of an
    earlier run. *)
Lemma get_ips_second_run_differs_on_entries_only :
  get_ip.get_ips Sample.host_ip
    (get_ip.get_ips Sample.host_ip ("192.168.0.9 rpi #gip added" +:+ Py.nl))
  <> get_ip.get_ips Sample.host_ip ("192.168.0.9 rpi #gip added" +:+ Py.nl).
Proof. vm_compute. discriminate. Qed.

End LineFacts.

(** ** Numerals *)

Section NumeralFacts.

Lemma all_chars_impl (P Q : ascii -> bool) (s : string) :
  (forall a, P a = true -> Q a = true) ->
  all_chars P s = true -> all_chars Q s = true.
Proof.
  intros HPQ. induction s as [|a s IH]; [reflexivity|]. simpl.
  intros H. apply andb_prop in H as [Ha Hs]. rewrite (HPQ a Ha), (IH Hs). reflexivity.
Qed.

Lemma string_of_uint_digits (d : Decimal.uint) :
  all_chars is_digit (NilEmpty.string_of_uint d) = true.
Proof. induction d; simpl; auto. Qed.

Lemma dec_digits (n : N) : all_chars is_digit (Py.dec n) = true.
Proof. apply string_of_uint_digits. Qed.

Lemma dec_nonempty (n : N) : Py.truthy (Py.dec n) = true.
Proof.
  unfold Py.dec. destruct n as [|p]; [reflexivity|].
  simpl. pose proof (Unsigned.to_uint_nonnil p) as H.
  destruct (Pos.to_uint p); [congruence|reflexivity..].
Qed.

Lemma digits_dec (n : N) : Py.digits (Py.dec n) = Some (Z.of_N n).
Proof.
  pose proof (dec_nonempty n) as Hne. unfold Py.digits.
  destruct (Py.dec n) as [|a r] eqn:E; [discriminate|].
  rewrite <- E. unfold Py.dec. rewrite NilEmpty.usu, DecimalN.Unsigned.of_to.
  reflexivity.
Qed.

Lemma digit_not_space (a : ascii) : is_digit a = true -> Py.is_space a = false.
Proof.
  unfold is_digit, Py.is_space. intros H. apply andb_prop in H as [H1 H2].
  apply Nat.leb_le in H1, H2.
  destruct (Nat.leb_spec (nat_of_ascii a) 13), (Nat.leb_spec (nat_of_ascii a) 32);
    try lia; rewrite ?andb_false_r; reflexivity.
Qed.

Lemma digit_not_chr (c a : ascii) :
  is_digit c = false -> is_digit a = true -> not_chr c a = true.
Proof.
  intros Hc Ha. unfold not_chr. destruct (Ascii.eqb_spec a c) as [->|]; [congruence|reflexivity].
Qed.

Lemma lstrip_id (a : ascii) (s : string) :
  Py.is_space a = false -> Py.lstrip (String a s) = String a s.
Proof. intros H. simpl. rewrite H. reflexivity. Qed.

Lemma rstrip_id (s : string) :
  all_chars (fun a => negb (Py.is_space a)) s = true -> Py.rstrip s = s.
Proof.
  induction s as [|a s IH]; [reflexivity|]. simpl.
  intros H. apply andb_prop in H as [Ha Hs]. rewrite (IH Hs).
  apply negb_true_iff in Ha. rewrite Ha. destruct s; reflexivity.
Qed.

Lemma digits_not_space (s : string) :
  all_chars is_digit s = true ->
  all_chars (fun a => negb (Py.is_space a)) s = true.
Proof.
  apply all_chars_impl. intros a Ha. rewrite (digit_not_space a Ha). reflexivity.
Qed.

(** On a numeral without sign, [int] reads the digits. *)
Lemma int_unsigned (s : string) :
  Py.truthy s = true -> all_chars is_digit s = true ->
  Py.int s = match Py.digits s with
             | Some z => Returns z
             | None => Raises ValueError
             end.
Proof.
  intros Hne Hd. pose proof (digits_not_space s Hd) as Hs.
  destruct s as [|a r]; [discriminate|].
  unfold Py.int, Py.strip.
  simpl in Hd. apply andb_prop in Hd as [Ha _].
  rewrite lstrip_id by (apply digit_not_space; exact Ha).
  rewrite (rstrip_id _ Hs).
  destruct a as [[] [] [] [] [] [] [] []]; try reflexivity; discriminate Ha.
Qed.

Lemma int_dec (n : N) : Py.int (Py.dec n) = Returns (Z.of_N n).
Proof.
  rewrite int_unsigned by (apply dec_nonempty || apply dec_digits).
  rewrite digits_dec. reflexivity.
Qed.

End NumeralFacts.

(** ** Splitting text *)

Section SplitFacts.

Lemma split_chr_cons (c a : ascii) (s : string) :
  Py.split_chr c (String a s) =
    if Ascii.eqb a c then EmptyString :: Py.split_chr c s
    else match Py.split_chr c s with
         | w :: ws => String a w :: ws
         | [] => [String a EmptyString]
         end.
Proof. reflexivity. Qed.

Lemma split_chr_one (c : ascii) (t : string) :
  all_chars (not_chr c) t = true -> Py.split_chr c t = [t].
Proof.
  induction t as [|a t IH]; [reflexivity|]. simpl all_chars.
  intros H. apply andb_prop in H as [Ha Ht]. unfold not_chr in Ha.
  apply negb_true_iff in Ha. rewrite split_chr_cons, Ha, (IH Ht). reflexivity.
Qed.

Lemma split_chr_app (c : ascii) (t r : string) :
  all_chars (not_chr c) t = true ->
  Py.split_chr c (t +:+ String c r) = t :: Py.split_chr c r.
Proof.
  induction t as [|a t IH].
  - intros _. rewrite str_app_nil_l, split_chr_cons, Ascii.eqb_refl. reflexivity.
  - simpl all_chars. intros H. apply andb_prop in H as [Ha Ht]. unfold not_chr in Ha.
    apply negb_true_iff in Ha.
    rewrite str_app_cons, split_chr_cons, Ha, (IH Ht). reflexivity.
Qed.

(** Splitting the join of lines that hold no separator gives the lines. *)
Lemma split_chr_join (c : ascii) (l : string) (ls : list string) :
  forallb (all_chars (not_chr c)) (l :: ls) = true ->
  Py.split_chr c (Py.join (String c EmptyString) (l :: ls)) = l :: ls.
Proof.
  revert l. induction ls as [|l2 ls IH]; intros l H.
  - simpl in H. rewrite andb_true_r in H. apply split_chr_one. exact H.
  - change (forallb _ (l :: l2 :: ls))
      with (all_chars (not_chr c) l && forallb (all_chars (not_chr c)) (l2 :: ls)) in H.
    apply andb_prop in H as [Hl Hr].
    change (Py.join (String c EmptyString) (l :: l2 :: ls))
      with (l +:+ String c EmptyString +:+ Py.join (String c EmptyString) (l2 :: ls)).
    change (String c EmptyString +:+ ?x) with (String c x).
    rewrite (split_chr_app c l _ Hl), (IH l2 Hr). reflexivity.
Qed.

Lemma split_ws_cons (a : ascii) (s : string) :
  Py.split_ws (String a s) =
    if Py.is_space a then Py.split_ws s
    else match s with
         | EmptyString => [String a EmptyString]
         | String b _ =>
             if Py.is_space b then String a EmptyString :: Py.split_ws s
             else match Py.split_ws s with
                  | w :: ws => String a w :: ws
                  | [] => [String a EmptyString]
                  end
         end.
Proof. reflexivity. Qed.

Lemma split_ws_spaces (k : nat) (r : string) :
  Py.split_ws (Fdisk.spaces k +:+ r) = Py.split_ws r.
Proof.
  induction k as [|k IH]; [reflexivity|].
  simpl Fdisk.spaces. rewrite str_app_cons, split_ws_cons. exact IH.
Qed.

(** A word at the end of the text is the last word. *)
Lemma split_ws_word (t : string) : Fdisk.word t = true -> Py.split_ws t = [t].
Proof.
  unfold Fdisk.word. destruct t as [|a t]; [discriminate|]. simpl Py.truthy.
  rewrite andb_true_l. revert a.
  induction t as [|b t IH]; intros a H; simpl in H.
  - rewrite andb_true_r in H. apply negb_true_iff in H.
    rewrite split_ws_cons, H. reflexivity.
  - apply andb_prop in H as [Ha H]. apply negb_true_iff in Ha.
    pose proof H as H'. simpl in H'. apply andb_prop in H' as [Hb _].
    apply negb_true_iff in Hb.
    rewrite split_ws_cons, Ha, Hb, (IH b H). reflexivity.
Qed.

(** A word followed by a blank is the first word. *)
Lemma split_ws_word_space (t r : string) :
  Fdisk.word t = true ->
  Py.split_ws (t +:+ String Py.SP r) = t :: Py.split_ws r.
Proof.
  unfold Fdisk.word. destruct t as [|a t]; [discriminate|]. simpl Py.truthy.
  rewrite andb_true_l. revert a.
  induction t as [|b t IH]; intros a H; simpl in H.
  - rewrite andb_true_r in H. apply negb_true_iff in H.
    rewrite str_app_cons, str_app_nil_l, split_ws_cons, H.
    change (Py.is_space Py.SP) with true. cbv iota.
    rewrite split_ws_cons. reflexivity.
  - apply andb_prop in H as [Ha H]. apply negb_true_iff in Ha.
    pose proof H as H'. simpl in H'. apply andb_prop in H' as [Hb _].
    apply negb_true_iff in Hb.
    rewrite str_app_cons, split_ws_cons, Ha.
    rewrite str_app_cons, Hb, <- str_app_cons, (IH b H). reflexivity.
Qed.

Lemma word_no_blank (t : string) :
  Fdisk.word t = true -> all_chars (not_chr Py.SP) t = true.
Proof.
  unfold Fdisk.word. intros H. apply andb_prop in H as [_ H]. revert H.
  apply all_chars_impl. intros a Ha. unfold not_chr.
  destruct (Ascii.eqb_spec a Py.SP) as [->|]; [discriminate Ha|reflexivity].
Qed.

Lemma dec_word (n : N) : Fdisk.word (Py.dec n) = true.
Proof.
  unfold Fdisk.word. rewrite dec_nonempty. apply digits_not_space, dec_digits.
Qed.

(** The three columns of a partition row. *)
Lemma unpack_row_row (name : string) (gap1 gap2 : nat) (start sectors : N) :
  Fdisk.word name = true ->
  kdt.unpack_row (Fdisk.row name gap1 start gap2 sectors)
    = Returns (name, Py.dec start, Py.dec sectors).
Proof.
  intros Hn. unfold kdt.unpack_row, Fdisk.row.
  simpl Fdisk.spaces. rewrite !str_app_cons.
  rewrite (split_ws_word_space _ _ Hn), split_ws_spaces.
  rewrite (split_ws_word_space _ _ (dec_word start)), split_ws_spaces.
  rewrite (split_ws_word _ (dec_word sectors)).
  change (Py.join " " [name; Py.dec start; Py.dec sectors])
    with (name +:+ String Py.SP (Py.dec start +:+ String Py.SP (Py.dec sectors))).
  rewrite (split_chr_app _ _ _ (word_no_blank _ Hn)).
  rewrite (split_chr_app _ _ _ (word_no_blank _ (dec_word start))).
  rewrite (split_chr_one _ _ (word_no_blank _ (dec_word sectors))).
  reflexivity.
Qed.

End SplitFacts.

(** ** Searching text, and the lines of a listing *)

Section FindFacts.

Lemma find_cons (p : string) (a : ascii) (s : string) :
  Py.find p (String a s) =
    if Py.startswith p (String a s) then Some 0%nat
    else option_map S (Py.find p s).
Proof. reflexivity. Qed.

(** A search passes over text that does not hold the first character of
    what is searched. *)
Lemma find_skip (c : ascii) (p t s : string) :
  all_chars (not_chr c) t = true ->
  Py.find (String c p) (t +:+ s)
    = option_map (Nat.add (String.length t)) (Py.find (String c p) s).
Proof.
  induction t as [|a t IH].
  - intros _. rewrite str_app_nil_l. destruct (Py.find (String c p) s); reflexivity.
  - simpl all_chars. intros H. apply andb_prop in H as [Ha Ht]. unfold not_chr in Ha.
    apply negb_true_iff in Ha.
    rewrite str_app_cons, find_cons. simpl Py.startswith.
    rewrite Ascii.eqb_sym in Ha. rewrite Ha. simpl andb. cbv iota.
    rewrite (IH Ht). destruct (Py.find (String c p) s); reflexivity.
Qed.

Lemma find_here (p s : string) : Py.startswith p s = true -> Py.find p s = Some 0%nat.
Proof. intros H. destruct s; simpl; rewrite H; reflexivity. Qed.

Lemma startswith_app (p s : string) : Py.startswith p (p +:+ s) = true.
Proof.
  induction p as [|a p IH]; [reflexivity|].
  rewrite str_app_cons. simpl. rewrite Ascii.eqb_refl. exact IH.
Qed.

(** [s[i:j]] cuts out the middle part. *)
Lemma slice_middle (a d b : string) :
  Py.slice (Some (Z.of_nat (String.length a)))
           (Some (Z.of_nat (String.length a + String.length d)))
           (a +:+ d +:+ b) = d.
Proof.
  unfold Py.slice, Py.clamp. rewrite !str_length_app.
  destruct (Z.ltb_spec (Z.of_nat (String.length a)) 0) as [H|_]; [lia|].
  destruct (Z.ltb_spec (Z.of_nat (String.length a + String.length d)) 0) as [H|_]; [lia|].
  replace (Z.to_nat (Z.min _ (Z.max 0 (Z.of_nat (String.length a)))))
    with (String.length a) by lia.
  replace (Z.to_nat (Z.min _ (Z.max 0 (Z.of_nat (String.length a + String.length d)))))
    with (String.length a + String.length d)%nat by lia.
  rewrite str_drop_app_length.
  replace (String.length a + String.length d - String.length a)%nat
    with (String.length d) by lia.
  apply str_take_app_length.
Qed.

Lemma units_line_shape (u : N) :
  Fdisk.units_line u
    = (Fdisk.units_head +:+ Py.dec u +:+ " = ") +:+ Py.dec u +:+ " bytes".
Proof. unfold Fdisk.units_line. rewrite !str_app_assoc. reflexivity. Qed.

Lemma index_eq_units_line (u : N) :
  Py.index "= " (Fdisk.units_line u)
    = Returns (Z.of_nat (String.length (Fdisk.units_head +:+ Py.dec u) + 1)).
Proof.
  unfold Py.index, Fdisk.units_line.
  replace (Fdisk.units_head +:+ Py.dec u +:+ " = " +:+ Py.dec u +:+ " bytes")
    with ((Fdisk.units_head +:+ Py.dec u +:+ " ") +:+ "= " +:+ Py.dec u +:+ " bytes")
    by (rewrite !str_app_assoc; reflexivity).
  rewrite find_skip.
  - rewrite find_here by reflexivity. cbn [option_map].
    rewrite <- str_app_assoc, str_length_app. simpl (String.length " ").
    rewrite Nat.add_0_r. reflexivity.
  - rewrite !all_chars_app. rewrite andb_true_iff. split; [reflexivity|].
    rewrite andb_true_iff. split; [|reflexivity].
    generalize (dec_digits u). apply all_chars_impl.
    intros a Ha. apply digit_not_chr; [reflexivity|exact Ha].
Qed.


Lemma index_bytes_units_line (u : N) :
  Py.index "bytes" (Fdisk.units_line u)
    = Returns (Z.of_nat (String.length (Fdisk.units_head +:+ Py.dec u +:+ " = ")
                         + String.length (Py.dec u) + 1)).
Proof.
  unfold Py.index, Fdisk.units_line.
  replace (Fdisk.units_head +:+ Py.dec u +:+ " = " +:+ Py.dec u +:+ " bytes")
    with ((Fdisk.units_head +:+ Py.dec u +:+ " = " +:+ Py.dec u +:+ " ") +:+ "bytes")
    by (rewrite !str_app_assoc; reflexivity).
  assert (Hd : all_chars (not_chr "b") (Py.dec u) = true).
  { generalize (dec_digits u). apply all_chars_impl.
    intros a Ha. apply digit_not_chr; [reflexivity|exact Ha]. }
  rewrite find_skip.
  - rewrite find_here by reflexivity. cbn [option_map].
    rewrite Nat.add_0_r. f_equal. f_equal.
    rewrite !str_length_app. simpl (String.length " "). simpl (String.length " = ").
    lia.
  - rewrite !all_chars_app, Hd. reflexivity.
Qed.

(** The units line sets [unit] to the text of the unit size. *)
Lemma fdisk_line_units (img : string) (v : kdt.fdisk_vars) (u : N) :
  Py.contains (img +:+ "1") (Fdisk.units_line u) = false ->
  Py.contains (img +:+ "2") (Fdisk.units_line u) = false ->
  kdt.fdisk_line img v (Fdisk.units_line u)
    = Returns {| kdt.v_unit := kdt.PStr (Py.dec u);
                 kdt.v_name1 := kdt.v_name1 v; kdt.v_start1 := kdt.v_start1 v;
                 kdt.v_sectors1 := kdt.v_sectors1 v;
                 kdt.v_name2 := kdt.v_name2 v; kdt.v_start2 := kdt.v_start2 v;
                 kdt.v_sectors2 := kdt.v_sectors2 v |}.
Proof.
  intros H1 H2. unfold kdt.fdisk_line. rewrite H1, H2.
  assert (Hu : Py.contains "Units:" (Fdisk.units_line u) = true) by reflexivity.
  rewrite Hu, index_eq_units_line, index_bytes_units_line.
  cbn [mbind outcome_bind mret outcome_ret].
  replace (Z.of_nat (String.length (Fdisk.units_head +:+ Py.dec u) + 1) + 2)
    with (Z.of_nat (String.length (Fdisk.units_head +:+ Py.dec u +:+ " = ")))
    by (rewrite <- !str_app_assoc, !str_length_app; simpl (String.length " = "); lia).
  replace (Z.of_nat (String.length (Fdisk.units_head +:+ Py.dec u +:+ " = ")
                     + String.length (Py.dec u) + 1) - 1)
    with (Z.of_nat (String.length (Fdisk.units_head +:+ Py.dec u +:+ " = ")
                    + String.length (Py.dec u))) by lia.
  rewrite units_line_shape.
  pose proof (slice_middle (Fdisk.units_head +:+ Py.dec u +:+ " = ") (Py.dec u) " bytes") as Hs.
  rewrite Hs. reflexivity.
Qed.

(** A line that is neither the units line nor a row changes nothing. *)
Lemma fdisk_line_other (img : string) (v : kdt.fdisk_vars) (line : string) :
  Fdisk.other_line img line = true -> kdt.fdisk_line img v line = Returns v.
Proof.
  unfold Fdisk.other_line. rewrite !andb_true_iff, !negb_true_iff.
  intros [[[_ Hu] H1] H2]. unfold kdt.fdisk_line. rewrite Hu, H1, H2. reflexivity.
Qed.

Lemma fdisk_lines_other (img : string) (v : kdt.fdisk_vars) (lines : list string) :
  forallb (Fdisk.other_line img) lines = true ->
  kdt.fdisk_lines img v lines = Returns v.
Proof.
  induction lines as [|l lines IH]; [reflexivity|]. simpl forallb.
  intros H. apply andb_prop in H as [Hl Hr].
  simpl. rewrite (fdisk_line_other _ _ _ Hl). exact (IH Hr).
Qed.

Lemma fdisk_lines_app (img : string) (v : kdt.fdisk_vars) (l1 l2 : list string) :
  kdt.fdisk_lines img v (l1 ++ l2)
    = kdt.fdisk_lines img v l1 ≫= fun v' => kdt.fdisk_lines img v' l2.
Proof.
  revert v. induction l1 as [|l l1 IH]; intros v; [reflexivity|].
  simpl. destruct (kdt.fdisk_line img v l) as [v'| |]; simpl; [apply IH|reflexivity..].
Qed.

(** The row of the first partition, read after the units line. *)
Lemma fdisk_line_row1 (img : string) (v : kdt.fdisk_vars) (u : N)
    (name : string) (gap1 gap2 : nat) (start sectors : N) :
  kdt.v_unit v = kdt.PStr (Py.dec u) ->
  Fdisk.word name = true ->
  Fdisk.names_only img "1" "2" (Fdisk.row name gap1 start gap2 sectors) = true ->
  kdt.fdisk_line img v (Fdisk.row name gap1 start gap2 sectors)
    = Returns {| kdt.v_unit := kdt.v_unit v;
                 kdt.v_name1 := name;
                 kdt.v_start1 := Z.of_N start * Z.of_N u;
                 kdt.v_sectors1 := Z.of_N sectors * Z.of_N u;
                 kdt.v_name2 := kdt.v_name2 v; kdt.v_start2 := kdt.v_start2 v;
                 kdt.v_sectors2 := kdt.v_sectors2 v |}.
Proof.
  intros Hunit Hn. unfold Fdisk.names_only. rewrite !andb_true_iff, !negb_true_iff.
  intros [[H1 H2] Hu]. unfold kdt.fdisk_line.
  rewrite Hu, H1, H2. cbn [mbind outcome_bind mret outcome_ret].
  rewrite (unpack_row_row _ _ _ _ _ Hn). cbn [mbind outcome_bind mret outcome_ret].
  rewrite Hunit. cbn [kdt.int_of]. rewrite !int_dec.
  cbn [mbind outcome_bind mret outcome_ret]. reflexivity.
Qed.

Lemma fdisk_line_row2 (img : string) (v : kdt.fdisk_vars) (u : N)
    (name : string) (gap1 gap2 : nat) (start sectors : N) :
  kdt.v_unit v = kdt.PStr (Py.dec u) ->
  Fdisk.word name = true ->
  Fdisk.names_only img "2" "1" (Fdisk.row name gap1 start gap2 sectors) = true ->
  kdt.fdisk_line img v (Fdisk.row name gap1 start gap2 sectors)
    = Returns {| kdt.v_unit := kdt.v_unit v;
                 kdt.v_name1 := kdt.v_name1 v; kdt.v_start1 := kdt.v_start1 v;
                 kdt.v_sectors1 := kdt.v_sectors1 v;
                 kdt.v_name2 := name;
                 kdt.v_start2 := Z.of_N start * Z.of_N u;
                 kdt.v_sectors2 := Z.of_N sectors * Z.of_N u |}.
Proof.
  intros Hunit Hn. unfold Fdisk.names_only. rewrite !andb_true_iff, !negb_true_iff.
  intros [[H2 H1] Hu]. unfold kdt.fdisk_line.
  rewrite Hu, H1, H2. cbn [mbind outcome_bind mret outcome_ret].
  rewrite (unpack_row_row _ _ _ _ _ Hn). cbn [mbind outcome_bind mret outcome_ret].
  rewrite Hunit. cbn [kdt.int_of]. rewrite !int_dec.
  cbn [mbind outcome_bind mret outcome_ret]. destruct v; reflexivity.
Qed.

End FindFacts.

(** ** The partition parser *)

Section ParseFacts.

Context {W : Type}.
Variable spawn : list string -> W -> option (Z * string * string) * W.

Lemma print_command_default (self : kdt.BashCommands) (command : list string) :
  kdt.print_command self command (false, true) = (true, command).
Proof. unfold kdt.print_command. destruct (kdt.debug self); reflexivity. Qed.

Lemma split_chr_join_lines (c : ascii) (lines : list string) :
  lines <> [] ->
  forallb (all_chars (not_chr c)) lines = true ->
  Py.split_chr c (Py.join (String c EmptyString) lines) = lines.
Proof. destruct lines as [|l ls]; [congruence|]. intros _. apply split_chr_join. Qed.

Lemma other_line_single (img line : string) :
  Fdisk.other_line img line = true -> all_chars (not_chr Py.LF) line = true.
Proof.
  unfold Fdisk.other_line. rewrite !andb_true_iff. intros [[[H _] _] _]. exact H.
Qed.

Lemma word_single (t : string) :
  Fdisk.word t = true -> all_chars (not_chr Py.LF) t = true.
Proof.
  unfold Fdisk.word. intros H. apply andb_prop in H as [_ H]. revert H.
  apply all_chars_impl. intros a Ha. unfold not_chr.
  destruct (Ascii.eqb_spec a Py.LF) as [->|]; [discriminate Ha|reflexivity].
Qed.

Lemma spaces_single (k : nat) : all_chars (not_chr Py.LF) (Fdisk.spaces k) = true.
Proof. induction k as [|k IH]; [reflexivity|]. simpl. exact IH. Qed.

Lemma row_single (name : string) (gap1 gap2 : nat) (start sectors : N) :
  Fdisk.word name = true ->
  all_chars (not_chr Py.LF) (Fdisk.row name gap1 start gap2 sectors) = true.
Proof.
  intros Hn. unfold Fdisk.row.
  rewrite !all_chars_app, (word_single _ Hn), !spaces_single,
    !(word_single _ (dec_word _)). reflexivity.
Qed.

Lemma units_line_single (u : N) :
  all_chars (not_chr Py.LF) (Fdisk.units_line u) = true.
Proof.
  unfold Fdisk.units_line.
  rewrite !all_chars_app, !(word_single _ (dec_word _)). reflexivity.
Qed.

(** C6, as the code satisfies it.  When [fdisk] prints a listing of the
    disk [img] with a units line of unit size [u] and the rows of two
    partitions, the first named by a word that holds [img1] and the second
    by a word that holds [img2], [parse_fdisk] returns the two device names
    with the byte offsets [start * u] and the byte lengths [sectors * u].
    No other line of the listing holds [Units:], [img1] or [img2], and unit
    size, start and length of the first partition are positive: the parser
    takes a zero there for a listing it could not read. *)
Theorem parse_fdisk_two_partitions
    (self : kdt.BashCommands) (img err : string) (w w' : W)
    (before between after : list string) (u : N)
    (name1 name2 : string) (gap11 gap12 gap21 gap22 : nat)
    (start1 sectors1 start2 sectors2 : N) :
  spawn ["fdisk"; "-o"; "Device,Start,Sectors"; "-l"; img] w
    = (Some (0, Fdisk.listing before u between
                  (Fdisk.row name1 gap11 start1 gap12 sectors1)
                  (Fdisk.row name2 gap21 start2 gap22 sectors2) after +:+ Py.nl,
             err), w') ->
  Fdisk.well_formed img before u between
    name1 (Fdisk.row name1 gap11 start1 gap12 sectors1)
    name2 (Fdisk.row name2 gap21 start2 gap22 sectors2) after = true ->
  (0 < u)%N -> (0 < start1)%N -> (0 < sectors1)%N ->
  kdt.parse_fdisk img (kdt.bash_of spawn self) w
    = (Returns (name1, Z.of_N start1 * Z.of_N u, Z.of_N sectors1 * Z.of_N u,
                name2, Z.of_N start2 * Z.of_N u, Z.of_N sectors2 * Z.of_N u), w').
Proof.
  intros Hspawn Hwf Hu Hs1 Hc1.
  set (row1 := Fdisk.row name1 gap11 start1 gap12 sectors1) in *.
  set (row2 := Fdisk.row name2 gap21 start2 gap22 sectors2) in *.
  unfold Fdisk.well_formed in Hwf. rewrite !andb_true_iff, !negb_true_iff in Hwf.
  destruct Hwf as [[[[[[Hother Hu1] Hu2] Hn1] Hn2] Hr1] Hr2].
  rewrite !forallb_app, !andb_true_iff in Hother.
  destruct Hother as [Hbefore [Hbetween Hafter]].
  unfold kdt.parse_fdisk, kdt.bash_of, kdt.bash_kdt_run_str, kdt.kdt_run_str.
  unfold mbind at 1. unfold prog_bind.
  rewrite print_command_default. simpl negb. cbv iota.
  unfold kdt.run. rewrite Hspawn. simpl andb. cbv iota beta.
  unfold Py.nl. rewrite slice_but_last. simpl negb. cbv iota.
  unfold Fdisk.listing.
  rewrite split_chr_join_lines.
  2: { destruct before; discriminate. }
  2: { rewrite !forallb_app, !andb_true_iff. simpl forallb. rewrite !andb_true_iff.
       repeat split;
         try (apply units_line_single || apply row_single; assumption);
         match goal with
         | |- forallb _ ?l = true =>
             match goal with
             | H : forallb (Fdisk.other_line img) l = true |- _ =>
                 revert H; clear; induction l as [|x l IH]; simpl;
                 [reflexivity|]; rewrite !andb_true_iff; intros [Hx Hl];
                 split; [exact (other_line_single _ _ Hx)|exact (IH Hl)]
             end
         end. }
  assert (Hlines :
    kdt.fdisk_lines img kdt.fdisk_vars0
      (before ++ [Fdisk.units_line u] ++ between ++ [row1; row2] ++ after)
    = Returns {| kdt.v_unit := kdt.PStr (Py.dec u);
                 kdt.v_name1 := name1;
                 kdt.v_start1 := Z.of_N start1 * Z.of_N u;
                 kdt.v_sectors1 := Z.of_N sectors1 * Z.of_N u;
                 kdt.v_name2 := name2;
                 kdt.v_start2 := Z.of_N start2 * Z.of_N u;
                 kdt.v_sectors2 := Z.of_N sectors2 * Z.of_N u |}).
  { rewrite fdisk_lines_app, (fdisk_lines_other _ _ _ Hbefore).
    cbn [mbind outcome_bind]. change ([?x] ++ ?l) with (x :: l).
    cbn [kdt.fdisk_lines]. rewrite (fdisk_line_units _ _ _ Hu1 Hu2).
    cbn [mbind outcome_bind].
    rewrite fdisk_lines_app, (fdisk_lines_other _ _ _ Hbetween).
    cbn [mbind outcome_bind]. change ([row1; row2] ++ after) with (row1 :: row2 :: after).
    cbn [kdt.fdisk_lines].
    subst row1 row2.
    rewrite fdisk_line_row1 with (u := u) by (reflexivity || assumption).
    cbn [mbind outcome_bind].
    rewrite fdisk_line_row2 with (u := u) by (reflexivity || assumption).
    cbn [mbind outcome_bind].
    rewrite (fdisk_lines_other _ _ _ Hafter). reflexivity. }
  rewrite Hlines. change (negb (0 =? 0)) with false. cbv iota.
  unfold lift, mbind, prog_bind.
  cbn [kdt.v_unit kdt.v_start1 kdt.v_sectors1 kdt.v_name1 kdt.v_name2 kdt.v_start2
       kdt.v_sectors2 kdt.eq_zero orb].
  destruct (Z.eqb_spec (Z.of_N start1 * Z.of_N u) 0) as [E|_]; [nia|].
  destruct (Z.eqb_spec (Z.of_N sectors1 * Z.of_N u) 0) as [E|_]; [nia|].
  reflexivity.
Qed.

End ParseFacts.

(** C6 as the specification states it fails.  The listing of
    [/dev/nvme0n1] has a units line with unit size 512 and the rows of two
    partitions, which the kernel names [/dev/nvme0n1p1] and
    [/dev/nvme0n1p2].  The parser looks for [/dev/nvme0n11] and
    [/dev/nvme0n12] in the lines, passes over both rows and ends the
    program with the parse error, where the specification has it return
    [2048 * 512] and [1050624 * 512] with the lengths and the names. *)
Lemma parse_fdisk_partitions_named_with_p_exit :
  Sim.nvme_listing
    = Py.join Py.nl
        (Sim.nvme_before ++ [Fdisk.units_line 512] ++ Sim.nvme_between
         ++ ["/dev/nvme0n1p1     2048     1048576";
             "/dev/nvme0n1p2  1050624  999162511"]) /\
  kdt.parse_fdisk "/dev/nvme0n1"
      (kdt.bash_of (Sim.spawn (Sim.nvme_listing +:+ Py.nl) []) Sim.production) Sim.boot
    = (Exits ("Error! Fail to parse fdisk output from image " +:+ "/dev/nvme0n1"),
       Sim.fdisk_ran "/dev/nvme0n1") /\
  kdt.parse_fdisk "/dev/nvme0n1"
      (kdt.bash_of (Sim.spawn (Sim.nvme_listing +:+ Py.nl) []) Sim.production) Sim.boot
    <> (Returns ("/dev/nvme0n1p1", 2048 * 512, 1048576 * 512,
                 "/dev/nvme0n1p2", 1050624 * 512, 999162511 * 512),
        Sim.fdisk_ran "/dev/nvme0n1").
Proof.
  assert (H : kdt.parse_fdisk "/dev/nvme0n1"
                (kdt.bash_of (Sim.spawn (Sim.nvme_listing +:+ Py.nl) []) Sim.production)
                Sim.boot
              = (Exits ("Error! Fail to parse fdisk output from image " +:+ "/dev/nvme0n1"),
                 Sim.fdisk_ran "/dev/nvme0n1"))
    by (vm_compute; reflexivity).
  split; [vm_compute; reflexivity|]. split; [exact H|].
  rewrite H. discriminate.
Qed.

Lemma parse_fdisk_two_partitions_witness :
  Sim.spawn (Sim.sda_listing +:+ Py.nl) []
      ["fdisk"; "-o"; "Device,Start,Sectors"; "-l"; "/dev/sda"] Sim.boot
    = (Some (0, Fdisk.listing Sim.sda_before 512 Sim.sda_between
                  (Fdisk.row "/dev/sda1" 2 8192 2 524288)
                  (Fdisk.row "/dev/sda2" 0 532480 0 61801472) [] +:+ Py.nl,
             EmptyString), Sim.after_fdisk) /\
  Fdisk.well_formed "/dev/sda" Sim.sda_before 512 Sim.sda_between
    "/dev/sda1" (Fdisk.row "/dev/sda1" 2 8192 2 524288)
    "/dev/sda2" (Fdisk.row "/dev/sda2" 0 532480 0 61801472) [] = true /\
  (0 < 512)%N /\ (0 < 8192)%N /\ (0 < 524288)%N /\
  kdt.parse_fdisk "/dev/sda"
      (kdt.bash_of (Sim.spawn (Sim.sda_listing +:+ Py.nl) []) Sim.production) Sim.boot
    = (Returns ("/dev/sda1", 8192 * 512, 524288 * 512,
                "/dev/sda2", 532480 * 512, 61801472 * 512), Sim.after_fdisk).
Proof.
  assert (Hspawn :
    Sim.spawn (Sim.sda_listing +:+ Py.nl) []
        ["fdisk"; "-o"; "Device,Start,Sectors"; "-l"; "/dev/sda"] Sim.boot
      = (Some (0, Fdisk.listing Sim.sda_before 512 Sim.sda_between
                    (Fdisk.row "/dev/sda1" 2 8192 2 524288)
                    (Fdisk.row "/dev/sda2" 0 532480 0 61801472) [] +:+ Py.nl,
               EmptyString), Sim.after_fdisk)) by reflexivity.
  assert (Hwf :
    Fdisk.well_formed "/dev/sda" Sim.sda_before 512 Sim.sda_between
      "/dev/sda1" (Fdisk.row "/dev/sda1" 2 8192 2 524288)
      "/dev/sda2" (Fdisk.row "/dev/sda2" 0 532480 0 61801472) [] = true)
    by (vm_compute; reflexivity).
  split; [exact Hspawn|]. split; [exact Hwf|].
  split; [reflexivity|]. split; [reflexivity|]. split; [reflexivity|].
  exact (parse_fdisk_two_partitions (Sim.spawn (Sim.sda_listing +:+ Py.nl) [])
           Sim.production "/dev/sda" EmptyString Sim.boot Sim.after_fdisk
           Sim.sda_before Sim.sda_between [] 512 "/dev/sda1" "/dev/sda2" 2 2 0 0
           8192 524288 532480 61801472 Hspawn Hwf eq_refl eq_refl eq_refl).
Defined.

(** ** The hosts file *)

Section HostsFacts.

Import get_ip.

Lemma read_etc_hosts_filter (file : string) :
  read_etc_hosts file = Py.concat (List.filter unmarked (Py.readlines file)).
Proof. unfold read_etc_hosts. rewrite fold_left_keep. reflexivity. Qed.

Lemma fold_left_host_lines (host_ip : list (string * string)) (acc : string) :
  fold_left
    (fun etc_hosts '(hostname, host_ip_addr) =>
       etc_hosts +:+ (host_ip_addr +:+ " " +:+ hostname +:+ " #gip added" +:+ Py.nl))
    host_ip acc
  = acc +:+ Py.concat (host_lines host_ip).
Proof.
  revert acc. induction host_ip as [|[h ip] rest IH]; intros acc.
  - simpl. symmetry. apply str_app_nil_r.
  - simpl fold_left. rewrite IH. unfold host_lines. simpl map.
    rewrite str_concat_cons, str_app_assoc. reflexivity.
Qed.

(** What a run writes: the file without marker lines, a line feed unless it
    ends in an empty line, and one line per device. *)
Lemma get_ips_shape (host_ip : list (string * string)) (file : string) :
  get_ips host_ip file
  = separated (read_etc_hosts file) +:+ Py.concat (host_lines host_ip).
Proof.
  unfold get_ips. rewrite fold_left_host_lines.
  unfold separated, ends_with_empty_line.
  destruct (String.eqb _ _); reflexivity.
Qed.

Lemma startswith_app_nl (p t : string) :
  all_chars (not_chr Py.LF) p = true ->
  Py.startswith p (t +:+ Py.nl) = Py.startswith p t.
Proof.
  revert t. induction p as [|c p IH]; intros t Hp; [destruct t; reflexivity|].
  simpl in Hp. apply andb_prop in Hp as [Hc Hp]. unfold not_chr in Hc.
  apply negb_true_iff in Hc.
  destruct t as [|b t].
  - simpl. rewrite Hc. reflexivity.
  - rewrite str_app_cons. simpl. rewrite (IH t Hp). reflexivity.
Qed.

(** A line feed added at the end brings in no occurrence of a text that has
    none. *)
Lemma contains_app_nl (p t : string) :
  all_chars (not_chr Py.LF) p = true ->
  Py.truthy p = true ->
  Py.contains p (t +:+ Py.nl) = Py.contains p t.
Proof.
  intros Hp Hne. induction t as [|b t IH].
  - rewrite str_app_nil_l. destruct p as [|c p]; [discriminate|].
    simpl in Hp. apply andb_prop in Hp as [Hc _]. unfold not_chr in Hc.
    apply negb_true_iff in Hc. simpl. rewrite Hc. reflexivity.
  - rewrite str_app_cons.
    change (Py.contains p (String b (t +:+ Py.nl)))
      with (Py.startswith p (String b (t +:+ Py.nl)) || Py.contains p (t +:+ Py.nl)).
    change (Py.contains p (String b t))
      with (Py.startswith p (String b t) || Py.contains p t).
    rewrite IH, <- str_app_cons, (startswith_app_nl _ _ Hp). reflexivity.
Qed.

Lemma contains_app_r (p s t : string) :
  Py.contains p t = true -> Py.contains p (s +:+ t) = true.
Proof.
  intros H. induction s as [|a s IH]; [exact H|].
  rewrite str_app_cons.
  change (Py.startswith p (String a (s +:+ t)) || Py.contains p (s +:+ t) = true).
  rewrite IH. apply orb_true_r.
Qed.

Lemma terminated_app (s t : string) :
  all_chars (not_chr Py.LF) s = true -> terminated (s +:+ t) = terminated t.
Proof.
  induction s as [|a s IH]; [reflexivity|]. simpl all_chars.
  intros H. apply andb_prop in H as [Ha Hs]. unfold not_chr in Ha.
  apply negb_true_iff in Ha. rewrite str_app_cons, terminated_cons, Ha. exact (IH Hs).
Qed.

Lemma unterminated_app_nl (u : string) :
  unterminated u = true -> terminated (u +:+ Py.nl) = true.
Proof.
  unfold unterminated. intros H. apply andb_prop in H as [_ H].
  rewrite (terminated_app _ _ H). reflexivity.
Qed.

Lemma host_line_terminated (h ip : string) :
  one_line h = true -> one_line ip = true -> terminated (host_line h ip) = true.
Proof.
  unfold one_line. rewrite !andb_true_iff. intros [Hh _] [Hip _].
  unfold host_line. rewrite (terminated_app _ _ Hip).
  change (" " +:+ h +:+ " #gip added" +:+ Py.nl)
    with (String Py.SP (h +:+ " #gip added" +:+ Py.nl)).
  rewrite terminated_cons. change (Ascii.eqb Py.SP Py.LF) with false. cbv iota.
  rewrite (terminated_app _ _ Hh). reflexivity.
Qed.

Lemma host_line_marked (h ip : string) : unmarked (host_line h ip) = false.
Proof.
  unfold unmarked, host_line. rewrite contains_app_r; [reflexivity|].
  change (" " +:+ h +:+ " #gip added" +:+ Py.nl)
    with (String Py.SP h +:+ " #gip added" +:+ Py.nl).
  apply contains_app_r. reflexivity.
Qed.

Lemma host_line_no_cr (h ip : string) :
  one_line h = true -> one_line ip = true ->
  all_chars (not_chr Py.CR) (host_line h ip) = true.
Proof.
  unfold one_line. rewrite !andb_true_iff. intros [_ Hh] [_ Hip].
  unfold host_line. rewrite !all_chars_app, Hh, Hip. reflexivity.
Qed.

Lemma host_lines_terminated (host_ip : list (string * string)) :
  plain_table host_ip = true -> forallb terminated (host_lines host_ip) = true.
Proof.
  unfold plain_table, host_lines.
  induction host_ip as [|[h ip] rest IH]; [reflexivity|]. simpl.
  rewrite !andb_true_iff. intros [[Hh Hip] Hrest].
  split; [apply host_line_terminated; assumption|exact (IH Hrest)].
Qed.

Lemma host_lines_no_cr (host_ip : list (string * string)) :
  plain_table host_ip = true ->
  forallb (all_chars (not_chr Py.CR)) (host_lines host_ip) = true.
Proof.
  unfold plain_table, host_lines.
  induction host_ip as [|[h ip] rest IH]; [reflexivity|]. simpl.
  rewrite !andb_true_iff. intros [[Hh Hip] Hrest].
  split; [apply host_line_no_cr; assumption|exact (IH Hrest)].
Qed.

Lemma host_lines_marked (host_ip : list (string * string)) :
  List.filter unmarked (host_lines host_ip) = [].
Proof.
  unfold host_lines.
  induction host_ip as [|[h ip] rest IH]; [reflexivity|]. simpl.
  rewrite host_line_marked. exact IH.
Qed.


Lemma take_ge (n : nat) (s : string) :
  (String.length s <= n)%nat -> Py.take n s = s.
Proof.
  revert n. induction s as [|a s IH]; intros n H; [destruct n; reflexivity|].
  destruct n as [|n]; simpl in H; [lia|]. simpl. rewrite IH by lia. reflexivity.
Qed.

Lemma length_drop (n : nat) (s : string) :
  String.length (Py.drop n s) = (String.length s - n)%nat.
Proof.
  revert n. induction s as [|a s IH]; intros n; [destruct n; reflexivity|].
  destruct n as [|n]; [reflexivity|]. simpl. apply IH.
Qed.

(** [s[-2:]] is what is left after all but the last two characters. *)
Lemma slice_last_two (s : string) :
  Py.slice (Some (-2)) None s = Py.drop (String.length s - 2) s.
Proof.
  unfold Py.slice, Py.clamp. change (-2 <? 0) with true. cbv iota.
  replace (Z.to_nat _) with (String.length s - 2)%nat by lia.
  apply take_ge. rewrite length_drop. lia.
Qed.

Lemma ends_with_empty_line_last (r : string) (c : ascii) :
  ends_with_empty_line (r +:+ String c EmptyString) = true -> c = Py.LF.
Proof.
  unfold ends_with_empty_line. rewrite slice_last_two.
  destruct r as [|a r].
  - rewrite str_app_nil_l. simpl. destruct (Ascii.eqb c Py.LF); discriminate.
  - destruct (str_last_char a r) as (r' & d & ->).
    rewrite str_app_assoc, str_length_app. simpl (String.length _).
    replace (String.length r' + 2 - 2)%nat with (String.length r') by lia.
    rewrite str_drop_app_length. simpl.
    destruct (Ascii.eqb_spec c Py.LF) as [->|_]; [reflexivity|].
    destruct (Ascii.eqb d Py.LF); discriminate.
Qed.

Lemma ends_with_empty_line_two (b : string) :
  ends_with_empty_line (b +:+ Py.nl +:+ Py.nl) = true.
Proof.
  unfold ends_with_empty_line. rewrite slice_last_two, str_length_app.
  simpl (String.length _).
  replace (String.length b + 2 - 2)%nat with (String.length b) by lia.
  rewrite str_drop_app_length. reflexivity.
Qed.

(** Text that ends in an empty line ends in a line feed. *)
Lemma ends_with_empty_line_nl (s : string) :
  ends_with_empty_line s = true -> exists b, s = b +:+ Py.nl.
Proof.
  destruct s as [|a s]; [discriminate|].
  destruct (str_last_char a s) as (r & c & E). rewrite E.
  intros H. apply ends_with_empty_line_last in H. subst c. exists r. reflexivity.
Qed.

(** The separator is added once: after it the text ends in a line feed, and
    text that ends in a line feed ends in an empty line after it. *)
Lemma separated_nl (s : string) : exists b, separated s = b +:+ Py.nl.
Proof.
  unfold separated. destruct (ends_with_empty_line s) eqn:E.
  - apply ends_with_empty_line_nl. exact E.
  - exists s. reflexivity.
Qed.

Lemma separated_twice (b : string) :
  separated (separated (b +:+ Py.nl)) = separated (b +:+ Py.nl).
Proof.
  unfold separated. destruct (ends_with_empty_line (b +:+ Py.nl)) eqn:E.
  - rewrite E. reflexivity.
  - rewrite !str_app_assoc, ends_with_empty_line_two. reflexivity.
Qed.

Lemma all_terminated_well_split (lines : list string) :
  forallb terminated lines = true -> well_split lines = true.
Proof.
  induction lines as [|l rest IH]; [reflexivity|]. simpl forallb.
  intros H. apply andb_prop in H as [Hl Hr].
  destruct rest as [|l2 rest].
  - simpl. rewrite Hl. reflexivity.
  - change (terminated l && well_split (l2 :: rest) = true).
    rewrite Hl, (IH Hr). reflexivity.
Qed.

(** Lines as read: all with their line feed, or all but a last one that
    lacks it. *)
Lemma well_split_cases (lines : list string) :
  well_split lines = true ->
  forallb terminated lines = true \/
  exists init u, lines = init ++ [u] /\ forallb terminated init = true /\
                 unterminated u = true.
Proof.
  induction lines as [|l rest IH]; [left; reflexivity|].
  destruct rest as [|l2 rest].
  - simpl. intros H. apply orb_prop in H as [H|H].
    + left. rewrite H. reflexivity.
    + right. exists [], l. repeat split. exact H.
  - intros H. change (terminated l && well_split (l2 :: rest) = true) in H.
    apply andb_prop in H as [Hl Hr]. destruct (IH Hr) as [Hall|(init & u & E & Hi & Hu)].
    + left. simpl forallb in *. rewrite Hl. exact Hall.
    + right. exists (l :: init), u. rewrite E. repeat split; [|exact Hu].
      simpl. rewrite Hl. exact Hi.
Qed.

(** Lines that all have their line feed, none of them marked, followed by
    the lines of a device table: reading the text back and dropping the
    marked lines gives the first lines again. *)
Lemma read_etc_hosts_after_run (lines : list string) (host_ip : list (string * string)) :
  plain_table host_ip = true ->
  forallb terminated lines = true ->
  forallb unmarked lines = true ->
  forallb (all_chars (not_chr Py.CR)) lines = true ->
  read_etc_hosts (Py.concat lines +:+ Py.concat (host_lines host_ip))
    = Py.concat lines.
Proof.
  intros Hplain Hterm Hkeep Hcr.
  rewrite read_etc_hosts_filter, <- str_concat_app. unfold Py.readlines.
  rewrite universal_newlines_id.
  - rewrite lines_keepends_concat.
    + rewrite List.filter_app, (List.forallb_filter_id _ _ Hkeep), host_lines_marked, app_nil_r.
      reflexivity.
    + apply all_terminated_well_split. rewrite forallb_app, Hterm.
      apply host_lines_terminated. exact Hplain.
  - rewrite all_chars_concat, forallb_app, Hcr.
    apply host_lines_no_cr. exact Hplain.
Qed.


Lemma unmarked_nl : unmarked Py.nl = true.
Proof. reflexivity. Qed.

Lemma unmarked_app_nl (u : string) : unmarked (u +:+ Py.nl) = unmarked u.
Proof. unfold unmarked. rewrite contains_app_nl by reflexivity. reflexivity. Qed.

Lemma unterminated_not_empty_line (s u : string) :
  unterminated u = true -> ends_with_empty_line (s +:+ u) = false.
Proof.
  unfold unterminated. intros H. apply andb_prop in H as [Hne Hu].
  destruct u as [|a u]; [discriminate|].
  destruct (str_last_char a u) as (r & c & E). rewrite E in *.
  rewrite all_chars_app in Hu. apply andb_prop in Hu as [_ Hc].
  simpl in Hc. rewrite andb_true_r in Hc. unfold not_chr in Hc.
  apply negb_true_iff in Hc.
  destruct (ends_with_empty_line (s +:+ r +:+ String c EmptyString)) eqn:Ee;
    [|reflexivity].
  rewrite <- str_app_assoc in Ee. apply ends_with_empty_line_last in Ee.
  subst c. discriminate Hc.
Qed.

(** After a run, the file without its marker lines is the earlier file
    without its marker lines, with the separator. *)
Lemma read_etc_hosts_of_run (host_ip : list (string * string)) (file : string) :
  plain_table host_ip = true ->
  read_etc_hosts (get_ips host_ip file) = separated (read_etc_hosts file).
Proof.
  intros Hplain. rewrite get_ips_shape, (read_etc_hosts_filter file).
  set (kept_lines := List.filter unmarked (Py.readlines file)).
  assert (Hkeep : forallb unmarked kept_lines = true)
    by (subst kept_lines; apply List.forallb_filter).
  assert (Hcr : forallb (all_chars (not_chr Py.CR)) kept_lines = true)
    by (subst kept_lines; apply (forallb_filter_other (all_chars (not_chr Py.CR)) unmarked),
          readlines_no_cr).
  assert (Hws : well_split kept_lines = true)
    by (subst kept_lines; apply well_split_filter, lines_keepends_well_split).
  destruct (well_split_cases _ Hws) as [Hterm|(init & u & E & Hinit & Hu)].
  - unfold separated. destruct (ends_with_empty_line (Py.concat kept_lines)).
    + apply read_etc_hosts_after_run; assumption.
    + change (Py.concat kept_lines +:+ Py.nl)
        with (Py.concat kept_lines +:+ Py.concat [Py.nl]).
      rewrite <- str_concat_app.
      apply read_etc_hosts_after_run; [assumption|..];
        rewrite forallb_app; simpl forallb; rewrite ?Hterm, ?Hkeep, ?Hcr; reflexivity.
  - rewrite E in *. rewrite forallb_app in Hkeep, Hcr. simpl forallb in Hkeep, Hcr.
    rewrite !andb_true_r in Hkeep, Hcr.
    apply andb_prop in Hkeep as [Hk1 Hk2]. apply andb_prop in Hcr as [Hc1 Hc2].
    unfold separated. rewrite str_concat_app.
    change (Py.concat [u]) with u.
    rewrite (unterminated_not_empty_line _ _ Hu).
    replace ((Py.concat init +:+ u) +:+ Py.nl)
      with (Py.concat (init ++ [u +:+ Py.nl]))
      by (rewrite str_concat_app, str_app_assoc; reflexivity).
    apply read_etc_hosts_after_run; [assumption|..];
      rewrite forallb_app; simpl forallb; rewrite ?andb_true_r.
    + rewrite Hinit. apply unterminated_app_nl. exact Hu.
    + rewrite Hk1, unmarked_app_nl. exact Hk2.
    + rewrite Hc1, all_chars_app, Hc2. reflexivity.
Qed.

(** Where the idempotence of C5 holds: when the hosts file without its marker
    lines ends in a line feed, a second run writes what the first wrote. *)
Lemma get_ips_idempotent_after_line_feed
    (host_ip : list (string * string)) (file body : string) :
  plain_table host_ip = true ->
  read_etc_hosts file = body +:+ Py.nl ->
  get_ips host_ip (get_ips host_ip file) = get_ips host_ip file.
Proof.
  intros Hplain E.
  rewrite (get_ips_shape host_ip (get_ips host_ip file)).
  rewrite (read_etc_hosts_of_run _ _ Hplain), get_ips_shape, E, separated_twice.
  reflexivity.
Qed.

(** From the second run on nothing changes any more. *)
Lemma get_ips_stable_after_first_run
    (host_ip : list (string * string)) (file : string) :
  plain_table host_ip = true ->
  get_ips host_ip (get_ips host_ip (get_ips host_ip file))
    = get_ips host_ip (get_ips host_ip file).
Proof.
  intros Hplain.
  destruct (separated_nl (read_etc_hosts file)) as [b Hb].
  apply (get_ips_idempotent_after_line_feed host_ip (get_ips host_ip file) b Hplain).
  rewrite (read_etc_hosts_of_run _ _ Hplain). exact Hb.
Qed.

Lemma get_ips_idempotent_after_line_feed_example :
  get_ips Sample.host_ip
    (get_ips Sample.host_ip ("127.0.0.1 localhost" +:+ Py.nl))
  = get_ips Sample.host_ip ("127.0.0.1 localhost" +:+ Py.nl).
Proof.
  apply (get_ips_idempotent_after_line_feed _ _ "127.0.0.1 localhost");
    reflexivity.
Qed.

End HostsFacts.

(** ** More on the command runner and on mounting *)

Section MoreRunnerFacts.

Context {W : Type}.
Variable spawn : list string -> W -> option (Z * string * string) * W.
Variable isfile : string -> W -> bool.

Lemma prog_bind_Returns {A B : Type} (m : prog W A) (k : A -> prog W B)
    (w w' : W) (b : B) :
  (m ≫= k) w = (Returns b, w') ->
  exists a w1, m w = (Returns a, w1) /\ k a w1 = (Returns b, w').
Proof.
  unfold mbind, prog_bind. destruct (m w) as [[a| |] w1]; [eauto|discriminate..].
Qed.

(** With [check=True], [kdt_run_str] returns only with [True] as its first
    result: a command that fails ends the program instead. *)
Theorem kdt_run_str_checked_is_valid
    (self : kdt.BashCommands) (command : list string)
    (debug_type : bool * bool) (sudo : bool) (w w' : W)
    (valid : bool) (out err : string) :
  kdt.kdt_run_str spawn self command debug_type sudo true w
    = (Returns (valid, out, err), w') ->
  valid = true.
Proof.
  unfold kdt.kdt_run_str, kdt.run. destruct (kdt.print_command _ _ _) as [go cmd].
  destruct go; simpl; [|congruence].
  destruct (spawn cmd w) as [[[[rc o] e]|] w1]; [|discriminate].
  simpl. destruct (Z.eqb_spec rc 0) as [->|Hne]; simpl; [congruence|discriminate].
Qed.

(** In debug mode a command reached through [__getattr__] ([mount],
    [umount], [ssh], [scp], the rsyncs) is not launched: the call returns
    [True] and the world is as before. *)
Theorem debug_mode_launches_nothing
    (self : kdt.BashCommands) (current arguments : list string) (sudo : bool) (w : W) :
  kdt.debug self = true ->
  kdt.run_current_command_check spawn self current arguments sudo w = (Returns true, w).
Proof.
  intros Hd. unfold kdt.run_current_command_check, kdt.print_command.
  rewrite Hd. reflexivity.
Qed.

Lemma mount_both_root_true (self : kdt.BashCommands) (mount_point root_src : string)
    (root_args boot_args : list string) (boot_src : option string)
    (w w' : W) (root boot : bool) :
  kdt.mount_both (kdt.bash_of spawn self) mount_point root_args boot_args
    root_src boot_src w = (Returns (root, boot), w') ->
  root = true.
Proof.
  unfold kdt.mount_both. intros H.
  apply prog_bind_Returns in H as (r & w1 & Hr & H).
  assert (r = true) as ->.
  { unfold kdt.bash_of, kdt.bash_mount in Hr. apply (f_equal fst) in Hr.
    cbn [fst] in Hr. exact (run_current_command_check_true _ _ _ _ _ _ _ Hr). }
  destruct boot_src as [b|].
  - apply prog_bind_Returns in H as (r2 & w2 & Hr2 & H).
    assert (r2 = true) as ->.
    { unfold kdt.bash_of, kdt.bash_mount in Hr2. apply (f_equal fst) in Hr2.
      cbn [fst] in Hr2. exact (run_current_command_check_true _ _ _ _ _ _ _ Hr2). }
    simpl in H. injection H as <- _ _. reflexivity.
  - injection H as <- _ _. reflexivity.
Qed.

(** [parse_fdisk] launches [fdisk] and nothing else: when it returns, the
    world is the one that launch left. *)
Lemma parse_fdisk_world (self : kdt.BashCommands) (img : string) (w w' : W)
    (parts : kdt.partitions) :
  kdt.parse_fdisk img (kdt.bash_of spawn self) w = (Returns parts, w') ->
  w' = snd (spawn ["fdisk"; "-o"; "Device,Start,Sectors"; "-l"; img] w).
Proof.
  unfold kdt.parse_fdisk. intros H.
  apply prog_bind_Returns in H as ([[valid fdisk] err] & w1 & Hrun & H).
  assert (Hw : w1 = snd (spawn ["fdisk"; "-o"; "Device,Start,Sectors"; "-l"; img] w)).
  { unfold kdt.bash_of, kdt.bash_kdt_run_str, kdt.kdt_run_str, kdt.print_command,
      kdt.run in Hrun.
    destruct (kdt.debug self); cbn [negb andb] in Hrun;
      destruct (spawn ["fdisk"; "-o"; "Device,Start,Sectors"; "-l"; img] w)
        as [[[[rc o] e]|] w2]; cbn [snd];
      try discriminate Hrun;
      destruct (negb (rc =? 0)); cbn [andb] in Hrun; congruence. }
  destruct (negb valid).
  - injection H as _ <-. exact Hw.
  - apply prog_bind_Returns in H as (v & w2 & Hv & H).
    unfold lift in Hv. injection Hv as _ <-.
    destruct (_ || _ || _); [discriminate H|]. injection H as _ <-. exact Hw.
Qed.

(** With the real [BashCommands], [disk_mount] reports the root as not
    mounted only for a path that is neither under [/dev/] nor a regular
    file, and then no mount was attempted: the world is the one the launch
    of [fdisk] left. *)
Theorem disk_mount_root_false_only_for_no_disk
    (self : kdt.BashCommands) (disk mount_point : string) (w w' : W) (boot : bool) :
  kdt.disk_mount isfile disk mount_point (kdt.bash_of spawn self) w
    = (Returns (false, boot), w') ->
  boot = false /\ Py.contains "/dev/" disk = false /\ isfile disk w' = false /\
  w' = snd (spawn ["fdisk"; "-o"; "Device,Start,Sectors"; "-l"; disk] w).
Proof.
  unfold kdt.disk_mount. intros H.
  apply prog_bind_Returns in H as ([[[[[n1 s1] c1] n2] s2] c2] & w1 & Hp & H).
  apply parse_fdisk_world in Hp.
  destruct (Py.contains "/dev/" disk).
  - destruct (s2 >? 0); apply mount_both_root_true in H; discriminate.
  - apply prog_bind_Returns in H as (f & w2 & Hf & H). injection Hf as <- <-.
    destruct (isfile disk w1) eqn:Ef.
    + destruct (s2 >? 0); apply mount_both_root_true in H; discriminate.
    + injection H as <- <-. auto.
Qed.


Lemma bash_mount_ok (self : kdt.BashCommands) (arguments : list string)
    (w w' : W) (out err : string) :
  kdt.debug self = false ->
  spawn ("sudo" :: "mount" :: arguments) w = (Some (0, out, err), w') ->
  kdt.bash_mount (kdt.bash_of spawn self) arguments true w = (Returns true, w').
Proof.
  intros Hd Hs. unfold kdt.bash_of, kdt.bash_mount, kdt.run_current_command_check,
    kdt.print_command, kdt.run.
  rewrite Hd. simpl. rewrite Hs. reflexivity.
Qed.

(** On a block device with two partitions the second partition is mounted
    as root at the mount point, then the first as boot below it. *)
Theorem disk_mount_device_two_partitions
    (self : kdt.BashCommands) (disk mount_point : string) (w w1 w2 w3 : W)
    (name1 name2 out1 err1 out2 err2 : string) (start1 sectors1 start2 sectors2 : Z) :
  kdt.debug self = false ->
  Py.contains "/dev/" disk = true ->
  kdt.parse_fdisk disk (kdt.bash_of spawn self) w
    = (Returns (name1, start1, sectors1, name2, start2, sectors2), w1) ->
  0 < start2 ->
  spawn ["sudo"; "mount"; name2; mount_point] w1 = (Some (0, out1, err1), w2) ->
  spawn ["sudo"; "mount"; name1; mount_point +:+ "/boot"] w2
    = (Some (0, out2, err2), w3) ->
  kdt.disk_mount isfile disk mount_point (kdt.bash_of spawn self) w
    = (Returns (true, true), w3).
Proof.
  intros Hd Hdev Hp Hs2 Hroot Hboot. unfold kdt.disk_mount.
  unfold mbind at 1. unfold prog_bind. rewrite Hp, Hdev.
  destruct (Z.gtb_spec start2 0) as [_|]; [|lia].
  unfold kdt.mount_both. unfold mbind at 1. unfold prog_bind. cbn [app].
  rewrite (bash_mount_ok self _ w1 w2 out1 err1 Hd Hroot).
  unfold mbind at 1. unfold prog_bind.
  rewrite (bash_mount_ok self _ w2 w3 out2 err2 Hd Hboot). reflexivity.
Qed.

(** On an image file with two partitions both mounts go through a loop
    device on the image, with byte offset and size limit of the second
    partition for root and of the first for boot. *)
Theorem disk_mount_image_two_partitions
    (self : kdt.BashCommands) (disk mount_point : string) (w w1 w2 w3 : W)
    (name1 name2 out1 err1 out2 err2 : string) (start1 sectors1 start2 sectors2 : Z) :
  kdt.debug self = false ->
  Py.contains "/dev/" disk = false ->
  kdt.parse_fdisk disk (kdt.bash_of spawn self) w
    = (Returns (name1, start1, sectors1, name2, start2, sectors2), w1) ->
  isfile disk w1 = true ->
  0 < start2 ->
  spawn (["sudo"; "mount"] ++ kdt.loop_args start2 sectors2 ++ [disk; mount_point]) w1
    = (Some (0, out1, err1), w2) ->
  spawn (["sudo"; "mount"] ++ kdt.loop_args start1 sectors1
           ++ [disk; mount_point +:+ "/boot"]) w2
    = (Some (0, out2, err2), w3) ->
  kdt.disk_mount isfile disk mount_point (kdt.bash_of spawn self) w
    = (Returns (true, true), w3).
Proof.
  intros Hd Hdev Hp Hfile Hs2 Hroot Hboot. unfold kdt.disk_mount.
  unfold mbind at 1. unfold prog_bind. rewrite Hp, Hdev.
  unfold mbind at 1. unfold prog_bind. rewrite Hfile.
  destruct (Z.gtb_spec start2 0) as [_|]; [|lia].
  unfold kdt.mount_both. unfold mbind at 1. unfold prog_bind. cbn [app].
  rewrite (bash_mount_ok self _ w1 w2 out1 err1 Hd Hroot).
  unfold mbind at 1. unfold prog_bind.
  rewrite (bash_mount_ok self _ w2 w3 out2 err2 Hd Hboot). reflexivity.
Qed.

(** A device with one partition: it is mounted as root and no boot
    partition is reported. *)
Theorem disk_mount_single_partition
    (self : kdt.BashCommands) (disk mount_point : string) (w w1 w2 : W)
    (name1 name2 out1 err1 : string) (start1 sectors1 start2 sectors2 : Z) :
  kdt.debug self = false ->
  Py.contains "/dev/" disk = true ->
  kdt.parse_fdisk disk (kdt.bash_of spawn self) w
    = (Returns (name1, start1, sectors1, name2, start2, sectors2), w1) ->
  start2 <= 0 ->
  spawn ["sudo"; "mount"; name1; mount_point] w1 = (Some (0, out1, err1), w2) ->
  kdt.disk_mount isfile disk mount_point (kdt.bash_of spawn self) w
    = (Returns (true, false), w2).
Proof.
  intros Hd Hdev Hp Hs2 Hroot. unfold kdt.disk_mount.
  unfold mbind at 1. unfold prog_bind. rewrite Hp, Hdev.
  destruct (Z.gtb_spec start2 0) as [|_]; [lia|].
  unfold kdt.mount_both. unfold mbind at 1. unfold prog_bind. cbn [app].
  rewrite (bash_mount_ok self _ w1 w2 out1 err1 Hd Hroot). reflexivity.
Qed.

(** [disk_umount] with the real [BashCommands]: the boot partition is
    unmounted before the root. *)
Lemma bash_umount_ok (self : kdt.BashCommands) (arguments : list string)
    (w w' : W) (out err : string) :
  kdt.debug self = false ->
  spawn ("sudo" :: "umount" :: arguments) w = (Some (0, out, err), w') ->
  kdt.bash_umount (kdt.bash_of spawn self) arguments true w = (Returns true, w').
Proof.
  intros Hd Hs. unfold kdt.bash_of, kdt.bash_umount, kdt.run_current_command_check,
    kdt.print_command, kdt.run.
  rewrite Hd. simpl. rewrite Hs. reflexivity.
Qed.

End MoreRunnerFacts.

(** ** More on the partition parser *)

Section RowFacts.

Lemma not_space_not_blank (a : ascii) : Py.is_space a = false -> not_chr Py.SP a = true.
Proof.
  intros H. unfold not_chr. destruct (Ascii.eqb_spec a Py.SP) as [->|]; [discriminate H|reflexivity].
Qed.

(** The words of [s.split()] hold no blank. *)
Lemma split_ws_no_blank (s : string) :
  forallb (all_chars (not_chr Py.SP)) (Py.split_ws s) = true.
Proof.
  induction s as [|a s IH]; [reflexivity|].
  rewrite split_ws_cons. destruct (Py.is_space a) eqn:Ea; [exact IH|].
  pose proof (not_space_not_blank a Ea) as Ha.
  assert (Hone : all_chars (not_chr Py.SP) (String a EmptyString) = true)
    by (simpl; rewrite Ha; reflexivity).
  destruct s as [|b s]; [cbn [forallb]; rewrite Hone; reflexivity|].
  destruct (Py.is_space b) eqn:Eb.
  - cbn [forallb]. rewrite Hone, IH. reflexivity.
  - destruct (Py.split_ws (String b s)) as [|w ws];
      [cbn [forallb]; rewrite Hone; reflexivity|].
    cbn [forallb] in *. apply andb_prop in IH as [Hw Hws].
    rewrite Hws, andb_true_r. simpl. rewrite Ha, Hw. reflexivity.
Qed.

(** [' '.join(s.split()).split(' ')]: the words of [s], or one empty word
    when [s] has none. *)
Lemma squeeze_blanks (s : string) :
  Py.split_chr Py.SP (Py.join " " (Py.split_ws s))
    = match Py.split_ws s with
      | [] => [EmptyString]
      | words => words
      end.
Proof.
  pose proof (split_ws_no_blank s) as H.
  destruct (Py.split_ws s) as [|w ws]; [reflexivity|].
  apply (split_chr_join Py.SP w ws H).
Qed.

Lemma unpack_row_words (line : string) :
  kdt.unpack_row line
    = match Py.split_ws line with
      | [a; b; c] => Returns (a, b, c)
      | _ => Raises ValueError
      end.
Proof.
  unfold kdt.unpack_row. rewrite squeeze_blanks.
  destruct (Py.split_ws line) as [|a [|b [|c [|d rest]]]]; reflexivity.
Qed.

(** A row is accepted exactly when it has three columns separated by
    whitespace; any other number of columns is a [ValueError]. *)
Theorem unpack_row_three_columns (line : string) :
  kdt.unpack_row line
    = match Py.split_ws line with
      | [a; b; c] => Returns (a, b, c)
      | _ => Raises ValueError
      end.
Proof. exact (unpack_row_words line). Qed.

(** A line that names the first partition and has other than three columns
    makes the parser raise [ValueError]. *)
Theorem fdisk_line_other_than_three_columns
    (img : string) (v : kdt.fdisk_vars) (line : string) :
  Py.contains "Units:" line = false ->
  Py.contains (img +:+ "1") line = true ->
  length (Py.split_ws line) <> 3%nat ->
  kdt.fdisk_line img v line = Raises ValueError.
Proof.
  intros Hu H1 Hlen. unfold kdt.fdisk_line. rewrite Hu, H1.
  cbn [mbind outcome_bind mret outcome_ret]. rewrite unpack_row_words.
  destruct (Py.split_ws line) as [|a [|b [|c [|d rest]]]]; try reflexivity.
  contradiction Hlen. reflexivity.
Qed.

End RowFacts.

Section MoreParseFacts.

Context {W : Type}.
Variable spawn : list string -> W -> option (Z * string * string) * W.

Lemma forallb_other_single (img : string) (lines : list string) :
  forallb (Fdisk.other_line img) lines = true ->
  forallb (all_chars (not_chr Py.LF)) lines = true.
Proof.
  induction lines as [|l lines IH]; [reflexivity|]. simpl.
  rewrite !andb_true_iff. intros [Hl Hr].
  split; [exact (other_line_single _ _ Hl)|exact (IH Hr)].
Qed.

Lemma kdt_run_str_fdisk (self : kdt.BashCommands) (img text err : string) (w w' : W) :
  spawn ["fdisk"; "-o"; "Device,Start,Sectors"; "-l"; img] w
    = (Some (0, text +:+ Py.nl, err), w') ->
  kdt.bash_kdt_run_str (kdt.bash_of spawn self)
    ["fdisk"; "-o"; "Device,Start,Sectors"; "-l"; img] true w
  = (Returns (true, text, Py.slice None (Some (-1)) err), w').
Proof.
  intros Hs. unfold kdt.bash_of, kdt.bash_kdt_run_str, kdt.kdt_run_str.
  rewrite print_command_default. simpl negb. cbv iota.
  unfold kdt.run. rewrite Hs. simpl andb. cbv iota beta.
  unfold Py.nl. rewrite slice_but_last. reflexivity.
Qed.

(** Output in which no line is a units line or names a partition of the
    disk, empty output included, ends the program with the parse error.
    The lines are those of the output without its last character, as
    [kdt_run_str] hands it over. *)
Theorem parse_fdisk_without_partition_exits
    (self : kdt.BashCommands) (img out err : string) (w w' : W) :
  spawn ["fdisk"; "-o"; "Device,Start,Sectors"; "-l"; img] w
    = (Some (0, out, err), w') ->
  forallb (Fdisk.other_line img)
    (Py.split_chr Py.LF (Py.slice None (Some (-1)) out)) = true ->
  kdt.parse_fdisk img (kdt.bash_of spawn self) w
    = (Exits ("Error! Fail to parse fdisk output from image " +:+ img), w').
Proof.
  intros Hs Hother. unfold kdt.parse_fdisk.
  unfold mbind at 1. unfold prog_bind.
  unfold kdt.bash_of, kdt.bash_kdt_run_str, kdt.kdt_run_str.
  rewrite print_command_default. simpl negb. cbv iota.
  unfold kdt.run. rewrite Hs. simpl andb. cbv iota beta.
  simpl negb. cbv iota.
  unfold mbind at 1. unfold prog_bind, lift.
  rewrite (fdisk_lines_other _ _ _ Hother). reflexivity.
Qed.

(** A listing with the row of one partition: its name, offset and length
    are returned, and the second partition comes back as the empty name
    with offset and length zero. *)
Theorem parse_fdisk_single_partition
    (self : kdt.BashCommands) (img err : string) (w w' : W)
    (before between after : list string) (u : N)
    (name1 : string) (gap1 gap2 : nat) (start1 sectors1 : N) :
  spawn ["fdisk"; "-o"; "Device,Start,Sectors"; "-l"; img] w
    = (Some (0, Py.join Py.nl
                  (before ++ [Fdisk.units_line u] ++ between
                   ++ [Fdisk.row name1 gap1 start1 gap2 sectors1] ++ after)
                +:+ Py.nl, err), w') ->
  forallb (Fdisk.other_line img) (before ++ between ++ after) = true ->
  Py.contains (img +:+ "1") (Fdisk.units_line u) = false ->
  Py.contains (img +:+ "2") (Fdisk.units_line u) = false ->
  Fdisk.word name1 = true ->
  Fdisk.names_only img "1" "2" (Fdisk.row name1 gap1 start1 gap2 sectors1) = true ->
  (0 < u)%N -> (0 < start1)%N -> (0 < sectors1)%N ->
  kdt.parse_fdisk img (kdt.bash_of spawn self) w
    = (Returns (name1, Z.of_N start1 * Z.of_N u, Z.of_N sectors1 * Z.of_N u,
                EmptyString, 0, 0), w').
Proof.
  intros Hs Hother Hu1 Hu2 Hn1 Hr1 Hu Hs1 Hc1.
  rewrite !forallb_app, !andb_true_iff in Hother.
  destruct Hother as [Hbefore [Hbetween Hafter]].
  unfold kdt.parse_fdisk.
  unfold mbind at 1. unfold prog_bind. rewrite (kdt_run_str_fdisk self _ _ _ _ _ Hs).
  simpl negb. cbv iota. unfold Py.nl.
  rewrite split_chr_join_lines.
  2: { destruct before; discriminate. }
  2: { rewrite !forallb_app, !andb_true_iff. simpl forallb. rewrite !andb_true_iff.
       repeat split;
         try (apply units_line_single || apply row_single; assumption);
         eapply forallb_other_single; eassumption. }
  rewrite fdisk_lines_app, (fdisk_lines_other _ _ _ Hbefore).
  cbn [mbind outcome_bind]. change ([?x] ++ ?l) with (x :: l).
  cbn [kdt.fdisk_lines]. rewrite (fdisk_line_units _ _ _ Hu1 Hu2).
  cbn [mbind outcome_bind].
  rewrite fdisk_lines_app, (fdisk_lines_other _ _ _ Hbetween).
  cbn [mbind outcome_bind]. change ([?x] ++ ?l) with (x :: l).
  cbn [kdt.fdisk_lines].
  rewrite fdisk_line_row1 with (u := u) by (reflexivity || assumption).
  cbn [mbind outcome_bind].
  rewrite (fdisk_lines_other _ _ _ Hafter).
  unfold lift, mbind, prog_bind.
  cbn [kdt.v_unit kdt.v_start1 kdt.v_sectors1 kdt.v_name1 kdt.v_name2 kdt.v_start2
       kdt.v_sectors2 kdt.eq_zero kdt.fdisk_vars0 orb].
  destruct (Z.eqb_spec (Z.of_N start1 * Z.of_N u) 0) as [E|_]; [nia|].
  destruct (Z.eqb_spec (Z.of_N sectors1 * Z.of_N u) 0) as [E|_]; [nia|].
  reflexivity.
Qed.


(** A listing with a units line whose rows are not named [<disk>1] or
    [<disk>2] (such as [/dev/mmcblk0p1]) ends the program with the parse
    error. *)
Theorem parse_fdisk_unnamed_partitions_exits
    (self : kdt.BashCommands) (img err : string) (w w' : W)
    (before after : list string) (u : N) :
  spawn ["fdisk"; "-o"; "Device,Start,Sectors"; "-l"; img] w
    = (Some (0, Py.join Py.nl (before ++ [Fdisk.units_line u] ++ after) +:+ Py.nl,
             err), w') ->
  forallb (Fdisk.other_line img) (before ++ after) = true ->
  Py.contains (img +:+ "1") (Fdisk.units_line u) = false ->
  Py.contains (img +:+ "2") (Fdisk.units_line u) = false ->
  kdt.parse_fdisk img (kdt.bash_of spawn self) w
    = (Exits ("Error! Fail to parse fdisk output from image " +:+ img), w').
Proof.
  intros Hs Hother Hu1 Hu2.
  rewrite forallb_app, andb_true_iff in Hother. destruct Hother as [Hbefore Hafter].
  unfold kdt.parse_fdisk.
  unfold mbind at 1. unfold prog_bind. rewrite (kdt_run_str_fdisk self _ _ _ _ _ Hs).
  simpl negb. cbv iota. unfold Py.nl.
  rewrite split_chr_join_lines.
  2: { destruct before; discriminate. }
  2: { rewrite !forallb_app, !andb_true_iff. simpl forallb. rewrite !andb_true_iff.
       repeat split; try apply units_line_single;
         eapply forallb_other_single; eassumption. }
  rewrite fdisk_lines_app, (fdisk_lines_other _ _ _ Hbefore).
  cbn [mbind outcome_bind]. change ([?x] ++ ?l) with (x :: l).
  cbn [kdt.fdisk_lines]. rewrite (fdisk_line_units _ _ _ Hu1 Hu2).
  cbn [mbind outcome_bind]. rewrite (fdisk_lines_other _ _ _ Hafter). reflexivity.
Qed.

End MoreParseFacts.

(** ** The extra properties at concrete inputs *)

Lemma kdt_run_str_checked_is_valid_witness :
  kdt.kdt_run_str (Sim.spawn "hello" []) Sim.production ["fdisk"; "-l"]
      (false, true) false true Sim.boot
    = (Returns (true, "hell", EmptyString),
       {| Sim.mounts := []; Sim.trace := [["fdisk"; "-l"]] |}) /\
  true = true.
Proof.
  split; [reflexivity|].
  exact (kdt_run_str_checked_is_valid (Sim.spawn "hello" []) Sim.production
           ["fdisk"; "-l"] (false, true) false Sim.boot _ true "hell" EmptyString
           eq_refl).
Defined.

Lemma debug_mode_launches_nothing_witness :
  kdt.debug Sim.debugging = true /\
  kdt.run_current_command_check (Sim.spawn EmptyString []) Sim.debugging
      ["mount"] ["/dev/sda2"; "/tmp/mnt"] true Sim.boot
    = (Returns true, Sim.boot).
Proof.
  split; [reflexivity|].
  exact (debug_mode_launches_nothing (Sim.spawn EmptyString []) Sim.debugging
           ["mount"] ["/dev/sda2"; "/tmp/mnt"] true Sim.boot eq_refl).
Defined.

Lemma disk_mount_root_false_only_for_no_disk_witness :
  kdt.disk_mount (Sim.isfile []) "disk.img" "/tmp/mnt"
      (kdt.bash_of (Sim.spawn (Sim.img_listing +:+ Py.nl) []) Sim.production) Sim.boot
    = (Returns (false, false), Sim.fdisk_ran "disk.img") /\
  false = false /\ Py.contains "/dev/" "disk.img" = false /\
  Sim.isfile [] "disk.img" (Sim.fdisk_ran "disk.img") = false /\
  Sim.fdisk_ran "disk.img"
    = snd (Sim.spawn (Sim.img_listing +:+ Py.nl) []
             ["fdisk"; "-o"; "Device,Start,Sectors"; "-l"; "disk.img"] Sim.boot).
Proof.
  assert (H : kdt.disk_mount (Sim.isfile []) "disk.img" "/tmp/mnt"
                (kdt.bash_of (Sim.spawn (Sim.img_listing +:+ Py.nl) []) Sim.production)
                Sim.boot
              = (Returns (false, false), Sim.fdisk_ran "disk.img"))
    by (vm_compute; reflexivity).
  split; [exact H|].
  exact (disk_mount_root_false_only_for_no_disk
           (Sim.spawn (Sim.img_listing +:+ Py.nl) []) (Sim.isfile [])
           Sim.production "disk.img" "/tmp/mnt" Sim.boot _ false H).
Defined.

Lemma disk_mount_device_two_partitions_witness :
  kdt.debug Sim.production = false /\
  Py.contains "/dev/" "/dev/sda" = true /\
  kdt.disk_mount (Sim.isfile []) "/dev/sda" "/tmp/mnt"
      (kdt.bash_of (Sim.spawn (Sim.sda_listing +:+ Py.nl) []) Sim.production) Sim.boot
    = (Returns (true, true),
       {| Sim.mounts := [("/dev/sda1", "/tmp/mnt/boot"); ("/dev/sda2", "/tmp/mnt")];
          Sim.trace :=
            [["fdisk"; "-o"; "Device,Start,Sectors"; "-l"; "/dev/sda"];
             ["sudo"; "mount"; "/dev/sda2"; "/tmp/mnt"];
             ["sudo"; "mount"; "/dev/sda1"; "/tmp/mnt/boot"]] |}).
Proof.
  split; [reflexivity|]. split; [reflexivity|].
  eapply (disk_mount_device_two_partitions
            (Sim.spawn (Sim.sda_listing +:+ Py.nl) []) (Sim.isfile [])
            Sim.production "/dev/sda" "/tmp/mnt" Sim.boot (Sim.fdisk_ran "/dev/sda")).
  - reflexivity.
  - reflexivity.
  - vm_compute. reflexivity.
  - reflexivity.
  - reflexivity.
  - reflexivity.
Defined.

Lemma disk_mount_image_two_partitions_witness :
  kdt.debug Sim.production = false /\
  Py.contains "/dev/" "disk.img" = false /\
  Sim.isfile ["disk.img"] "disk.img" (Sim.fdisk_ran "disk.img") = true /\
  kdt.disk_mount (Sim.isfile ["disk.img"]) "disk.img" "/tmp/mnt"
      (kdt.bash_of (Sim.spawn (Sim.img_listing +:+ Py.nl) []) Sim.production) Sim.boot
    = (Returns (true, true),
       {| Sim.mounts := [("disk.img", "/tmp/mnt/boot"); ("disk.img", "/tmp/mnt")];
          Sim.trace :=
            [["fdisk"; "-o"; "Device,Start,Sectors"; "-l"; "disk.img"];
             ["sudo"; "mount"; "-o"; "loop,offset=272629760,sizelimit=1874853888";
              "disk.img"; "/tmp/mnt"];
             ["sudo"; "mount"; "-o"; "loop,offset=4194304,sizelimit=268435456";
              "disk.img"; "/tmp/mnt/boot"]] |}).
Proof.
  split; [reflexivity|]. split; [reflexivity|]. split; [reflexivity|].
  eapply (disk_mount_image_two_partitions
            (Sim.spawn (Sim.img_listing +:+ Py.nl) []) (Sim.isfile ["disk.img"])
            Sim.production "disk.img" "/tmp/mnt" Sim.boot (Sim.fdisk_ran "disk.img")).
  - reflexivity.
  - reflexivity.
  - vm_compute. reflexivity.
  - reflexivity.
  - reflexivity.
  - vm_compute. reflexivity.
  - vm_compute. reflexivity.
Defined.

Lemma parse_fdisk_without_partition_exits_witness :
  Sim.spawn EmptyString [] ["fdisk"; "-o"; "Device,Start,Sectors"; "-l"; "/dev/sdc"]
      Sim.boot
    = (Some (0, EmptyString, EmptyString), Sim.fdisk_ran "/dev/sdc") /\
  forallb (Fdisk.other_line "/dev/sdc")
    (Py.split_chr Py.LF (Py.slice None (Some (-1)) EmptyString)) = true /\
  kdt.parse_fdisk "/dev/sdc"
      (kdt.bash_of (Sim.spawn EmptyString []) Sim.production) Sim.boot
    = (Exits ("Error! Fail to parse fdisk output from image " +:+ "/dev/sdc"),
       Sim.fdisk_ran "/dev/sdc") /\
  kdt.parse_fdisk "/dev/sdc"
      (kdt.bash_of (Sim.spawn ("fdisk: cannot open /dev/sdc" +:+ Py.nl) [])
         Sim.production) Sim.boot
    = (Exits ("Error! Fail to parse fdisk output from image " +:+ "/dev/sdc"),
       Sim.fdisk_ran "/dev/sdc").
Proof.
  split; [reflexivity|]. split; [reflexivity|]. split.
  - apply (parse_fdisk_without_partition_exits (Sim.spawn EmptyString [])
             Sim.production "/dev/sdc" EmptyString EmptyString Sim.boot
             (Sim.fdisk_ran "/dev/sdc")); reflexivity.
  - apply (parse_fdisk_without_partition_exits
             (Sim.spawn ("fdisk: cannot open /dev/sdc" +:+ Py.nl) [])
             Sim.production "/dev/sdc" ("fdisk: cannot open /dev/sdc" +:+ Py.nl)
             EmptyString Sim.boot (Sim.fdisk_ran "/dev/sdc")); reflexivity.
Defined.

Lemma parse_fdisk_unnamed_partitions_exits_witness :
  forallb (Fdisk.other_line "/dev/mmcblk0") (Sim.mmc_before ++ Sim.mmc_after) = true /\
  Py.contains ("/dev/mmcblk0" +:+ "1") (Fdisk.units_line 512) = false /\
  Py.contains ("/dev/mmcblk0" +:+ "2") (Fdisk.units_line 512) = false /\
  kdt.parse_fdisk "/dev/mmcblk0"
      (kdt.bash_of (Sim.spawn (Sim.mmc_listing +:+ Py.nl) []) Sim.production) Sim.boot
    = (Exits ("Error! Fail to parse fdisk output from image " +:+ "/dev/mmcblk0"),
       Sim.fdisk_ran "/dev/mmcblk0").
Proof.
  assert (H1 : forallb (Fdisk.other_line "/dev/mmcblk0")
                 (Sim.mmc_before ++ Sim.mmc_after) = true) by (vm_compute; reflexivity).
  assert (H2 : Py.contains ("/dev/mmcblk0" +:+ "1") (Fdisk.units_line 512) = false)
    by (vm_compute; reflexivity).
  assert (H3 : Py.contains ("/dev/mmcblk0" +:+ "2") (Fdisk.units_line 512) = false)
    by (vm_compute; reflexivity).
  split; [exact H1|]. split; [exact H2|]. split; [exact H3|].
  apply (parse_fdisk_unnamed_partitions_exits
           (Sim.spawn (Sim.mmc_listing +:+ Py.nl) []) Sim.production
           "/dev/mmcblk0" EmptyString Sim.boot (Sim.fdisk_ran "/dev/mmcblk0")
           Sim.mmc_before Sim.mmc_after 512);
    [reflexivity|exact H1|exact H2|exact H3].
Defined.

Lemma parse_fdisk_single_partition_witness :
  forallb (Fdisk.other_line "/dev/sdb") (Sim.sdb_before ++ Sim.sdb_between ++ []) = true /\
  Fdisk.word "/dev/sdb1" = true /\
  Fdisk.names_only "/dev/sdb" "1" "2" (Fdisk.row "/dev/sdb1" 2 2048 2 31114240) = true /\
  kdt.parse_fdisk "/dev/sdb"
      (kdt.bash_of (Sim.spawn (Sim.sdb_listing +:+ Py.nl) []) Sim.production) Sim.boot
    = (Returns ("/dev/sdb1", 2048 * 512, 31114240 * 512, EmptyString, 0, 0),
       Sim.fdisk_ran "/dev/sdb").
Proof.
  assert (H1 : forallb (Fdisk.other_line "/dev/sdb")
                 (Sim.sdb_before ++ Sim.sdb_between ++ []) = true)
    by (vm_compute; reflexivity).
  assert (H2 : Fdisk.names_only "/dev/sdb" "1" "2"
                 (Fdisk.row "/dev/sdb1" 2 2048 2 31114240) = true)
    by (vm_compute; reflexivity).
  split; [exact H1|]. split; [reflexivity|]. split; [exact H2|].
  apply (parse_fdisk_single_partition
           (Sim.spawn (Sim.sdb_listing +:+ Py.nl) []) Sim.production
           "/dev/sdb" EmptyString Sim.boot (Sim.fdisk_ran "/dev/sdb")
           Sim.sdb_before Sim.sdb_between [] 512 "/dev/sdb1" 2 2 2048 31114240);
    [reflexivity|exact H1|vm_compute; reflexivity|vm_compute; reflexivity
    |reflexivity|exact H2|reflexivity|reflexivity|reflexivity].
Defined.

(** ** More on the board registry *)

Section RegistryFacts.

Import kernel_builder.

#[local] Arguments str_in : simpl never.

Lemma find_None (p s : string) : Py.contains p s = false -> Py.find p s = None.
Proof.
  induction s as [|a s IH]; simpl; intros H.
  - rewrite orb_false_r in H. rewrite H. reflexivity.
  - apply orb_false_iff in H as [H1 H2]. rewrite H1, (IH H2). reflexivity.
Qed.

Lemma find_Some (p s : string) :
  Py.contains p s = true -> exists n, Py.find p s = Some n.
Proof.
  induction s as [|a s IH]; simpl; intros H.
  - rewrite orb_false_r in H. rewrite H. eauto.
  - destruct (Py.startswith p (String a s)); [eauto|].
    destruct (IH H) as (n & ->). simpl. eauto.
Qed.

(** Where a character is first found, the text splits into a part without
    it, the character, and the rest. *)
Lemma find_take_drop (c : ascii) (s : string) (n : nat) :
  Py.find (String c EmptyString) s = Some n ->
  s = Py.take n s +:+ String c (Py.drop (S n) s) /\
  all_chars (not_chr c) (Py.take n s) = true.
Proof.
  revert n. induction s as [|a s IH]; intros n.
  - discriminate.
  - rewrite find_cons. simpl Py.startswith.
    destruct (Ascii.eqb_spec c a) as [<-|Hne]; simpl andb; cbv iota.
    + intros [= <-]. split; reflexivity.
    + destruct (Py.find (String c EmptyString) s) as [m|]; [|discriminate].
      intros [= <-]. destruct (IH m eq_refl) as [Hs Hall].
      split.
      * simpl. rewrite str_app_cons. f_equal. exact Hs.
      * simpl. rewrite Hall. unfold not_chr.
        destruct (Ascii.eqb_spec a c) as [->|_]; [contradiction|reflexivity].
Qed.

Lemma find_first (c : ascii) (b a : string) :
  all_chars (not_chr c) b = true ->
  Py.find (String c EmptyString) (b +:+ String c a) = Some (String.length b).
Proof.
  intros H. rewrite (find_skip c EmptyString b (String c a) H).
  rewrite find_here by (simpl; rewrite Ascii.eqb_refl; reflexivity).
  simpl. rewrite Nat.add_0_r. reflexivity.
Qed.

Lemma drop_past (b : string) (c : ascii) (a : string) :
  Py.drop (S (String.length b)) (b +:+ String c a) = a.
Proof.
  induction b as [|x b IH]; [reflexivity|].
  rewrite str_app_cons. exact IH.
Qed.

Lemma drop_min_length (n : nat) (s : string) :
  Py.drop (Nat.min (String.length s) n) s = Py.drop n s.
Proof.
  revert n. induction s as [|a s IH]; intros n.
  - destruct n; reflexivity.
  - destruct n as [|n]; [reflexivity|]. simpl. apply IH.
Qed.

(** [s[n:]] is the text after the first [n] characters. *)
Lemma slice_suffix (n : nat) (s : string) :
  Py.slice (Some (Z.of_nat n)) None s = Py.drop n s.
Proof.
  unfold Py.slice, Py.clamp.
  destruct (Z.ltb_spec (Z.of_nat n) 0) as [H|_]; [lia|].
  replace (Z.to_nat _) with (Nat.min (String.length s) n) by lia.
  rewrite drop_min_length.
  rewrite <- (length_drop (Nat.min (String.length s) n) s) at 1.
  rewrite drop_min_length. apply str_take_all.
Qed.

Lemma available_boards_from_cons (s : string) (rest : list string) (acc : boards_arch) :
  available_boards_from (s :: rest) acc
    = match Py.find "_" s with
      | Some n =>
          available_boards_from rest
            (add_board_arch (Py.take n s) (Py.drop (S n) s) acc)
      | None => Raises ValueError
      end.
Proof.
  cbn [available_boards_from]. unfold Py.index.
  destruct (Py.find "_" s) as [n|]; [|reflexivity].
  cbn [mbind outcome_bind].
  rewrite slice_prefix.
  replace (Z.of_nat n + 1) with (Z.of_nat (S n)) by lia.
  rewrite slice_suffix. reflexivity.
Qed.

Lemma dict_get_add (b board arch : string) (d : boards_arch) :
  dict_get b (add_board_arch board arch d)
    = if String.eqb board b
      then Returns (match dict_get board d with
                    | Returns archs => archs ++ [arch]
                    | _ => [arch]
                    end)
      else dict_get b d.
Proof.
  induction d as [|[k archs] rest IH].
  - simpl. reflexivity.
  - simpl. destruct (String.eqb_spec k board) as [->|Hk].
    + simpl. destruct (String.eqb_spec board b) as [->|Hb]; reflexivity.
    + simpl. destruct (String.eqb_spec k b) as [->|Hb].
      * destruct (String.eqb_spec board b) as [->|_]; [contradiction|reflexivity].
      * exact IH.
Qed.

Lemma board_entry_nil (b a : string) : ~ board_entry [] b a.
Proof. intros (archs & H & _). discriminate H. Qed.

Lemma board_entry_add (board arch : string) (d : boards_arch) (b a : string) :
  board_entry (add_board_arch board arch d) b a
  <-> board_entry d b a \/ (b = board /\ a = arch).
Proof.
  unfold board_entry. rewrite dict_get_add.
  destruct (String.eqb_spec board b) as [<-|Hb].
  - destruct (dict_get board d) as [archs| |] eqn:E.
    + split.
      * intros (l & [= <-] & Hin). apply in_app_or in Hin as [Hin|[<-|[]]]; eauto.
      * intros [(l & [= <-] & Hin)|[_ ->]]; eexists; (split; [reflexivity|]);
          apply in_or_app; [left; exact Hin|right; left; reflexivity].
    + split.
      * intros (l & [= <-] & [<-|[]]). right. split; reflexivity.
      * intros [(l & Hl & _)|[_ ->]]; [discriminate Hl|].
        eexists. split; [reflexivity|left; reflexivity].
    + split.
      * intros (l & [= <-] & [<-|[]]). right. split; reflexivity.
      * intros [(l & Hl & _)|[_ ->]]; [discriminate Hl|].
        eexists. split; [reflexivity|left; reflexivity].
  - split.
    + intros H. left. exact H.
    + intros [H|[-> _]]; [exact H|contradiction].
Qed.

(** The pair a section name splits into, and the names that split into a
    given pair. *)
Lemma section_splits (s b a : string) (n : nat) :
  Py.find "_" s = Some n ->
  (b = Py.take n s /\ a = Py.drop (S n) s)
  <-> (all_chars (not_chr "_") b = true /\ b +:+ "_" +:+ a = s).
Proof.
  intros Hfind. destruct (find_take_drop _ _ _ Hfind) as [Hs Hall]. split.
  - intros [-> ->]. split; [exact Hall|]. symmetry. exact Hs.
  - intros [Hb <-].
    change (b +:+ "_" +:+ a) with (b +:+ String "_" a) in *.
    rewrite (find_first "_" b a Hb) in Hfind. injection Hfind as <-.
    rewrite str_take_app_length, drop_past. split; reflexivity.
Qed.

Lemma available_boards_from_entries (sections : list string) :
  forall (acc boards : boards_arch),
  available_boards_from sections acc = Returns boards ->
  forall b a,
    board_entry boards b a
    <-> board_entry acc b a \/
        (all_chars (not_chr "_") b = true /\ In (b +:+ "_" +:+ a) sections).
Proof.
  induction sections as [|s rest IH]; intros acc boards H b a.
  - injection H as <-. split; [auto|]. intros [H|[_ []]]. exact H.
  - rewrite available_boards_from_cons in H.
    destruct (Py.find "_" s) as [n|] eqn:Hfind; [|discriminate H].
    rewrite (IH _ _ H b a), board_entry_add, (section_splits s b a n Hfind).
    cbn [In]. split.
    + intros [[Hacc|[Hb Hs]]|[Hb Hin]]; auto.
    + intros [Hacc|[Hb [Hs|Hin]]]; auto.
Qed.

Lemma available_boards_from_outcome (sections : list string) :
  forall acc : boards_arch,
  match available_boards_from sections acc with
  | Returns _ => forallb (Py.contains "_") sections = true
  | Raises e => e = ValueError /\ forallb (Py.contains "_") sections = false
  | Exits _ => False
  end.
Proof.
  induction sections as [|s rest IH]; intros acc; [reflexivity|].
  rewrite available_boards_from_cons. cbn [forallb].
  destruct (Py.contains "_" s) eqn:Hc.
  - destruct (find_Some _ _ Hc) as (n & ->). exact (IH _).
  - rewrite (find_None _ _ Hc). split; reflexivity.
Qed.

(** The registry is read when every section name holds an underscore, and
    only then: a name without one is a [ValueError]. *)
Theorem available_configured_boards_needs_underscores (sections : list string) :
  match available_configured_boards sections with
  | Returns _ => forallb (Py.contains "_") sections = true
  | Raises e => e = ValueError /\ forallb (Py.contains "_") sections = false
  | Exits _ => False
  end.
Proof. exact (available_boards_from_outcome sections []). Qed.

(** The dict of boards lists exactly the registry's sections: [board] is
    configured for [arch] when, and only when, [board] holds no underscore
    and [board_arch] is a section.  A section name is split at its first
    underscore. *)
Theorem available_configured_boards_lists_sections
    (sections : list string) (boards : boards_arch) (board arch : string) :
  available_configured_boards sections = Returns boards ->
  (board_entry boards board arch
   <-> all_chars (not_chr "_") board = true /\
       In (board +:+ "_" +:+ arch) sections).
Proof.
  intros H. rewrite (available_boards_from_entries sections [] boards H board arch).
  split; [|auto]. intros [Hnil|H']; [|exact H'].
  destruct (board_entry_nil _ _ Hnil).
Qed.

Lemma str_in_In (x : string) (l : list string) : str_in x l = true <-> In x l.
Proof.
  unfold str_in. rewrite existsb_exists. split.
  - intros (y & Hin & Heq). apply String.eqb_eq in Heq. subst. exact Hin.
  - intros Hin. exists x. split; [exact Hin|apply String.eqb_refl].
Qed.

Lemma dict_has_get {A : Type} (key : string) (d : list (string * A)) :
  dict_has key d = true -> exists v, dict_get key d = Returns v.
Proof.
  induction d as [|[k v] rest IH]; simpl; [discriminate|].
  destruct (String.eqb k key); [eauto|exact IH].
Qed.

Lemma dict_get_missing {A : Type} (key : string) (d : list (string * A)) :
  ~ In key (map fst d) -> dict_get key d = Raises (KeyError key).
Proof.
  induction d as [|[k v] rest IH]; simpl; [reflexivity|].
  intros H. destruct (String.eqb_spec k key) as [->|_]; [tauto|].
  apply IH. tauto.
Qed.

Lemma available_configured_boards_returns (sections : list string) :
  forallb (Py.contains "_") sections = true ->
  exists boards, available_configured_boards sections = Returns boards.
Proof.
  intros H. pose proof (available_boards_from_outcome sections []) as Ho.
  unfold available_configured_boards.
  destruct (available_boards_from sections []) as [boards|m|e]; [eauto|tauto|].
  destruct Ho as [_ Ho]. congruence.
Qed.

Section Files.

Variable path_exists : string -> bool.

(** Selecting a board and an architecture that have no section in the
    registry ends the program with one of the two messages. *)
Theorem BoardConfig_init_unconfigured_selection_exits
    (boards_config : list (string * gmap string string))
    (bash_env : gmap string string) (kdt_boards board arch : string) :
  forallb (Py.contains "_") (map fst boards_config) = true ->
  bash_env !! "board" = Some board ->
  bash_env !! "arch" = Some arch ->
  ~ In (board +:+ "_" +:+ arch) (map fst boards_config) ->
  BoardConfig_init path_exists boards_config bash_env kdt_boards
    = Exits ("Error! Board " +:+ board +:+ " not configured")
  \/ BoardConfig_init path_exists boards_config bash_env kdt_boards
    = Exits ("Error! Arch " +:+ kdt.dq +:+ arch +:+ kdt.dq +:+
             " not configured for " +:+ board).
Proof.
  intros Hwf Hboard Harch Hnot.
  destruct (available_configured_boards_returns _ Hwf) as (boards & Hav).
  unfold BoardConfig_init. rewrite Hav, Hboard.
  cbn [mbind outcome_bind mret outcome_ret].
  destruct (dict_has board boards) eqn:Hhas; cbn [negb]; [|left; reflexivity].
  right. destruct (dict_has_get _ _ Hhas) as (archs & Hget).
  unfold set_arch, getattr. rewrite Harch, lookup_insert_eq.
  cbn [mbind outcome_bind mret outcome_ret]. rewrite Hget.
  cbn [mbind outcome_bind mret outcome_ret].
  destruct (str_in arch archs) eqn:Hin; cbn [negb]; [|reflexivity].
  exfalso. apply Hnot.
  assert (Hentry : board_entry boards board arch)
    by (exists archs; split; [exact Hget|]; apply str_in_In; exact Hin).
  apply (available_boards_from_entries _ [] boards Hav board arch) in Hentry.
  destruct Hentry as [Hnil|[_ H]]; [destruct (board_entry_nil _ _ Hnil)|exact H].
Qed.

Lemma dict_get_has {A : Type} (key : string) (d : list (string * A)) (v : A) :
  dict_get key d = Returns v -> dict_has key d = true.
Proof.
  induction d as [|[k w] rest IH]; simpl; [discriminate|].
  destruct (String.eqb k key); [reflexivity|exact IH].
Qed.

(** Without an exported [arch], a board with sections for [x86] and for
    another architecture, but none for [x86_64], is not resolved: the
    default architecture names a section that the registry does not have,
    and the lookup raises [KeyError]. *)
Theorem BoardConfig_init_default_arch_without_section
    (boards_config : list (string * gmap string string))
    (bash_env : gmap string string) (kdt_boards board other : string) :
  forallb (Py.contains "_") (map fst boards_config) = true ->
  bash_env !! "board" = Some board ->
  bash_env !! "arch" = None ->
  all_chars (not_chr "_") board = true ->
  In (board +:+ "_" +:+ "x86") (map fst boards_config) ->
  In (board +:+ "_" +:+ other) (map fst boards_config) ->
  other <> "x86" ->
  ~ In (board +:+ "_" +:+ "x86_64") (map fst boards_config) ->
  BoardConfig_init path_exists boards_config bash_env kdt_boards
    = Raises (KeyError (board +:+ "_" +:+ "x86_64")).
Proof.
  intros Hwf Hboard Harch Hb H86 Hother Hne Hnot.
  destruct (available_configured_boards_returns _ Hwf) as (boards & Hav).
  pose proof (available_boards_from_entries _ [] boards Hav board) as Hentries.
  destruct (proj2 (Hentries "x86") (or_intror (conj Hb H86))) as (archs & Hget & Hin86).
  destruct (proj2 (Hentries other) (or_intror (conj Hb Hother))) as (archs' & Hget' & Hino).
  rewrite Hget in Hget'. injection Hget' as <-.
  unfold BoardConfig_init. rewrite Hav, Hboard.
  cbn [mbind outcome_bind mret outcome_ret].
  rewrite (dict_get_has _ _ _ Hget). cbn [negb].
  unfold set_arch, getattr. rewrite Harch, lookup_insert_eq.
  cbn [mbind outcome_bind mret outcome_ret]. rewrite Hget.
  cbn [mbind outcome_bind mret outcome_ret].
  assert (Hs86 : str_in "x86" archs = true) by (apply str_in_In; exact Hin86).
  destruct archs as [|a1 [|a2 rest]].
  - destruct Hin86.
  - destruct Hin86 as [E1|[]]. destruct Hino as [E2|[]]. congruence.
  - rewrite Hs86, orb_true_r.
    cbn [mbind outcome_bind mret outcome_ret].
    unfold board_arch, getattr.
    rewrite (lookup_insert_ne _ "arch" "board_name") by discriminate.
    rewrite !lookup_insert_eq.
    cbn [mbind outcome_bind mret outcome_ret].
    rewrite (dict_get_missing _ _ Hnot). reflexivity.
Qed.

Lemma get_config_optional (d : gmap string string) (name : string) :
  kdt.get_config d name false = Returns (setting d name).
Proof. unfold kdt.get_config, setting. destruct (d !! name); reflexivity. Qed.

Lemma get_config_Returns (d : gmap string string) (name : string) (mandatory : bool)
    (v : string) :
  kdt.get_config d name mandatory = Returns v ->
  v = setting d name /\ (mandatory = true -> d !! name <> None).
Proof.
  unfold kdt.get_config, setting. destruct (d !! name) as [w|].
  - intros [= <-]. split; [reflexivity|discriminate].
  - destruct mandatory; [discriminate|]. intros [= <-]. split; [reflexivity|discriminate].
Qed.

(** The two halves of [select_kernel_config], on the settings read. *)
Lemma select_kernel_config_eq (bp bash_env board_section : gmap string string)
    (kdt_boards : string) :
  select_kernel_config path_exists bp bash_env board_section kdt_boards
    = if any_set bash_env
      then use_config path_exists (fun f => f)
             (setting bash_env "config_target") (setting bash_env "config_file")
             (setting bash_env "config_gz") bp
      else if any_set board_section
      then use_config path_exists (Py.replace "$kdt_boards" kdt_boards)
             (setting board_section "config_target")
             (setting board_section "config_file")
             (setting board_section "config_gz") bp
      else Exits "Error! No config options are set.".
Proof.
  unfold select_kernel_config.
  repeat (rewrite get_config_optional; cbn [mbind outcome_bind]).
  reflexivity.
Qed.

Lemma use_config_Returns (fix_path : string -> string) (t f g : string)
    (bp bp' : gmap string string) :
  use_config path_exists fix_path t f g bp = Returns bp' ->
  (exists src,
     bp' !! "config_to_use" = Some src /\
     (src = "config_target" /\ Py.truthy t = true \/
      src = "config_file" /\ Py.truthy f = true \/
      src = "config_gz" /\ Py.truthy g = true)) /\
  (Py.truthy f = true ->
   path_exists (fix_path f) = true /\ bp' !! "config_file" = Some (fix_path f)) /\
  (forall k, k <> "config_to_use" -> k <> "config_target" -> k <> "config_file" ->
             bp' !! k = bp !! k).
Proof.
  unfold use_config.
  destruct (Py.truthy t) eqn:Et, (Py.truthy f) eqn:Ef, (Py.truthy g) eqn:Eg;
    cbn [xorb negb]; try discriminate;
    try destruct (path_exists (fix_path f)) eqn:Ep;
    cbn [negb mbind outcome_bind]; try discriminate;
    intros [= <-];
    (split; [eexists; split;
               [first [apply lookup_insert_eq
                      | rewrite lookup_insert_ne by discriminate; apply lookup_insert_eq]
               | tauto]|]);
    (split; [first [discriminate
                   | intros _; split; [reflexivity|];
                     first [apply lookup_insert_eq
                           | rewrite lookup_insert_ne by discriminate;
                             apply lookup_insert_eq]]|]);
    intros k H1 H2 H3; rewrite ?lookup_insert_ne by congruence; reflexivity.
Qed.

(** Exported settings take precedence: once one of the three sources is set
    in the environment, the board's section and the boards folder have no
    part in the selection. *)
Theorem select_kernel_config_environment_precedence
    (bp bash_env : gmap string string)
    (board_section board_section' : gmap string string)
    (kdt_boards kdt_boards' : string) :
  any_set bash_env = true ->
  select_kernel_config path_exists bp bash_env board_section kdt_boards
    = select_kernel_config path_exists bp bash_env board_section' kdt_boards'.
Proof. intros H. rewrite !select_kernel_config_eq, H. reflexivity. Qed.

Lemma select_kernel_config_Returns
    (bp bash_env board_section : gmap string string) (kdt_boards : string)
    (bp' : gmap string string) :
  select_kernel_config path_exists bp bash_env board_section kdt_boards = Returns bp' ->
  (exists src,
     In src ["config_target"; "config_file"; "config_gz"] /\
     bp' !! "config_to_use" = Some src /\
     is_set (if any_set bash_env then bash_env else board_section) src = true) /\
  (is_set (if any_set bash_env then bash_env else board_section) "config_file" = true ->
   exists file,
     file = (if any_set bash_env then setting bash_env "config_file"
             else Py.replace "$kdt_boards" kdt_boards
                    (setting board_section "config_file")) /\
     bp' !! "config_file" = Some file /\
     path_exists file = true) /\
  (forall k, k <> "config_to_use" -> k <> "config_target" -> k <> "config_file" ->
             bp' !! k = bp !! k).
Proof.
  rewrite select_kernel_config_eq. intros H.
  destruct (any_set bash_env); [|destruct (any_set board_section); [|discriminate H]];
    apply use_config_Returns in H as ((src & Hsrc & Hset) & Hfile & Hkeep);
    (split;
     [exists src; split;
        [destruct Hset as [[-> _]|[[-> _]|[-> _]]]; cbn [In]; tauto|];
      split; [exact Hsrc|];
      destruct Hset as [[-> Hs]|[[-> Hs]|[-> Hs]]]; exact Hs
     |split; [|exact Hkeep]; intros Hf; destruct (Hfile Hf) as [He Hl]; eexists;
      split; [reflexivity|]; split; [exact Hl|exact He]]).
Qed.

(** What a selection that returns has chosen: [config_to_use] names one of
    the three sources, and that source is set where the selection looked,
    in the environment if any source is set there and in the board's
    section otherwise.  A [config_file] set there exists, with
    [$kdt_boards] replaced when it comes from the section. *)
Theorem select_kernel_config_selects_a_set_source
    (bp bash_env board_section : gmap string string) (kdt_boards : string)
    (bp' : gmap string string) :
  select_kernel_config path_exists bp bash_env board_section kdt_boards = Returns bp' ->
  (exists src,
     In src ["config_target"; "config_file"; "config_gz"] /\
     bp' !! "config_to_use" = Some src /\
     is_set (if any_set bash_env then bash_env else board_section) src = true) /\
  (is_set (if any_set bash_env then bash_env else board_section) "config_file" = true ->
   exists file,
     file = (if any_set bash_env then setting bash_env "config_file"
             else Py.replace "$kdt_boards" kdt_boards
                    (setting board_section "config_file")) /\
     bp' !! "config_file" = Some file /\
     path_exists file = true).
Proof.
  intros H. apply select_kernel_config_Returns in H as (Hsrc & Hfile & _).
  split; assumption.
Qed.

(** With exactly one source set where the selection looks, and the file
    there when that source is [config_file], the selection returns with
    that source chosen. *)
Theorem select_kernel_config_single_source
    (bp bash_env board_section : gmap string string) (kdt_boards src : string) :
  In src ["config_target"; "config_file"; "config_gz"] ->
  (forall name, In name ["config_target"; "config_file"; "config_gz"] ->
     is_set (if any_set bash_env then bash_env else board_section) name
       = String.eqb name src) ->
  (src = "config_file" ->
   path_exists (if any_set bash_env then setting bash_env "config_file"
                else Py.replace "$kdt_boards" kdt_boards
                       (setting board_section "config_file")) = true) ->
  exists bp',
    select_kernel_config path_exists bp bash_env board_section kdt_boards = Returns bp' /\
    bp' !! "config_to_use" = Some src.
Proof.
  intros Hsrc Hone Hfile. rewrite select_kernel_config_eq.
  pose proof (Hone "config_target" ltac:(cbn [In]; tauto)) as Ht.
  pose proof (Hone "config_file" ltac:(cbn [In]; tauto)) as Hf.
  pose proof (Hone "config_gz" ltac:(cbn [In]; tauto)) as Hg.
  assert (Hany : any_set (if any_set bash_env then bash_env else board_section) = true).
  { unfold any_set at 1. rewrite Ht, Hf, Hg.
    destruct Hsrc as [<-|[<-|[<-|[]]]]; reflexivity. }
  unfold is_set in Ht, Hf, Hg.
  destruct (any_set bash_env) eqn:Eenv; [|rewrite Hany];
    unfold use_config; rewrite Ht, Hf, Hg;
    destruct Hsrc as [<-|[<-|[<-|[]]]];
    cbn [String.eqb Ascii.eqb Bool.eqb xorb negb andb];
    try (rewrite (Hfile eq_refl)); cbn [negb mbind outcome_bind];
    eexists; (split; [reflexivity|]);
    first [apply lookup_insert_eq
          | rewrite lookup_insert_ne by discriminate; apply lookup_insert_eq].
Qed.

Lemma setting_insert_eq (d : gmap string string) (k v : string) :
  setting (<[k := v]> d) k = v.
Proof. unfold setting. rewrite lookup_insert_eq. reflexivity. Qed.

Lemma setting_insert_ne (d : gmap string string) (k k' v : string) :
  k <> k' -> setting (<[k := v]> d) k' = setting d k'.
Proof. intros H. unfold setting. rewrite lookup_insert_ne by exact H. reflexivity. Qed.

Lemma get_board_config_value (board_sect bash_env : gmap string string)
    (kdt_boards name : string) (mandatory : bool) (bp bp' : gmap string string) :
  get_board_config board_sect bash_env kdt_boards name mandatory bp = Returns bp' ->
  exists home,
    bash_env !! "HOME" = Some home /\
    bp' = <[name := expanded home kdt_boards (setting board_sect name)]> bp /\
    (mandatory = true -> board_sect !! name <> None).
Proof.
  unfold get_board_config. intros H.
  apply bind_Returns in H as (raw & Hraw & H).
  apply bind_Returns in H as (home & Hhome & H).
  apply get_config_Returns in Hraw as [-> Hm].
  destruct (bash_env !! "HOME") as [h|]; [|discriminate Hhome].
  injection Hhome as ->. injection H as <-.
  exists home. split; [reflexivity|]. split; [reflexivity|exact Hm].
Qed.

Lemma set_arch_Returns (bp : gmap string string) (available : boards_arch)
    (bash_env bp' : gmap string string) :
  set_arch bp available bash_env = Returns bp' ->
  exists arch,
    bp' = <["arch" := arch]> bp /\
    (forall a, bash_env !! "arch" = Some a -> arch = a).
Proof.
  unfold set_arch. destruct (bash_env !! "arch") as [e|]; intros H.
  - apply bind_Returns in H as (b & _ & H).
    apply bind_Returns in H as (archs & _ & H).
    destruct (negb (str_in e archs)); [discriminate H|]. injection H as <-.
    exists e. split; [reflexivity|]. congruence.
  - apply bind_Returns in H as (b & _ & H).
    apply bind_Returns in H as (archs & _ & H).
    repeat match type of H with
           | (if ?c then _ else _) = _ => destruct c
           | match ?l with _ => _ end = _ => destruct l
           end;
      injection H as <-; eexists; (split; [reflexivity|discriminate]).
Qed.

Ltac peel H :=
  repeat (cbv beta zeta in H;
          match type of H with
          | (_ ≫= _) = Returns _ =>
              apply bind_Returns in H; destruct H as (? & ? & H)
          | (if ?c then Exits _ else _) = Returns _ =>
              destruct c eqn:?; [discriminate H|]
          end).

(** Take apart a constructor call that returned: the board, the
    architecture and the home folder are named, and [build_params] is
    written out as the updates made to the selection's result. *)
Ltac resolve H :=
  unfold BoardConfig_init in H; peel H;
  injection H as <-; cbn [build_params build_target board_sect];
  lazymatch goal with
  | Hb : match ?env !! "board" with _ => _ end = Returns _ |- _ =>
      destruct (env !! "board") as [board|] eqn:Eboard;
        [injection Hb as <-|destruct (Py.join _ _); discriminate Hb]
  end;
  lazymatch goal with
  | Hs : set_arch _ _ _ = Returns _ |- _ =>
      apply set_arch_Returns in Hs as (arch & -> & Harch)
  end;
  lazymatch goal with
  | Hs : board_arch _ = Returns _ |- _ =>
      unfold board_arch, getattr in Hs;
      rewrite (lookup_insert_ne _ "arch" "board_name") in Hs by discriminate;
      rewrite !lookup_insert_eq in Hs;
      cbn [mbind outcome_bind mret outcome_ret] in Hs; injection Hs as <-
  end;
  lazymatch goal with
  | Hs : select_kernel_config _ _ _ _ _ = Returns _ |- _ =>
      apply select_kernel_config_Returns in Hs as (Hsrc & _ & Hkeep)
  end;
  repeat lazymatch goal with
  | Hg : get_board_config _ _ _ _ true _ = Returns _ |- _ =>
      apply get_board_config_value in Hg as (? & ? & -> & ?)
  | Hg : get_board_config _ _ _ _ false _ = Returns _ |- _ =>
      apply get_board_config_value in Hg as (? & ? & -> & _)
  end;
  lazymatch goal with
  | Hr : getattr _ "ramfs_file" = Returns _ |- _ =>
      apply getattr_Returns in Hr; rewrite lookup_insert_eq in Hr;
      injection Hr as <-
  end;
  lazymatch goal with
  | Hu : (if Py.truthy ?r then get_board_config _ _ _ _ _ _ else _) = Returns _ |- _ =>
      destruct (Py.truthy r) eqn:Eramfs;
        [apply get_board_config_value in Hu as (? & ? & -> & ?)
        |injection Hu as <-]
  end;
  repeat match goal with
  | Hh : ?env !! "HOME" = Some ?h, Hh' : ?env !! "HOME" = Some ?h' |- _ =>
      rewrite Hh in Hh'; injection Hh' as <-
  end.

(** A resolved board is the one selected: [board_name] is the exported
    [board], [arch] is the exported [arch] when there is one, the board's
    section is the registry's section [board_arch], and [config_to_use]
    names one of the three sources. *)
Theorem BoardConfig_init_resolves_selected_board
    (boards_config : list (string * gmap string string))
    (bash_env : gmap string string) (kdt_boards : string) (bc : BoardConfig) :
  BoardConfig_init path_exists boards_config bash_env kdt_boards = Returns bc ->
  exists board arch src,
    bash_env !! "board" = Some board /\
    (forall a, bash_env !! "arch" = Some a -> arch = a) /\
    build_params bc !! "board_name" = Some board /\
    build_params bc !! "arch" = Some arch /\
    dict_get (board +:+ "_" +:+ arch) boards_config = Returns (board_sect bc) /\
    build_params bc !! "config_to_use" = Some src /\
    In src ["config_target"; "config_file"; "config_gz"].
Proof.
  intros H. resolve H;
    destruct Hsrc as (src & Hin & Hsrc & _);
    exists board, arch, src;
    (split; [reflexivity|]); (split; [exact Harch|]);
    (split; [rewrite !lookup_insert_ne by discriminate;
             rewrite Hkeep by discriminate;
             rewrite lookup_insert_ne by discriminate; apply lookup_insert_eq|]);
    (split; [rewrite !lookup_insert_ne by discriminate;
             rewrite Hkeep by discriminate; apply lookup_insert_eq|]);
    (split; [assumption|]);
    (split; [rewrite !lookup_insert_ne by discriminate; exact Hsrc|exact Hin]).
Qed.

(** The build parameters of a resolved board are the options of its
    section with [~] and [$kdt_boards] replaced, and empty for an option
    the section does not have.  The section has [kernel_target] and
    [kernel_file], and [update_ramfs] too when [ramfs_file] is not empty. *)
Theorem BoardConfig_init_expands_section_options
    (boards_config : list (string * gmap string string))
    (bash_env : gmap string string) (kdt_boards : string) (bc : BoardConfig) :
  BoardConfig_init path_exists boards_config bash_env kdt_boards = Returns bc ->
  exists home,
    bash_env !! "HOME" = Some home /\
    (forall name, In name copied_options ->
       build_params bc !! name
         = Some (expanded home kdt_boards (setting (board_sect bc) name))) /\
    board_sect bc !! "kernel_target" <> None /\
    board_sect bc !! "kernel_file" <> None /\
    (is_set (build_params bc) "ramfs_file" = true ->
     board_sect bc !! "update_ramfs" <> None /\
     build_params bc !! "update_ramfs"
       = Some (expanded home kdt_boards (setting (board_sect bc) "update_ramfs"))).
Proof.
  intros H. resolve H;
    lazymatch goal with
    | Hh : bash_env !! "HOME" = Some ?h |- _ => exists h; split; [exact Hh|]
    end;
    (split;
     [intros name Hin; unfold copied_options in Hin; cbn [In] in Hin;
      repeat destruct Hin as [<-|Hin]; try contradiction;
      rewrite ?lookup_insert_ne by discriminate; apply lookup_insert_eq|]);
    (split; [auto|]); (split; [auto|]);
    unfold is_set; intros Hset;
    rewrite ?setting_insert_ne, setting_insert_eq in Hset by discriminate;
    [|congruence];
    (split; [auto|]);
    rewrite ?lookup_insert_ne by discriminate; apply lookup_insert_eq.
Qed.

End Files.

End RegistryFacts.

(** ** The board registry at the sample boards *)

Lemma available_configured_boards_lists_sections_witness :
  kernel_builder.available_configured_boards ["rpi_arm64"; "rpi_arm"]
    = Returns [("rpi", ["arm64"; "arm"])] /\
  (board_entry [("rpi", ["arm64"; "arm"])] "rpi" "arm"
   <-> all_chars (not_chr "_") "rpi" = true /\
       In ("rpi" +:+ "_" +:+ "arm") ["rpi_arm64"; "rpi_arm"]).
Proof.
  split; [reflexivity|].
  apply (available_configured_boards_lists_sections ["rpi_arm64"; "rpi_arm"]).
  reflexivity.
Defined.

Lemma BoardConfig_init_unconfigured_selection_exits_witness :
  kernel_builder.BoardConfig_init Sample.path_exists Sample.boards_config
    (<["arch" := "x86"]> Sample.bash_env) Sample.kdt_boards
    = Exits ("Error! Board " +:+ "rpi" +:+ " not configured")
  \/ kernel_builder.BoardConfig_init Sample.path_exists Sample.boards_config
       (<["arch" := "x86"]> Sample.bash_env) Sample.kdt_boards
    = Exits ("Error! Arch " +:+ kdt.dq +:+ "x86" +:+ kdt.dq +:+
             " not configured for " +:+ "rpi").
Proof.
  apply BoardConfig_init_unconfigured_selection_exits; [reflexivity..|].
  intros [H|[H|[]]]; discriminate H.
Defined.

Lemma BoardConfig_init_default_arch_without_section_witness :
  kernel_builder.BoardConfig_init Sample.path_exists
    [("pc_x86", ∅); ("pc_arm", ∅)] {[ "board" := "pc" ]} Sample.kdt_boards
    = Raises (KeyError ("pc" +:+ "_" +:+ "x86_64")).
Proof.
  apply (BoardConfig_init_default_arch_without_section Sample.path_exists
           [("pc_x86", ∅); ("pc_arm", ∅)] {[ "board" := "pc" ]} Sample.kdt_boards
           "pc" "arm").
  - reflexivity.
  - reflexivity.
  - reflexivity.
  - reflexivity.
  - left. reflexivity.
  - right. left. reflexivity.
  - discriminate.
  - intros [H|[H|[]]]; discriminate H.
Defined.

Lemma BoardConfig_init_resolves_selected_board_witness :
  exists bc,
    kernel_builder.BoardConfig_init Sample.path_exists Sample.boards_config
      Sample.bash_env Sample.kdt_boards = Returns bc /\
    exists board arch src,
      Sample.bash_env !! "board" = Some board /\
      (forall a, Sample.bash_env !! "arch" = Some a -> arch = a) /\
      kernel_builder.build_params bc !! "board_name" = Some board /\
      kernel_builder.build_params bc !! "arch" = Some arch /\
      kernel_builder.dict_get (board +:+ "_" +:+ arch) Sample.boards_config
        = Returns (kernel_builder.board_sect bc) /\
      kernel_builder.build_params bc !! "config_to_use" = Some src /\
      In src ["config_target"; "config_file"; "config_gz"].
Proof.
  destruct (kernel_builder.BoardConfig_init Sample.path_exists Sample.boards_config
              Sample.bash_env Sample.kdt_boards)
    as [bc| |] eqn:E; [|vm_compute in E; discriminate E..].
  exists bc. split; [reflexivity|].
  exact (BoardConfig_init_resolves_selected_board _ _ _ _ bc E).
Defined.

Lemma BoardConfig_init_expands_section_options_witness :
  exists bc,
    kernel_builder.BoardConfig_init Sample.path_exists Sample.boards_config
      (<["arch" := "arm"]> Sample.bash_env) Sample.kdt_boards = Returns bc /\
    kernel_builder.build_params bc !! "dtb_path" = Some "/home/u/dtbs" /\
    exists home,
      (<["arch" := "arm"]> Sample.bash_env) !! "HOME" = Some home /\
      (forall name, In name copied_options ->
         kernel_builder.build_params bc !! name
           = Some (expanded home Sample.kdt_boards
                     (setting (kernel_builder.board_sect bc) name))) /\
      kernel_builder.board_sect bc !! "kernel_target" <> None /\
      kernel_builder.board_sect bc !! "kernel_file" <> None /\
      (is_set (kernel_builder.build_params bc) "ramfs_file" = true ->
       kernel_builder.board_sect bc !! "update_ramfs" <> None /\
       kernel_builder.build_params bc !! "update_ramfs"
         = Some (expanded home Sample.kdt_boards
                   (setting (kernel_builder.board_sect bc) "update_ramfs"))).
Proof.
  destruct (kernel_builder.BoardConfig_init Sample.path_exists Sample.boards_config
              (<["arch" := "arm"]> Sample.bash_env) Sample.kdt_boards)
    as [bc| |] eqn:E; [|vm_compute in E; discriminate E..].
  exists bc. split; [reflexivity|]. split.
  - vm_compute in E. injection E as <-. reflexivity.
  - exact (BoardConfig_init_expands_section_options _ _ _ _ bc E).
Defined.

Lemma select_kernel_config_environment_precedence_witness :
  any_set {[ "config_target" := "defconfig" ]} = true /\
  kernel_builder.select_kernel_config Sample.path_exists ∅
    {[ "config_target" := "defconfig" ]} ∅ "/a"
  = kernel_builder.select_kernel_config Sample.path_exists ∅
      {[ "config_target" := "defconfig" ]} {[ "config_gz" := "y" ]} "/b".
Proof.
  split; [reflexivity|].
  apply select_kernel_config_environment_precedence. reflexivity.
Defined.

Lemma select_kernel_config_selects_a_set_source_witness :
  exists bp',
    kernel_builder.select_kernel_config Sample.path_exists ∅ ∅
      {[ "config_file" := "$kdt_boards/rpi.config" ]} "/boards" = Returns bp' /\
    bp' !! "config_file" = Some "/boards/rpi.config" /\
    (exists src,
       In src ["config_target"; "config_file"; "config_gz"] /\
       bp' !! "config_to_use" = Some src /\
       is_set (if any_set ∅ then ∅
               else {[ "config_file" := "$kdt_boards/rpi.config" ]}) src = true) /\
    (is_set (if any_set ∅ then ∅
             else {[ "config_file" := "$kdt_boards/rpi.config" ]}) "config_file" = true ->
     exists file,
       file = (if any_set ∅ then setting ∅ "config_file"
               else Py.replace "$kdt_boards" "/boards"
                      (setting {[ "config_file" := "$kdt_boards/rpi.config" ]}
                         "config_file")) /\
       bp' !! "config_file" = Some file /\
       Sample.path_exists file = true).
Proof.
  destruct (kernel_builder.select_kernel_config Sample.path_exists ∅ ∅
              {[ "config_file" := "$kdt_boards/rpi.config" ]} "/boards")
    as [bp'| |] eqn:E; [|vm_compute in E; discriminate E..].
  exists bp'. split; [reflexivity|]. split.
  - vm_compute in E. injection E as <-. reflexivity.
  - exact (select_kernel_config_selects_a_set_source _ _ _ _ _ _ E).
Defined.

Lemma select_kernel_config_single_source_witness :
  exists bp',
    kernel_builder.select_kernel_config Sample.path_exists ∅
      {[ "config_target" := "defconfig" ]} {[ "config_gz" := "y" ]} "/boards"
      = Returns bp' /\
    bp' !! "config_to_use" = Some "config_target".
Proof.
  apply select_kernel_config_single_source.
  - left. reflexivity.
  - intros name [<-|[<-|[<-|[]]]]; reflexivity.
  - discriminate.
Defined.

(** ** More on patch files *)

Section PatchFacts.

Import git_format_patch.

Lemma lines_keepends_nonempty (s : string) :
  forallb Py.truthy (Py.lines_keepends s) = true.
Proof.
  induction s as [|a s IH]; [reflexivity|]. simpl.
  destruct (Ascii.eqb a Py.LF); [exact IH|].
  destruct (Py.lines_keepends s) as [|l ls]; [reflexivity|].
  simpl in IH. apply andb_prop in IH as [_ IH]. exact IH.
Qed.

Lemma str_app_inv_head (x a b : string) : x +:+ a = x +:+ b -> a = b.
Proof.
  induction x as [|c x IH]; [rewrite !str_app_nil_l; auto|].
  rewrite !str_app_cons. intros [= H]. exact (IH H).
Qed.

Lemma length_concat_filter (P : string -> bool) (lines : list string) :
  (String.length (Py.concat (List.filter P lines))
   <= String.length (Py.concat lines))%nat.
Proof.
  induction lines as [|l lines IH]; [reflexivity|]. simpl List.filter.
  destruct (P l); rewrite ?str_concat_cons, ?str_length_app; lia.
Qed.

(** Dropping lines from a text of non-empty lines changes the text. *)
Lemma concat_filter_id (P : string -> bool) (lines : list string) :
  forallb Py.truthy lines = true ->
  Py.concat (List.filter P lines) = Py.concat lines ->
  forallb P lines = true.
Proof.
  induction lines as [|l lines IH]; [reflexivity|]. simpl.
  intros H. apply andb_prop in H as [Hl Hrest].
  destruct (P l) eqn:E.
  - rewrite !str_concat_cons. intros Heq. apply str_app_inv_head in Heq.
    exact (IH Hrest Heq).
  - intros Heq. exfalso.
    pose proof (length_concat_filter P lines) as Hle.
    rewrite Heq, str_concat_cons, str_length_app in Hle.
    destruct l; [discriminate Hl|]. simpl in Hle. lia.
Qed.

Lemma kept_no_change_id (lines : list string) :
  List.filter kept lines = List.filter no_change_id lines.
Proof. apply filter_ext. intros l. apply kept_spec. Qed.

Lemma remove_change_id_written (content : string) :
  remove_change_id (Some content)
    = Some (Py.concat (List.filter no_change_id (Py.readlines content))).
Proof.
  unfold remove_change_id.
  rewrite fold_left_keep, str_app_nil_l, kept_no_change_id. reflexivity.
Qed.



Lemma filter_twice {A : Type} (P : A -> bool) (l : list A) :
  List.filter P (List.filter P l) = List.filter P l.
Proof. apply List.forallb_filter_id, List.forallb_filter. Qed.

(** Running [remove_change_id] again on the file it wrote changes
    nothing. *)
Theorem remove_change_id_idempotent (patch_file : option string) :
  remove_change_id (remove_change_id patch_file) = remove_change_id patch_file.
Proof.
  destruct patch_file as [content|]; [|reflexivity].
  rewrite remove_change_id_written, remove_change_id_written.
  rewrite readlines_concat_filter, filter_twice. reflexivity.
Qed.

(** The file is written back as it was exactly when it holds no carriage
    return and none of its lines begins with [Change-Id:].  A carriage
    return is lost by the text mode of the read. *)
Theorem remove_change_id_unchanged_iff (content : string) :
  remove_change_id (Some content) = Some content
  <-> all_chars (not_chr Py.CR) content = true /\
      forallb no_change_id (Py.readlines content) = true.
Proof.
  rewrite remove_change_id_written. split.
  - intros [= H].
    assert (Hcr : all_chars (not_chr Py.CR) content = true).
    { rewrite <- H, all_chars_concat.
      apply forallb_filter_other, readlines_no_cr. }
    split; [exact Hcr|].
    unfold Py.readlines in *. rewrite universal_newlines_id in * by exact Hcr.
    apply concat_filter_id; [apply lines_keepends_nonempty|].
    rewrite H. symmetry. apply concat_lines_keepends.
  - intros [Hcr Hall]. f_equal.
    rewrite (List.forallb_filter_id _ _ Hall).
    unfold Py.readlines. rewrite universal_newlines_id by exact Hcr.
    apply concat_lines_keepends.
Qed.

End PatchFacts.

(** ** More on the hosts file *)

Section MoreHostsFacts.

Import get_ip.

(** What two runs in a row write. *)
Lemma get_ips_after_run (first second : list (string * string)) (file : string) :
  plain_table first = true ->
  get_ips second (get_ips first file)
    = separated (separated (read_etc_hosts file)) +:+ Py.concat (host_lines second).
Proof.
  intros Hplain.
  rewrite (get_ips_shape second), (read_etc_hosts_of_run _ _ Hplain). reflexivity.
Qed.

(** The entries of an earlier run do not pile up: when the hosts file
    without its marker lines ends in a line feed, a run after an earlier run
    writes what it would have written on the file itself, whatever the
    earlier run had found. *)
Theorem get_ips_replaces_previous_entries
    (first second : list (string * string)) (file body : string) :
  plain_table first = true ->
  read_etc_hosts file = body +:+ Py.nl ->
  get_ips second (get_ips first file) = get_ips second file.
Proof.
  intros Hplain E.
  rewrite (get_ips_after_run _ _ _ Hplain), E, separated_twice.
  rewrite (get_ips_shape second file), E. reflexivity.
Qed.

(** From the second run on, a run depends on the devices it finds and on
    nothing the runs before it found, for every hosts file. *)
Theorem get_ips_forgets_earlier_runs
    (first second third : list (string * string)) (file : string) :
  plain_table first = true ->
  plain_table second = true ->
  get_ips third (get_ips second (get_ips first file))
    = get_ips third (get_ips first file).
Proof.
  intros H1 H2.
  destruct (separated_nl (read_etc_hosts file)) as [b Hb].
  rewrite (get_ips_after_run _ _ _ H2), (read_etc_hosts_of_run _ _ H1), Hb.
  rewrite separated_twice, <- Hb, <- (read_etc_hosts_of_run _ _ H1).
  symmetry. apply get_ips_shape.
Qed.

(** The unmarked part of what a run writes, as lines. *)
Lemma separated_lines (file : string) :
  exists lines,
    separated (read_etc_hosts file) = Py.concat lines /\
    forallb terminated lines = true /\
    forallb unmarked lines = true /\
    forallb (all_chars (not_chr Py.CR)) lines = true.
Proof.
  rewrite (read_etc_hosts_filter file).
  set (kept_lines := List.filter unmarked (Py.readlines file)).
  assert (Hkeep : forallb unmarked kept_lines = true)
    by (subst kept_lines; apply List.forallb_filter).
  assert (Hcr : forallb (all_chars (not_chr Py.CR)) kept_lines = true)
    by (subst kept_lines; apply (forallb_filter_other (all_chars (not_chr Py.CR)) unmarked),
          readlines_no_cr).
  assert (Hws : well_split kept_lines = true)
    by (subst kept_lines; apply well_split_filter, lines_keepends_well_split).
  destruct (well_split_cases _ Hws) as [Hterm|(init & u & E & Hinit & Hu)].
  - unfold separated. destruct (ends_with_empty_line (Py.concat kept_lines)).
    + exists kept_lines. repeat split; assumption.
    + exists (kept_lines ++ [Py.nl]). rewrite str_concat_app.
      split; [reflexivity|].
      rewrite !forallb_app. simpl forallb. rewrite Hterm, Hkeep, Hcr.
      repeat split; reflexivity.
  - rewrite E in *. rewrite forallb_app in Hkeep, Hcr. simpl forallb in Hkeep, Hcr.
    rewrite !andb_true_r in Hkeep, Hcr.
    apply andb_prop in Hkeep as [Hk1 Hk2]. apply andb_prop in Hcr as [Hc1 Hc2].
    unfold separated. rewrite str_concat_app.
    change (Py.concat [u]) with u.
    rewrite (unterminated_not_empty_line _ _ Hu).
    exists (init ++ [u +:+ Py.nl]).
    split; [rewrite str_concat_app, str_app_assoc; reflexivity|].
    rewrite !forallb_app. simpl forallb. rewrite ?andb_true_r.
    rewrite Hinit, Hk1, Hc1, unmarked_app_nl, Hk2, all_chars_app, Hc2.
    rewrite (unterminated_app_nl _ Hu). repeat split; reflexivity.
Qed.

Lemma host_lines_all_marked (host_ip : list (string * string)) :
  List.filter marked (host_lines host_ip) = host_lines host_ip.
Proof.
  unfold host_lines, marked.
  induction host_ip as [|[h ip] rest IH]; [reflexivity|]. simpl.
  rewrite host_line_marked. simpl. rewrite IH. reflexivity.
Qed.

Lemma filter_marked_unmarked (lines : list string) :
  forallb unmarked lines = true -> List.filter marked lines = [].
Proof.
  unfold marked. induction lines as [|l lines IH]; [reflexivity|]. simpl.
  intros H. apply andb_prop in H as [-> H]. simpl. exact (IH H).
Qed.

(** After a run, the marked lines of the hosts file are the lines of the
    devices found, one per device and in their order; whatever an earlier
    run had added is gone. *)
Theorem get_ips_marks_exactly_the_table
    (host_ip : list (string * string)) (file : string) :
  plain_table host_ip = true ->
  List.filter marked (Py.readlines (get_ips host_ip file)) = host_lines host_ip.
Proof.
  intros Hplain. rewrite get_ips_shape.
  destruct (separated_lines file) as (lines & -> & Hterm & Hkeep & Hcr).
  rewrite <- str_concat_app. unfold Py.readlines.
  rewrite universal_newlines_id.
  - rewrite lines_keepends_concat.
    + rewrite List.filter_app, (filter_marked_unmarked _ Hkeep), host_lines_all_marked.
      reflexivity.
    + apply all_terminated_well_split. rewrite forallb_app, Hterm.
      apply host_lines_terminated. exact Hplain.
  - rewrite all_chars_concat, forallb_app, Hcr.
    apply host_lines_no_cr. exact Hplain.
Qed.

End MoreHostsFacts.

(** ** The hosts file and the patch file at sample inputs *)

Lemma get_ips_replaces_previous_entries_witness :
  plain_table Sample.host_ip = true /\
  get_ip.get_ips [("nuc", "192.168.0.9")]
    (get_ip.get_ips Sample.host_ip ("127.0.0.1 localhost" +:+ Py.nl))
  = get_ip.get_ips [("nuc", "192.168.0.9")] ("127.0.0.1 localhost" +:+ Py.nl).
Proof.
  split; [reflexivity|].
  apply (get_ips_replaces_previous_entries Sample.host_ip [("nuc", "192.168.0.9")]
           ("127.0.0.1 localhost" +:+ Py.nl) "127.0.0.1 localhost");
    reflexivity.
Defined.

Lemma get_ips_forgets_earlier_runs_witness :
  get_ip.get_ips Sample.host_ip
    (get_ip.get_ips [("nuc", "192.168.0.9")]
       (get_ip.get_ips Sample.host_ip Sample.etc_hosts))
  = get_ip.get_ips Sample.host_ip (get_ip.get_ips Sample.host_ip Sample.etc_hosts).
Proof.
  apply (get_ips_forgets_earlier_runs Sample.host_ip [("nuc", "192.168.0.9")]
           Sample.host_ip Sample.etc_hosts);
    reflexivity.
Defined.

Lemma get_ips_marks_exactly_the_table_witness :
  List.filter marked
    (Py.readlines
       (get_ip.get_ips Sample.host_ip
          ("127.0.0.1 localhost" +:+ Py.nl +:+
           "192.168.0.3 rpi #gip added" +:+ Py.nl +:+
           "192.168.0.4 nuc #gip added" +:+ Py.nl)))
  = ["192.168.0.7 rpi #gip added" +:+ Py.nl].
Proof.
  apply (get_ips_marks_exactly_the_table Sample.host_ip). reflexivity.
Defined.


(** ** The configuration file *)

Section ConfigFacts.

Import kdt.

Lemma lower_chr_idem (a : ascii) : Py.lower_chr (Py.lower_chr a) = Py.lower_chr a.
Proof. destruct a as [[] [] [] [] [] [] [] []]; reflexivity. Qed.

Lemma optionxform_idem (s : string) : optionxform (optionxform s) = optionxform s.
Proof.
  unfold optionxform. induction s as [|a s IH]; [reflexivity|].
  simpl. rewrite lower_chr_idem, IH. reflexivity.
Qed.

Lemma odict_get_set_eq {V : Type} (key : string) (v : V) (d : list (string * V)) :
  odict_get key (odict_set key v d) = Some v.
Proof.
  induction d as [|[k x] d IH]; simpl.
  - rewrite String.eqb_refl. reflexivity.
  - destruct (String.eqb_spec k key) as [->|Hne]; simpl.
    + rewrite String.eqb_refl. reflexivity.
    + destruct (String.eqb_spec k key); [contradiction|exact IH].
Qed.

Lemma odict_get_set_ne {V : Type} (key other : string) (v : V) (d : list (string * V)) :
  other <> key -> odict_get other (odict_set key v d) = odict_get other d.
Proof.
  intros Hne. induction d as [|[k x] d IH]; simpl.
  - destruct (String.eqb_spec key other); [congruence|reflexivity].
  - destruct (String.eqb_spec k key) as [->|Hk]; simpl.
    + destruct (String.eqb_spec key other); [congruence|reflexivity].
    + destruct (String.eqb_spec k other); [reflexivity|exact IH].
Qed.

Lemma odict_set_twice {V : Type} (key : string) (v1 v2 : V) (d : list (string * V)) :
  odict_set key v2 (odict_set key v1 d) = odict_set key v2 d.
Proof.
  induction d as [|[k x] d IH]; simpl.
  - rewrite String.eqb_refl. reflexivity.
  - destruct (String.eqb_spec k key) as [->|Hk]; simpl.
    + rewrite String.eqb_refl. reflexivity.
    + destruct (String.eqb_spec k key); [contradiction|]. rewrite IH. reflexivity.
Qed.

Lemma odict_set_same {V : Type} (key : string) (v : V) (d : list (string * V)) :
  odict_get key d = Some v -> odict_set key v d = d.
Proof.
  induction d as [|[k x] d IH]; simpl; [discriminate|].
  destruct (String.eqb_spec k key) as [->|Hk].
  - intros [= ->]. reflexivity.
  - intros H. rewrite (IH H). reflexivity.
Qed.

Lemma odict_set_fresh {V : Type} (key : string) (v : V) (d : list (string * V)) :
  ~ In key (map fst d) -> odict_set key v d = d ++ [(key, v)].
Proof.
  induction d as [|[k x] d IH]; [reflexivity|]. simpl. intros H.
  destruct (String.eqb_spec k key) as [->|_]; [tauto|].
  rewrite IH by tauto. reflexivity.
Qed.

(** Setting a key keeps the order of the keys; a new key comes last. *)
Lemma odict_set_keys {V : Type} (key : string) (v : V) (d : list (string * V)) :
  map fst (odict_set key v d)
    = if odict_has key d then map fst d else map fst d ++ [key].
Proof.
  unfold odict_has. induction d as [|[k x] d IH]; [reflexivity|]. simpl.
  destruct (String.eqb_spec k key) as [->|Hk]; simpl; [reflexivity|].
  rewrite IH. destruct (existsb _ d); reflexivity.
Qed.

Lemma odict_has_set {V : Type} (key : string) (v : V) (d : list (string * V)) :
  odict_has key (odict_set key v d) = true.
Proof.
  unfold odict_has. induction d as [|[k x] d IH]; simpl.
  - rewrite String.eqb_refl. reflexivity.
  - destruct (String.eqb_spec k key) as [->|Hk]; simpl.
    + rewrite String.eqb_refl. reflexivity.
    + rewrite IH. apply orb_true_r.
Qed.

Lemma odict_get_In {V : Type} (key : string) (v : V) (d : list (string * V)) :
  odict_get key d = Some v -> In (key, v) d.
Proof.
  induction d as [|[k x] d IH]; simpl; [discriminate|].
  destruct (String.eqb_spec k key) as [->|_].
  - intros [= ->]. left. reflexivity.
  - intros H. right. exact (IH H).
Qed.

Lemma before_set_accepted (value : string) :
  accepted_value value = true -> before_set value = Returns value.
Proof.
  unfold accepted_value, before_set. intros H. apply negb_true_iff in H.
  rewrite H. reflexivity.
Qed.

Lemma ConfigParser_set_stored (section option value : string) (self : ConfigParser)
    (current : ConfigSection) :
  section <> EmptyString -> section <> default_section ->
  accepted_value value = true ->
  odict_get section (_sections self) = Some current ->
  ConfigParser_set section option value self
    = Returns {| _defaults := _defaults self;
                 _sections :=
                   odict_set section (odict_set (optionxform option) value current)
                     (_sections self) |}.
Proof.
  intros Hne Hnd Hv Hget. unfold ConfigParser_set.
  assert (Hset : (if Py.truthy value then before_set value else Returns value)
                 = Returns value).
  { destruct (Py.truthy value); [apply before_set_accepted, Hv|reflexivity]. }
  rewrite Hset. cbn [mbind outcome_bind].
  assert (Hs : negb (Py.truthy section) || String.eqb section default_section = false).
  { destruct section; [congruence|].
    destruct (String.eqb_spec (String a section) default_section); [contradiction|].
    reflexivity. }
  rewrite Hs, Hget. reflexivity.
Qed.

Lemma existsb_eqb_false (key : string) (l : list string) :
  ~ In key l -> existsb (String.eqb key) l = false.
Proof.
  induction l as [|x l IH]; [reflexivity|]. simpl. intros H.
  destruct (String.eqb_spec key x) as [->|_]; [tauto|]. apply IH. tauto.
Qed.

(** The loop of [read_dict] appends the items to the section, their names
    in lower case, as long as no name comes twice. *)
Lemma read_dict_keys_stored (section : string) (keys : ConfigSection) :
  forall (elements_added : list string) (current : ConfigSection) (self : ConfigParser),
  section <> EmptyString -> section <> default_section ->
  odict_get section (_sections self) = Some current ->
  NoDup (map fst current ++ map fst (stored_items keys)) ->
  (forall key, In key (map fst (stored_items keys)) -> ~ In key elements_added) ->
  forallb (fun item => accepted_value (snd item)) keys = true ->
  read_dict_keys section keys elements_added self
    = Returns {| _defaults := _defaults self;
                 _sections :=
                   odict_set section (current ++ stored_items keys) (_sections self) |}.
Proof.
  induction keys as [|[key value] keys IH];
    intros elements_added current self Hne Hnd Hget Hdup Hadded Hvalid.
  - cbn [read_dict_keys stored_items map]. rewrite app_nil_r.
    rewrite (odict_set_same _ _ _ Hget). destruct self; reflexivity.
  - cbn [read_dict_keys]. cbn [stored_items map fst snd] in Hdup, Hadded.
    fold (stored_items keys) in Hdup, Hadded.
    cbn [forallb snd] in Hvalid. apply andb_prop in Hvalid as [Hv Hvalid].
    rewrite existsb_eqb_false by (apply Hadded; left; reflexivity).
    rewrite (ConfigParser_set_stored _ _ _ _ current Hne Hnd Hv Hget).
    cbn [mbind outcome_bind]. rewrite optionxform_idem.
    assert (Hfresh : ~ In (optionxform key) (map fst current)).
    { apply NoDup_app in Hdup as (_ & Hdisj & _). intros Hin.
      apply (Hdisj (optionxform key)); [apply list_elem_of_In; exact Hin|left]. }
    rewrite (odict_set_fresh _ _ _ Hfresh).
    rewrite (IH (optionxform key :: elements_added)
               (current ++ [(optionxform key, value)])).
    + cbn [_defaults _sections]. rewrite odict_set_twice, <- app_assoc. reflexivity.
    + exact Hne.
    + exact Hnd.
    + cbn [_sections]. apply odict_get_set_eq.
    + rewrite map_app. cbn [map fst]. rewrite <- app_assoc. exact Hdup.
    + intros k Hk [<-|Hin].
      * apply NoDup_app in Hdup as (_ & _ & Hrest).
        apply NoDup_cons in Hrest as [Hnot _]. apply Hnot, list_elem_of_In, Hk.
      * apply (Hadded k); [right; exact Hk|exact Hin].
    + exact Hvalid.
Qed.

(** [kdt_config[section_name] = section], for a name that is a section's
    own: the section is replaced where it stands, or added after the
    others. *)
Lemma ConfigParser_setitem_stored (section_name : string) (section : ConfigSection)
    (kdt_config : ConfigParser) :
  section_name <> EmptyString -> section_name <> default_section ->
  NoDup (map fst (stored_items section)) ->
  forallb (fun item => accepted_value (snd item)) section = true ->
  ConfigParser_setitem section_name section kdt_config
    = Returns {| _defaults := _defaults kdt_config;
                 _sections :=
                   odict_set section_name (stored_items section)
                     (_sections kdt_config) |}.
Proof.
  intros Hne Hnd Hdup Hvalid.
  unfold ConfigParser_setitem, ConfigParser_read_dict, ConfigParser_add_section.
  destruct (String.eqb_spec section_name default_section) as [|_]; [contradiction|].
  destruct (odict_has section_name (_sections kdt_config)) eqn:Ehas.
  - cbn [_sections _defaults]. rewrite odict_has_set.
    rewrite (read_dict_keys_stored section_name section [] []); try assumption.
    + cbn [_defaults _sections app]. rewrite odict_set_twice. reflexivity.
    + cbn [_sections]. apply odict_get_set_eq.
    + intros key _ [].
  - rewrite Ehas.
    rewrite (read_dict_keys_stored section_name section [] []); try assumption.
    + cbn [_defaults _sections app]. rewrite odict_set_twice. reflexivity.
    + cbn [_sections]. apply odict_get_set_eq.
    + intros key _ [].
Qed.

(** The text written holds every section of the parser as
    [_write_section] writes it. *)
Lemma ConfigParser_write_holds (self : ConfigParser) (name : string)
    (items : ConfigSection) :
  In (name, items) (_sections self) ->
  exists before after,
    ConfigParser_write self = before +:+ write_section name items +:+ after.
Proof.
  unfold ConfigParser_write. intros Hin.
  apply in_split in Hin as (l1 & l2 & ->).
  rewrite map_app. cbn [map fst snd]. rewrite str_concat_app, str_concat_cons.
  eexists (_ +:+ _), _. rewrite str_app_assoc. reflexivity.
Qed.



End ConfigFacts.


(** ** The make commands *)

Section MakeFacts.

Context {W : Type}.
Variable spawn : list string -> W -> option (Z * string * string) * W.
Variable path_exists : string -> W -> bool.

Lemma length_eqb_0 {A : Type} (l : list A) : l <> [] -> (length l =? 0)%nat = false.
Proof. destruct l; [congruence|reflexivity]. Qed.

(** [make] does not tell a failed build from a good one: outside debug
    mode, once the make command is set and [make] has run to its end, the
    call returns whatever the exit status was. *)
Theorem make_ignores_exit_status
    (self : kdt.BashCommands) (args : list string) (w w' : W)
    (returncode : Z) (out err : string) :
  kdt.debug self = false ->
  kdt.make_command self <> [] ->
  spawn (kdt.make_command self ++ args) w = (Some (returncode, out, err), w') ->
  kdt.make spawn self args w = (Returns tt, w').
Proof.
  intros Hdebug Hset Hspawn. unfold kdt.make. rewrite (length_eqb_0 _ Hset).
  unfold mbind, prog_bind, kdt.kdt_run, kdt.print_command, kdt.run.
  rewrite Hdebug. cbn [negb andb]. rewrite Hspawn.
  destruct (negb (returncode =? 0)); reflexivity.
Qed.

(** When [make_pass] returns, its result is true in debug mode only: in
    debug mode it is the tuple of the dry run, and otherwise the method
    ends without a [return], which gives [None]. *)
Lemma make_pass_returns (self : kdt.BashCommands) (args : list string) (w w' : W)
    (passed : option (bool * string * string)) :
  kdt.make_pass spawn self args w = (Returns passed, w') ->
  bool_decide (is_Some passed) = kdt.debug self.
Proof.
  unfold kdt.make_pass, kdt.print_command.
  destruct (kdt.debug self); cbn [andb negb]; [intros [= <- _]; reflexivity|].
  destruct (length (kdt.make_command self) =? 0)%nat; [discriminate|].
  destruct (kdt.run spawn (kdt.make_command self ++ args) false w) as [[| |] w1];
    intros [= <- _]; reflexivity.
Qed.

(** Outside debug mode [make_command] does not return for a command that is
    not empty: [make_pass] has no true result to give, so the call ends in
    [sys.exit(-1)] at the latest, also after a build that succeeded, and the
    links for Eclipse are not made again. *)
Theorem make_command_never_returns_outside_debug_mode
    (self : kernel_builder.KernelBuilder) (command : list string) (w w' : W) (u : unit) :
  kdt.debug (kernel_builder.bash self) = false ->
  command <> [] ->
  kernel_builder.make_command spawn path_exists self command w <> (Returns u, w').
Proof.
  intros Hdebug Hcommand H. unfold kernel_builder.make_command in H.
  rewrite (length_eqb_0 _ Hcommand) in H.
  apply prog_bind_Returns in H as (? & w1 & _ & H).
  apply prog_bind_Returns in H as (passed & w2 & Hpass & H).
  pose proof (make_pass_returns _ _ _ _ _ Hpass) as Hout.
  rewrite Hdebug in Hout. rewrite Hout in H. discriminate H.
Qed.

End MakeFacts.

(** ** Finding the devices of the network *)

Section ScanFacts.

Import get_ip.

Context {W : Type}.
Variable spawn : list string -> W -> option (Z * string * string) * W.

(** A scan that prints nothing looks like one line, an empty one. *)
Lemma scan_lines_nothing (net_devs : gmap string string) :
  scan_lines (Py.split_chr Py.LF EmptyString) net_devs = Raises ValueError.
Proof. reflexivity. Qed.

(** When the scan of a range finds no device, [arp-scan] prints nothing and
    [list_net_devices] raises [ValueError] (the empty line does not unpack
    into an address and a MAC address) instead of going on with the devices
    of the other ranges. *)
Theorem list_net_devices_empty_scan_raises
    (ip_range : string) (rest : list string) (out err : string) (w w1 w' : W) :
  get_ip_ranges spawn w = (Returns (ip_range :: rest), w1) ->
  spawn ["sudo"; "arp-scan"; "-qxr"; "4"; ip_range] w1 = (Some (0, out, err), w') ->
  out = EmptyString \/ out = Py.nl ->
  list_net_devices spawn w = (Raises ValueError, w').
Proof.
  intros Hranges Hspawn Hout. unfold list_net_devices.
  unfold mbind at 1. unfold prog_bind. rewrite Hranges.
  cbn [scan_ranges]. unfold mbind at 1. unfold prog_bind.
  unfold kdt.kdt_run_str, kdt.print_command, kdt.run, bash.
  cbn [kdt.debug andb negb]. rewrite Hspawn. cbn [Z.eqb andb negb].
  assert (Hcut : Py.slice None (Some (-1)) out = EmptyString)
    by (destruct Hout as [->| ->]; reflexivity).
  rewrite Hcut. unfold mbind at 1. unfold prog_bind. unfold lift.
  rewrite scan_lines_nothing. reflexivity.
Qed.

Lemma dict_set_fresh (key value : string) (d : list (string * string)) :
  ~ In key (map fst d) -> dict_set key value d = d ++ [(key, value)].
Proof.
  induction d as [|[k v] d IH]; [reflexivity|]. simpl. intros H.
  destruct (String.eqb_spec k key) as [->|_]; [tauto|].
  rewrite IH by tauto. reflexivity.
Qed.

Lemma joined_names (host_mac_list : list (string * string))
    (net_devices : gmap string string) (name : string) :
  In name (map fst (joined host_mac_list net_devices)) ->
  In name (map fst host_mac_list).
Proof.
  unfold joined. induction host_mac_list as [|[n m] l IH]; [auto|].
  simpl. rewrite map_app, in_app_iff. intros [H|H]; [|right; exact (IH H)].
  destruct (net_devices !! m); [|destruct H].
  destruct H as [<-|[]]. left. reflexivity.
Qed.

Lemma hosts_found_joined (host_mac_list : list (string * string))
    (net_devices : gmap string string) :
  forall host_ip,
  NoDup (map fst host_ip ++ map fst host_mac_list) ->
  hosts_found host_mac_list net_devices host_ip
    = host_ip ++ joined host_mac_list net_devices.
Proof.
  induction host_mac_list as [|[name mac] l IH]; intros host_ip Hnd.
  - simpl. symmetry. apply app_nil_r.
  - cbn [hosts_found]. unfold joined. cbn [flat_map fst snd]. fold (joined l net_devices).
    cbn [map fst] in Hnd.
    assert (Hfresh : ~ In name (map fst host_ip)).
    { apply NoDup_app in Hnd as (_ & Hdisj & _). intros Hin.
      apply (Hdisj name); [apply list_elem_of_In; exact Hin|left]. }
    assert (Hnd' : forall ip, NoDup (map fst (host_ip ++ [(name, ip)]) ++ map fst l)).
    { intros ip. rewrite map_app. cbn [map fst]. rewrite <- app_assoc. exact Hnd. }
    destruct (net_devices !! mac) as [ip|].
    + rewrite (dict_set_fresh _ _ _ Hfresh), (IH _ (Hnd' ip)), <- app_assoc. reflexivity.
    + apply IH. apply NoDup_app in Hnd as (H1 & Hdisj & H2).
      apply NoDup_app. split; [exact H1|]. split.
      * intros x Hx Hin. apply (Hdisj x Hx). right. exact Hin.
      * apply NoDup_cons in H2 as [_ H2]. exact H2.
Qed.

Lemma in_joined (host_mac_list : list (string * string))
    (net_devices : gmap string string) (name ip : string) :
  In (name, ip) (joined host_mac_list net_devices)
  <-> exists mac, In (name, mac) host_mac_list /\ net_devices !! mac = Some ip.
Proof.
  unfold joined. rewrite in_flat_map. split.
  - intros ([n m] & Hin & H). cbn [fst snd] in H.
    destruct (net_devices !! m) as [i|] eqn:E; [|destruct H].
    destruct H as [Heq|[]]. injection Heq as <- <-. exists m. split; assumption.
  - intros (mac & Hin & E). exists (name, mac). split; [exact Hin|].
    cbn [fst snd]. rewrite E. left. reflexivity.
Qed.

(** [match_host_ip] joins the configured hosts with the scan: once the scan
    has returned, the result holds a hostname with an address exactly when
    the section gives the hostname a MAC address that the scan saw with
    that address, and the hostnames come in the order of the section.  A
    MAC address is matched as it is written, letter case included. *)
Theorem match_host_ip_joins_section_and_scan
    (host_mac_list : list (string * string)) (net_devices : gmap string string)
    (w w' : W) :
  NoDup (map fst host_mac_list) ->
  list_net_devices spawn w = (Returns net_devices, w') ->
  match_host_ip spawn (Some host_mac_list) w
    = (Returns (joined host_mac_list net_devices), w') /\
  forall name ip,
    In (name, ip) (joined host_mac_list net_devices)
    <-> exists mac, In (name, mac) host_mac_list /\ net_devices !! mac = Some ip.
Proof.
  intros Hnd Hscan. split; [|intros name ip; apply in_joined].
  unfold match_host_ip. unfold mbind at 1. unfold prog_bind. rewrite Hscan.
  unfold mret, prog_ret. rewrite hosts_found_joined by exact Hnd. reflexivity.
Qed.

End ScanFacts.

(** ** The make commands and the scan on the sample launcher *)

Lemma make_ignores_exit_status_witness :
  kdt.make (Net.spawn EmptyString EmptyString 2) (kernel_builder.bash Net.builder)
    ["Image"] []
  = (Returns tt, [["make"; "-j8"; "ARCH=arm64"; "O=/build/rpi/kernel"; "Image"]]).
Proof.
  apply (make_ignores_exit_status (Net.spawn EmptyString EmptyString 2)
           (kernel_builder.bash Net.builder) ["Image"] [] _ 2 EmptyString EmptyString).
  - reflexivity.
  - discriminate.
  - reflexivity.
Defined.

Lemma make_command_never_returns_outside_debug_mode_witness :
  kernel_builder.make_command (Net.spawn EmptyString EmptyString 0) (fun _ _ => true)
    Net.builder ["menuconfig"] []
  = (Exits "-1",
     [["rm"; "-rf"; "/build/eclipse_include/include"];
      ["rm"; "-rf"; "/build/eclipse_include/arch/arm64/include"];
      ["make"; "-j8"; "ARCH=arm64"; "O=/build/rpi/kernel"; "menuconfig"]]) /\
  kernel_builder.make_command (Net.spawn EmptyString EmptyString 0) (fun _ _ => true)
    Net.builder ["menuconfig"] []
  <> (Returns tt,
      [["rm"; "-rf"; "/build/eclipse_include/include"];
       ["rm"; "-rf"; "/build/eclipse_include/arch/arm64/include"];
       ["make"; "-j8"; "ARCH=arm64"; "O=/build/rpi/kernel"; "menuconfig"]]).
Proof.
  split; [vm_compute; reflexivity|].
  apply make_command_never_returns_outside_debug_mode; [reflexivity|discriminate].
Defined.

Lemma list_net_devices_empty_scan_raises_witness :
  get_ip.get_ip_ranges (Net.spawn Net.one_interface EmptyString 0) []
    = (Returns ["192.168.1.0/24"],
       [["ip"; "-f"; "inet"; "addr"; "show"; "scope"; "global"]]) /\
  get_ip.list_net_devices (Net.spawn Net.one_interface EmptyString 0) []
    = (Raises ValueError,
       [["ip"; "-f"; "inet"; "addr"; "show"; "scope"; "global"];
        ["sudo"; "arp-scan"; "-qxr"; "4"; "192.168.1.0/24"]]).
Proof.
  split; [vm_compute; reflexivity|].
  apply (list_net_devices_empty_scan_raises (Net.spawn Net.one_interface EmptyString 0)
           "192.168.1.0/24" [] EmptyString EmptyString []
           [["ip"; "-f"; "inet"; "addr"; "show"; "scope"; "global"]]).
  - vm_compute. reflexivity.
  - reflexivity.
  - left. reflexivity.
Defined.

Lemma match_host_ip_joins_section_and_scan_witness :
  exists w',
    get_ip.match_host_ip (Net.spawn Net.one_interface Net.two_devices 0)
      (Some [("rpi", "b8:27:eb:00:00:01"); ("nuc", "94:C6:91:00:00:02")]) []
    = (Returns [("rpi", "192.168.1.7")], w').
Proof.
  destruct (get_ip.list_net_devices (Net.spawn Net.one_interface Net.two_devices 0) [])
    as [[net_devices| |] w'] eqn:E; [|vm_compute in E; discriminate E..].
  exists w'.
  destruct (match_host_ip_joins_section_and_scan
              (Net.spawn Net.one_interface Net.two_devices 0)
              [("rpi", "b8:27:eb:00:00:01"); ("nuc", "94:C6:91:00:00:02")]
              net_devices [] w') as [-> _].
  - apply (bool_decide_unpack _). vm_compute. exact I.
  - exact E.
  - vm_compute in E. injection E as <- <-. vm_compute. reflexivity.
Defined.

(** ** The ranges to scan *)

Section RangeFacts.

Import get_ip.

Lemma not_chr_of (P : ascii -> bool) (c : ascii) (s : string) :
  P c = false -> all_chars P s = true -> all_chars (not_chr c) s = true.
Proof.
  intros Hc. apply all_chars_impl. intros a Ha. unfold not_chr.
  destruct (Ascii.eqb_spec a c) as [->|_]; [congruence|reflexivity].
Qed.

Lemma digit_address_char (s : string) :
  all_chars is_digit s = true -> all_chars address_char s = true.
Proof.
  apply all_chars_impl. intros a Ha. unfold address_char. rewrite Ha. reflexivity.
Qed.

Lemma rfind_None (c : ascii) (s : string) :
  all_chars (not_chr c) s = true -> Py.rfind (String c EmptyString) s = None.
Proof.
  induction s as [|a s IH]; [reflexivity|]. simpl all_chars.
  intros H. apply andb_prop in H as [Ha Hs]. unfold not_chr in Ha.
  apply negb_true_iff in Ha. rewrite Ascii.eqb_sym in Ha.
  cbn [Py.rfind]. rewrite (IH Hs). cbn [Py.startswith]. rewrite Ha. reflexivity.
Qed.

(** The last occurrence of a character is before the text that has none. *)
Lemma rfind_last (c : ascii) (t s : string) :
  all_chars (not_chr c) s = true ->
  Py.rfind (String c EmptyString) (t +:+ String c s) = Some (String.length t).
Proof.
  intros Hs. induction t as [|a t IH].
  - rewrite str_app_nil_l. cbn [Py.rfind]. rewrite (rfind_None _ _ Hs).
    cbn [Py.startswith]. rewrite Ascii.eqb_refl. reflexivity.
  - rewrite str_app_cons. cbn [Py.rfind]. rewrite IH. reflexivity.
Qed.

(** A search for [" brd"] passes over blanks that are not followed by
    [b]. *)
Lemma find_brd_indent (t s : string) (x : ascii) :
  all_chars (Ascii.eqb Py.SP) t = true ->
  x <> "b"%char ->
  Py.find " brd" (t +:+ String x s)
    = option_map (Nat.add (String.length t)) (Py.find " brd" (String x s)).
Proof.
  intros Ht Hx. induction t as [|a t IH].
  - rewrite str_app_nil_l. destruct (Py.find _ _); reflexivity.
  - cbn [all_chars] in Ht. apply andb_prop in Ht as [Ha Ht]. apply Ascii.eqb_eq in Ha. subst a.
    rewrite str_app_cons, find_cons.
    assert (Hno : Py.startswith " brd" (String Py.SP (t +:+ String x s)) = false).
    { cbn [Py.startswith]. rewrite Ascii.eqb_refl. cbn [andb].
      destruct t as [|b t'].
      - rewrite str_app_nil_l. cbn [Py.startswith].
        apply Ascii.eqb_neq in Hx. rewrite Ascii.eqb_sym in Hx. rewrite Hx. reflexivity.
      - cbn [all_chars] in Ht. apply andb_prop in Ht as [Hb _]. apply Ascii.eqb_eq in Hb. subst b.
        rewrite str_app_cons. reflexivity. }
    rewrite Hno, (IH Ht). destruct (Py.find " brd" (String x s)); reflexivity.
Qed.

Lemma address_first_char (net tail : string) :
  all_chars address_char net = true ->
  exists x s, net +:+ "." +:+ tail = String x s /\ x <> "b"%char.
Proof.
  destruct net as [|a net]; intros H.
  - exists "."%char, tail. split; [reflexivity|discriminate].
  - exists a, (net +:+ "." +:+ tail). split; [apply str_app_cons|].
    simpl in H. apply andb_prop in H as [Ha _]. intros ->. discriminate Ha.
Qed.

Lemma find_inet (indent tail : string) :
  all_chars (Ascii.eqb Py.SP) indent = true ->
  Py.find "inet " (indent +:+ "inet " +:+ tail) = Some (String.length indent).
Proof.
  intros H.
  rewrite (find_skip "i" "net " indent ("inet " +:+ tail)).
  - rewrite find_here by apply startswith_app. simpl. rewrite Nat.add_0_r. reflexivity.
  - revert H. apply all_chars_impl. intros a Ha. apply Ascii.eqb_eq in Ha. subst a.
    reflexivity.
Qed.

Lemma find_brd (indent addr rest : string) (x : ascii) (s : string) :
  all_chars (Ascii.eqb Py.SP) indent = true ->
  all_chars (not_chr Py.SP) addr = true ->
  addr = String x s -> x <> "b"%char ->
  Py.find " brd" (indent +:+ "inet " +:+ addr +:+ " brd" +:+ rest)
    = Some (String.length indent + 5 + String.length addr)%nat.
Proof.
  intros Hi Ha Hx Hb.
  change ("inet " +:+ addr +:+ " brd" +:+ rest)
    with (String "i" ("net" +:+ String Py.SP (addr +:+ " brd" +:+ rest))).
  rewrite (find_brd_indent indent _ "i" Hi) by discriminate.
  change (String "i" ("net" +:+ String Py.SP (addr +:+ " brd" +:+ rest)))
    with ("inet" +:+ String Py.SP (addr +:+ " brd" +:+ rest)).
  rewrite (find_skip Py.SP "brd" "inet") by reflexivity.
  rewrite find_cons.
  assert (Hno : Py.startswith (String Py.SP "brd")
                   (String Py.SP (addr +:+ " brd" +:+ rest)) = false).
  { rewrite Hx, str_app_cons. cbn [Py.startswith]. rewrite Ascii.eqb_refl.
    apply Ascii.eqb_neq in Hb. rewrite Ascii.eqb_sym in Hb. rewrite Hb. reflexivity. }
  rewrite Hno.
  rewrite (find_skip Py.SP "brd" addr (" brd" +:+ rest) Ha).
  rewrite find_here by apply startswith_app.
  cbn [option_map]. f_equal. simpl String.length. lia.
Qed.

(** From the address line of an interface, [get_ip_ranges] takes the
    address up to its last dot, puts [.0] after it and keeps the prefix
    length as it is. *)
Theorem ip_range_of_address_line (indent net host mask rest : string) :
  all_chars (Ascii.eqb Py.SP) indent = true ->
  all_chars address_char net = true ->
  all_chars is_digit host = true ->
  all_chars is_digit mask = true ->
  ip_range_of (address_line indent net host mask rest)
    = Returns (net +:+ ".0" +:+ "/" +:+ mask).
Proof.
  intros Hindent Hnet Hhost Hmask. unfold address_line.
  set (addr := net +:+ "." +:+ host +:+ "/" +:+ mask).
  assert (Hhost' : all_chars address_char host = true) by exact (digit_address_char _ Hhost).
  assert (Hmask' : all_chars address_char mask = true) by exact (digit_address_char _ Hmask).
  assert (Hsp : all_chars (not_chr Py.SP) addr = true).
  { subst addr. rewrite !all_chars_app.
    rewrite (not_chr_of address_char Py.SP net), (not_chr_of address_char Py.SP host),
      (not_chr_of address_char Py.SP mask) by (reflexivity || assumption).
    reflexivity. }
  destruct (address_first_char net (host +:+ "/" +:+ mask) Hnet) as (x & s & Hx & Hb).
  fold addr in Hx.
  assert (Ewhole : indent +:+ "inet " +:+ net +:+ "." +:+ host +:+ "/" +:+ mask
                     +:+ " brd" +:+ rest
                   = indent +:+ "inet " +:+ addr +:+ " brd" +:+ rest).
  { subst addr. rewrite !str_app_assoc. reflexivity. }
  rewrite Ewhole. unfold ip_range_of, Py.index.
  rewrite (find_inet indent _ Hindent).
  cbn [mbind outcome_bind].
  rewrite (find_brd indent addr rest x s Hindent Hsp Hx Hb).
  cbn [mbind outcome_bind].
  assert (Ecut : Py.slice
                   (Some (Z.of_nat (String.length indent)
                          + Z.of_nat (String.length "inet ")))
                   (Some (Z.of_nat (String.length indent + 5 + String.length addr)))
                   (indent +:+ "inet " +:+ addr +:+ " brd" +:+ rest) = addr).
  { pose proof (slice_middle (indent +:+ "inet ") addr (" brd" +:+ rest)) as Hs.
    rewrite str_length_app in Hs. simpl String.length in Hs.
    rewrite !str_app_assoc in Hs.
    replace (Z.of_nat (String.length indent) + Z.of_nat (String.length "inet "))
      with (Z.of_nat (String.length indent + 5)) by (simpl String.length; lia).
    exact Hs. }
  rewrite Ecut.
  assert (Esplit : Py.split_chr "/" addr = [net +:+ "." +:+ host; mask]).
  { subst addr.
    replace (net +:+ "." +:+ host +:+ "/" +:+ mask)
      with ((net +:+ "." +:+ host) +:+ String "/" mask)
      by (rewrite !str_app_assoc; reflexivity).
    rewrite split_chr_app.
    - rewrite split_chr_one; [reflexivity|].
      apply (not_chr_of address_char); [reflexivity|exact Hmask'].
    - rewrite !all_chars_app.
      rewrite (not_chr_of address_char "/" net), (not_chr_of address_char "/" host)
        by (reflexivity || assumption).
      reflexivity. }
  rewrite Esplit. cbn [mbind outcome_bind]. unfold Py.rindex.
  change (net +:+ "." +:+ host) with (net +:+ String "." host).
  rewrite (rfind_last "." net host) by (apply (not_chr_of is_digit); [reflexivity|exact Hhost]).
  cbn [mbind outcome_bind mret outcome_ret].
  rewrite slice_prefix, str_take_app_length, str_app_assoc. reflexivity.
Qed.

(** An address line without a broadcast address, as a tunnel has it, is a
    [ValueError]. *)
Lemma ip_range_of_without_brd (iface_ln : string) :
  Py.contains " brd" iface_ln = false -> ip_range_of iface_ln = Raises ValueError.
Proof.
  intros H. unfold ip_range_of, Py.index. rewrite (find_None _ _ H).
  destruct (Py.find "inet " iface_ln); reflexivity.
Qed.

End RangeFacts.

(** ** The ranges at sample addresses *)

Lemma ip_range_of_address_line_witness :
  get_ip.ip_range_of
    "    inet 10.1.2.3/16 brd 10.1.255.255 scope global dynamic eth0"
  = Returns "10.1.2.0/16".
Proof.
  apply (ip_range_of_address_line "    " "10.1.2" "3" "16"
           " 10.1.255.255 scope global dynamic eth0");
    reflexivity.
Defined.
